(** * Runner: the training / evaluation orchestration loop of ASP

    A shallow embedding of [util/runner.py] (class [Runner]) and of the
    evaluation script [evaluate_ner.py], the properties the
    specification states about the runner, and further properties of
    both that the code shows.

    Conventions of the embedding:
    - Python [int] is [Z]; [%] and [//] are floor based like [Z.modulo]
      and [Z.div], and raise [ZeroDivisionError] on a zero divisor.
    - Floating point scalars that the runner only stores, divides, sums or
      forwards (losses, learning rates, ratios) are kept abstract: the
      class [PyFloat] lists the operations the source applies to them.
    - Model-selection scores are compared ([f1 > max_f1]); finite floats
      compare like the rationals they denote, so scores are in [Q].
    - Exceptions are values of [PyErr]; effects (optimizer, scheduler,
      files on disk, the sequence of calls to collaborators) live in a
      [World] that survives a raised exception, as in Python.
    - torch, transformers and the task specific subclasses are
      collaborators: what the runner needs from them is the class [Env]. *)

From Stdlib Require Import ZArith QArith List String Ascii Lia Bool.
From stdpp Require Import base gmap strings list pretty.

Local Open Scope Z_scope.
Local Open Scope string_scope.
Local Open Scope list_scope.

(* ===================================================================== *)
(** * Python primitives used by the runner *)
(* ===================================================================== *)

Module Py.

Inductive PyErr : Type :=
| TypeError
| ZeroDivisionError
| AttributeError
| UnboundLocalError
| ValueError
| OSError
| FileNotFoundError
| UnpicklingError.

Inductive Result (A : Type) : Type :=
| Ok (a : A)
| Raise (e : PyErr).
Arguments Ok {A} a.
Arguments Raise {A} e.

(** [a % b] on ints. *)
Definition py_mod (a b : Z) : Result Z :=
  if Z.eqb b 0 then Raise ZeroDivisionError else Ok (Z.modulo a b).

(** [a // b] on ints. *)
Definition py_floordiv (a b : Z) : Result Z :=
  if Z.eqb b 0 then Raise ZeroDivisionError else Ok (Z.div a b).

(** [str.lower()], on ASCII letters. *)
Definition lower_ascii (c : ascii) : ascii :=
  let n := nat_of_ascii c in
  if andb (Nat.leb 65 n) (Nat.leb n 90) then ascii_of_nat (n + 32) else c.

Fixpoint lower (s : string) : string :=
  match s with
  | EmptyString => EmptyString
  | String c s' => String (lower_ascii c) (lower s')
  end.

(** [sub in s] on strings: [sub] occurs in [s] as a contiguous block. *)
Fixpoint str_in (sub s : string) : bool :=
  if String.prefix sub s then true
  else match s with
       | EmptyString => false
       | String _ s' => str_in sub s'
       end.

(** [any(nd in n for nd in pats)]. *)
Definition any_in (pats : list string) (n : string) : bool :=
  existsb (fun nd => str_in nd n) pats.

Fixpoint ends_with_slash (s : string) : bool :=
  match s with
  | EmptyString => false
  | String c EmptyString => Ascii.eqb c "/"%char
  | String _ s' => ends_with_slash s'
  end.

(** [os.path.join(a, b)] (and [Path(a) / b]) for a relative [b]; every
    second component the runner passes starts with a letter. *)
Definition join (a b : string) : string :=
  match a with
  | EmptyString => b
  | _ => if ends_with_slash a then a +:+ b else a +:+ "/" +:+ b
  end.

(** [str(n)] for an int. *)
Definition str_of_int (n : Z) : string := pretty n.

(** [range(a, b)]. *)
Definition range (a b : Z) : list Z :=
  map (fun i => a + Z.of_nat i) (seq 0 (Z.to_nat (b - a))).

(** [x > y] on finite floats. *)
Definition gt (x y : Q) : bool := negb (Qle_bool x y).

(** The builtin [max(a, b)]: the first argument unless the second is
    strictly greater. *)
Definition max2 (a b : Q) : Q := if gt b a then b else a.

End Py.
Import Py.

(** The arithmetic the source performs on floating point values. *)
Class PyFloat : Type := {
  float : Type;
  f_zero : float;                         (* the literal 0.0 *)
  f_add : float -> float -> float;        (* x + y *)
  f_mul : float -> float -> float;        (* x * y *)
  f_div_int : float -> Z -> float;        (* x / n; a tensor divided by 0 is inf or nan *)
  f_truthy : float -> bool;               (* bool(x) *)
  np_sum : list float -> float;           (* np.sum(xs).item() *)
  int_of_scaled : Z -> float -> Z         (* int(n * x) *)
}.

(* ===================================================================== *)
(** * Data model *)
(* ===================================================================== *)

Section DataModel.
Context `{PyFloat}.

(** The configuration mapping returned by [util.initialize_config];
    the keys are those the runner reads. *)
Record Config : Type := {
  task : string;
  use_amp : bool;
  log_dir : string;
  batch_size : Z;
  num_epochs : Z;
  gradient_accumulation_steps : Z;
  max_grad_norm : option float;
  optimizer_name : string;            (* config["optimizer"] *)
  plm_learning_rate : float;
  task_learning_rate : float;
  adam_weight_decay : float;
  adam_eps : float;
  plm_scheduler : string;
  task_scheduler : string;
  warmup_ratio : float;
  report_frequency : Z;
  eval_frequency : Z
}.

Inductive DataProcessor : Type :=
| CorefDataProcessor (c : Config)
| NERDataProcessor (c : Config)
| EREDataProcessor (c : Config).

Inductive CollateFn : Type := coref_collate_fn | ner_collate_fn | ere_collate_fn.

Inductive WrapperClass : Type := CorefWrapper | NERWrapper | EREWrapper.

Inductive Split : Type := Train | Dev | Test | Seen | Unseen.

End DataModel.

(** The opaque values of torch and of the evaluators. *)
Class Tensors : Type := {
  Param : Type;                 (* a parameter tensor *)
  Weights : Type;               (* the values held by a model's parameters *)
  OptState : Type;              (* AdamW's per-parameter state *)
  Metrics : Type                (* a metrics report *)
}.

Section Wrappers.
Context `{Tensors}.

(** [wrapper.model]: its parameters as [wrapper.get_params(named=True)]
    splits them (encoder, task head) and the values they hold. *)
Record Model : Type := {
  plm_named : list (string * Param);
  task_named : list (string * Param);
  weights : Weights
}.

Record Wrapper : Type := {
  w_class : WrapperClass;
  model : Model
}.

End Wrappers.

(** What the runner needs from its collaborators: torch's AdamW update,
    the wrapper classes, the task specific evaluator (the [evaluate]
    method a subclass of [Runner] supplies), the learning-rate curves of
    [util.get_scheduler_lambda] and the tensorized data. *)
Class Env `{PyFloat} `{Tensors} : Type := {
  fresh_opt_state : OptState;
  (* optimizer.step() on the accumulated gradients *)
  adamw_update : OptState -> Weights -> OptState * Weights;
  (* wrapper_class_fn(config, device, pretrained_path=...) *)
  new_wrapper : WrapperClass -> Config -> option Z -> option string -> Wrapper;
  (* the wrapper called on mini-batch [i] of epoch [epo] *)
  forward_loss : Weights -> Z -> nat -> float;
  (* self.evaluate(wrapper, examples, stored_info, step): (f1, metrics) *)
  evaluate : Weights -> Split -> Z -> Q * Metrics;
  (* util.get_scheduler_lambda(name, warmup_steps, total_steps) *)
  get_scheduler_lambda : string -> Z -> Z -> Z -> float;
  (* len(data.get_tensor_examples()[0]) *)
  len_train : DataProcessor -> nat
}.

Section Runner.
Context `{Env}.

(** One entry of [optimizer.param_groups]. *)
Record ParamGroup : Type := {
  params : list Param;
  lr : float;
  weight_decay : float;
  eps : float;
  fused : bool;
  initial_lr : option float     (* set by the scheduler's constructor *)
}.

Record Optimizer : Type := {
  param_groups : list ParamGroup;
  state : OptState
}.

(** torch.optim.lr_scheduler.LambdaLR *)
Record Scheduler : Type := {
  lr_lambdas : list (Z -> float);
  base_lrs : list float;
  last_epoch : Z;
  _step_count : Z;
  _last_lr : list float
}.

(** [optimizer.state_dict()]: parameters are replaced by their indices,
    so a group keeps its hyper-parameters and the number of its
    parameters. *)
Record GroupState : Type := {
  g_nparams : nat;
  g_lr : float;
  g_weight_decay : float;
  g_eps : float;
  g_fused : bool;
  g_initial_lr : option float
}.

Record OptimizerStateDict : Type := {
  sd_state : OptState;
  sd_param_groups : list GroupState
}.

(** [scheduler.state_dict()]: every attribute but the optimizer and the
    lambda functions. *)
Record SchedulerStateDict : Type := {
  sd_base_lrs : list float;
  sd_last_epoch : Z;
  sd_step_count : Z;
  sd_last_lr : list float
}.

(** The dictionary written by [torch.save] in [save_model_checkpoint]. *)
Record Checkpoint : Type := {
  current_epoch : Z;
  optimizer_state_dict : OptimizerStateDict;
  scheduler_state_dict : SchedulerStateDict
}.

Inductive FileContent : Type :=
| FCheckpoint (c : Checkpoint)
| FJson (obj : list (string * Metrics)).

(** Calls that leave the runner, in the order they are made. *)
Inductive Event : Type :=
| EForward (epo : Z) (batch : nat) (loss : float)   (* what the wrapper returned *)
| EBackward (loss : float)                          (* loss.backward() *)
| EClipGradNorm
| EOptimizerStep
| ESchedulerStep
| EReport (step : Z) (avg_loss : float)
| EEvaluate (s : Split) (step : Z) (f1 : Q)
| ETorchSave (path : string)
| ESavePretrained (dir : string)
| EFromPretrained (name_or_path : string)
| ETorchLoad (path : string)
| EJsonDump (path : string).

(** The mutable surroundings of a run: [self.optimizer] and
    [self.scheduler], the files on disk, the places
    [from_pretrained] can load a model from (a directory written by
    [save_pretrained] or an external pretrained-model identifier), and
    the calls made so far. *)
Record World : Type := {
  self_optimizer : option Optimizer;
  self_scheduler : option Scheduler;
  files : gmap string FileContent;
  pretrained : gmap string Model;
  trace : list Event
}.

(** The attributes [__init__] sets; [None] is an attribute that was
    never assigned. *)
Record Runner : Type := {
  name : string;
  name_suffix : string;
  gpu_id : option Z;
  seed : option Z;
  config : Config;
  device : option Z;            (* None is 'cpu' *)
  r_use_amp : bool;
  data : option DataProcessor;
  collate_fn : option CollateFn;
  wrapper_class_fn : option WrapperClass
}.

(* ------------------------------------------------------------------- *)
(** ** Effects: state that survives exceptions *)

Definition M (A : Type) : Type := World -> World * Result A.

Definition ret {A} (a : A) : M A := fun w => (w, Ok a).
Definition raise {A} (e : PyErr) : M A := fun w => (w, Raise e).
Definition bind {A B} (m : M A) (f : A -> M B) : M B :=
  fun w => match m w with
           | (w', Ok a) => f a w'
           | (w', Raise e) => (w', Raise e)
           end.
Definition lift {A} (r : Result A) : M A := fun w => (w, r).

Definition emit (e : Event) : M unit :=
  fun w => ({| self_optimizer := self_optimizer w;
               self_scheduler := self_scheduler w;
               files := files w;
               pretrained := pretrained w;
               trace := trace w ++ [e] |}, Ok tt).

Definition set_optimizer (o : Optimizer) : M unit :=
  fun w => ({| self_optimizer := Some o;
               self_scheduler := self_scheduler w;
               files := files w;
               pretrained := pretrained w;
               trace := trace w |}, Ok tt).

Definition set_scheduler (s : Scheduler) : M unit :=
  fun w => ({| self_optimizer := self_optimizer w;
               self_scheduler := Some s;
               files := files w;
               pretrained := pretrained w;
               trace := trace w |}, Ok tt).

(** Reading [self.optimizer] / [self.scheduler] before they are set. *)
Definition get_optimizer_attr : M Optimizer :=
  fun w => match self_optimizer w with
           | Some o => (w, Ok o)
           | None => (w, Raise AttributeError)
           end.

Definition get_scheduler_attr : M Scheduler :=
  fun w => match self_scheduler w with
           | Some s => (w, Ok s)
           | None => (w, Raise AttributeError)
           end.

Definition write_file (path : string) (c : FileContent) : M unit :=
  fun w => ({| self_optimizer := self_optimizer w;
               self_scheduler := self_scheduler w;
               files := <[path := c]> (files w);
               pretrained := pretrained w;
               trace := trace w |}, Ok tt).

Definition path_exists (path : string) : M bool :=
  fun w => (w, Ok (bool_decide (is_Some (files w !! path)))).

End Runner.

Notation "'do' x <- m ; k" := (bind m (fun x => k))
  (at level 10, x name, m at level 100, k at level 200).
Notation "'run' m ; k" := (bind m (fun _ => k))
  (at level 10, m at level 100, k at level 200).

(* ===================================================================== *)
(** * The runner *)
(* ===================================================================== *)

Section Operations.
Context `{Env}.

(* ------------------------------------------------------------------- *)
(** ** [Runner.__init__] (lines 48-81)

    [cfg] is what [util.initialize_config] returned and [now] the
    formatted clock reading; seeding and the log handler have no effect
    on what follows. *)

Definition Runner_init (cfg : Config) (config_name now : string)
    (gpu : option Z) (sd : option Z) : Result Runner :=
  let mk d c w :=
    {| name := config_name; name_suffix := now; gpu_id := gpu; seed := sd;
       config := cfg; device := gpu; r_use_amp := use_amp cfg;
       data := d; collate_fn := c; wrapper_class_fn := w |} in
  if String.eqb (lower (task cfg)) "coref" then
    Ok (mk (Some (CorefDataProcessor cfg)) (Some coref_collate_fn) (Some CorefWrapper))
  else if String.eqb (lower (task cfg)) "ner" then
    Ok (mk (Some (NERDataProcessor cfg)) (Some ner_collate_fn) (Some NERWrapper))
  else if String.eqb (lower (task cfg)) "ere" then
    Ok (mk (Some (EREDataProcessor cfg)) (Some ere_collate_fn) (Some EREWrapper))
  else
    Ok (mk None None None).

(** Reading an attribute that [__init__] may have left unset. *)
Definition attr {A} (a : option A) : Result A :=
  match a with
  | Some x => Ok x
  | None => Raise AttributeError
  end.

(* ------------------------------------------------------------------- *)
(** ** [Runner.get_optimizer] (lines 254-283) *)

Definition no_decay : list string :=
  ["bias"; "LayerNorm.weight"; "layer_norm.weight"].

(** The literal [grouped_param]: for each group its ['params'], ['lr']
    and ['weight_decay']. *)
Definition grouped_param (cfg : Config) (wrapper : Wrapper)
    : list (list Param * float * float) :=
  let plm_param := plm_named (model wrapper) in
  let task_param := task_named (model wrapper) in
  [ (map snd (List.filter (fun np => negb (any_in no_decay (fst np))) plm_param),
     plm_learning_rate cfg, adam_weight_decay cfg);
    (map snd (List.filter (fun np => any_in no_decay (fst np)) plm_param),
     plm_learning_rate cfg, f_zero);
    (map snd task_param,
     task_learning_rate cfg, f_zero) ].

(** [AdamW(groups, lr=..., eps=..., fused=True)]: the keys a group does
    not set are filled from the defaults; every group here sets its own
    [lr] and [weight_decay]. *)
Definition AdamW (groups : list (list Param * float * float))
    (default_lr default_eps : float) (use_fused : bool) : Optimizer :=
  {| param_groups :=
       map (fun g : list Param * float * float =>
              {| params := fst (fst g); lr := snd (fst g); weight_decay := snd g;
                 eps := default_eps; fused := use_fused; initial_lr := None |})
           groups;
     state := fresh_opt_state |}.

Definition get_optimizer (cfg : Config) (wrapper : Wrapper) : Result Optimizer :=
  let groups := grouped_param cfg wrapper in
  if String.eqb (lower (optimizer_name cfg)) "adamw" then
    Ok (AdamW groups (plm_learning_rate cfg) (adam_eps cfg) true)
  else
    (* [opt_class] was never bound *)
    Raise UnboundLocalError.

(* ------------------------------------------------------------------- *)
(** ** torch's LambdaLR *)

Definition set_lr (g : ParamGroup) (x : float) : ParamGroup :=
  {| params := params g; lr := x; weight_decay := weight_decay g;
     eps := eps g; fused := fused g; initial_lr := initial_lr g |}.

(** [group.setdefault('initial_lr', group['lr'])] *)
Definition setdefault_initial_lr (g : ParamGroup) : ParamGroup :=
  {| params := params g; lr := lr g; weight_decay := weight_decay g;
     eps := eps g; fused := fused g;
     initial_lr := match initial_lr g with
                   | Some x => Some x
                   | None => Some (lr g)
                   end |}.

Definition group_initial_lr (g : ParamGroup) : float :=
  match initial_lr g with
  | Some x => x
  | None => lr g
  end.

(** [for group, lr in zip(param_groups, values): group['lr'] = lr] *)
Fixpoint assign_lrs (gs : list ParamGroup) (values : list float) : list ParamGroup :=
  match gs, values with
  | g :: gs', v :: values' => set_lr g v :: assign_lrs gs' values'
  | _, _ => gs
  end.

(** [get_lr()]: [base_lr * lmbda(last_epoch)] over [zip(lr_lambdas, base_lrs)]. *)
Fixpoint lambda_lrs (lambdas : list (Z -> float)) (bases : list float) (epoch : Z)
    : list float :=
  match lambdas, bases with
  | lmbda :: lambdas', base :: bases' =>
      f_mul base (lmbda epoch) :: lambda_lrs lambdas' bases' epoch
  | _, _ => []
  end.

(** [scheduler.step()]: counts the call, advances [last_epoch] and writes
    the new learning rates into the optimizer it was built on. *)
Definition scheduler_step (o : Optimizer) (s : Scheduler) : Optimizer * Scheduler :=
  let epoch := last_epoch s + 1 in
  let values := lambda_lrs (lr_lambdas s) (base_lrs s) epoch in
  let groups := assign_lrs (param_groups o) values in
  ({| param_groups := groups; state := state o |},
   {| lr_lambdas := lr_lambdas s; base_lrs := base_lrs s;
      last_epoch := epoch; _step_count := _step_count s + 1;
      _last_lr := map lr groups |}).

(** [LambdaLR(optimizer, lr_lambda)]: one lambda per group is required;
    the constructor records the base learning rates, resets the counter
    to 0 and performs the initial [step()], so that a new scheduler has
    [_step_count = 1] and [last_epoch = 0]. *)
Definition LambdaLR (o : Optimizer) (lambdas : list (Z -> float))
    : Result (Optimizer * Scheduler) :=
  if negb (Nat.eqb (length lambdas) (length (param_groups o))) then
    Raise ValueError
  else
    let groups := map setdefault_initial_lr (param_groups o) in
    Ok (scheduler_step
          {| param_groups := groups; state := state o |}
          {| lr_lambdas := lambdas; base_lrs := map group_initial_lr groups;
             last_epoch := -1; _step_count := 0; _last_lr := [] |}).

(* ------------------------------------------------------------------- *)
(** ** [Runner.get_scheduler] (lines 285-299)

    The scheduler keeps a reference to the optimizer and writes to it;
    the optimizer returned is that same object after construction. *)

Definition get_scheduler (cfg : Config) (o : Optimizer) (total_update_steps : Z)
    : Result (Optimizer * Scheduler) :=
  let warmup_steps := int_of_scaled total_update_steps (warmup_ratio cfg) in
  let lr_lambda_plm :=
    get_scheduler_lambda (plm_scheduler cfg) warmup_steps total_update_steps in
  let lr_lambda_task :=
    get_scheduler_lambda (task_scheduler cfg) 0 total_update_steps in
  LambdaLR o [lr_lambda_plm; lr_lambda_plm; lr_lambda_task].

(* ------------------------------------------------------------------- *)
(** ** State dictionaries *)

Definition group_state (g : ParamGroup) : GroupState :=
  {| g_nparams := length (params g); g_lr := lr g;
     g_weight_decay := weight_decay g; g_eps := eps g; g_fused := fused g;
     g_initial_lr := initial_lr g |}.

Definition optimizer_state_dict_of (o : Optimizer) : OptimizerStateDict :=
  {| sd_state := state o; sd_param_groups := map group_state (param_groups o) |}.

Definition restore_group (g : ParamGroup) (gs : GroupState) : ParamGroup :=
  {| params := params g; lr := g_lr gs; weight_decay := g_weight_decay gs;
     eps := g_eps gs; fused := g_fused gs; initial_lr := g_initial_lr gs |}.

Fixpoint restore_groups (gs : list ParamGroup) (saved : list GroupState)
    : list ParamGroup :=
  match gs, saved with
  | g :: gs', s :: saved' => restore_group g s :: restore_groups gs' saved'
  | _, _ => []
  end.

(** [optimizer.load_state_dict(sd)]: refuses a state dict whose groups
    differ in number or in size from the optimizer's own. *)
Definition optimizer_load_state_dict (o : Optimizer) (sd : OptimizerStateDict)
    : Result Optimizer :=
  if negb (Nat.eqb (length (param_groups o)) (length (sd_param_groups sd))) then
    Raise ValueError
  else if negb (forallb (fun p : ParamGroup * GroupState =>
                           Nat.eqb (length (params (fst p))) (g_nparams (snd p)))
                        (combine (param_groups o) (sd_param_groups sd))) then
    Raise ValueError
  else
    Ok {| param_groups := restore_groups (param_groups o) (sd_param_groups sd);
          state := sd_state sd |}.

Definition scheduler_state_dict_of (s : Scheduler) : SchedulerStateDict :=
  {| sd_base_lrs := base_lrs s; sd_last_epoch := last_epoch s;
     sd_step_count := _step_count s; sd_last_lr := _last_lr s |}.

(** [scheduler.load_state_dict(sd)]: [self.__dict__.update(sd)]; the
    lambda functions are not part of the dictionary and stay. *)
Definition scheduler_load_state_dict (s : Scheduler) (sd : SchedulerStateDict)
    : Scheduler :=
  {| lr_lambdas := lr_lambdas s; base_lrs := sd_base_lrs sd;
     last_epoch := sd_last_epoch sd; _step_count := sd_step_count sd;
     _last_lr := sd_last_lr sd |}.

(* ------------------------------------------------------------------- *)
(** ** Disk and model hub *)

Definition torch_save (c : Checkpoint) (path : string) : M unit :=
  run emit (ETorchSave path);
  write_file path (FCheckpoint c).

Definition torch_load (path : string) : M Checkpoint :=
  run emit (ETorchLoad path);
  fun w => match files w !! path with
           | Some (FCheckpoint c) => (w, Ok c)
           | Some (FJson _) => (w, Raise UnpicklingError)
           | None => (w, Raise FileNotFoundError)
           end.

(** [wrapper.model.save_pretrained(dir)]: the directory now holds this
    model, whatever it held before. *)
Definition save_pretrained (m : Model) (dir : string) : M unit :=
  run emit (ESavePretrained dir);
  fun w => ({| self_optimizer := self_optimizer w;
               self_scheduler := self_scheduler w;
               files := files w;
               pretrained := <[dir := m]> (pretrained w);
               trace := trace w |}, Ok tt).

(** [wrapper.model.from_pretrained(name_or_path)]: a directory holding
    a saved model or the identifier of a published one; anything else
    is refused. *)
Definition from_pretrained (name_or_path : string) : M Model :=
  run emit (EFromPretrained name_or_path);
  fun w => match pretrained w !! name_or_path with
           | Some m => (w, Ok m)
           | None => (w, Raise OSError)
           end.

Definition set_model (wrapper : Wrapper) (m : Model) : Wrapper :=
  {| w_class := w_class wrapper; model := m |}.

(* ------------------------------------------------------------------- *)
(** ** [Runner.save_model_checkpoint] (lines 301-310) *)

Definition ckpt_path (cfg : Config) (suffix : string) : string :=
  join (log_dir cfg) ("model_" +:+ suffix +:+ ".bin").

Definition save_model_checkpoint (self : Runner) (wrapper : Wrapper)
    (o : Optimizer) (s : Scheduler) (step : Z) (epoch : Z) : M unit :=
  let path_ckpt :=
    join (log_dir (config self))
         ("model_" +:+ name_suffix self +:+ "_" +:+ str_of_int step +:+ ".bin") in
  run torch_save {| current_epoch := epoch;
                    optimizer_state_dict := optimizer_state_dict_of o;
                    scheduler_state_dict := scheduler_state_dict_of s |}
                 path_ckpt;
  run save_pretrained (model wrapper) (log_dir (config self));
  ret tt.

(* ------------------------------------------------------------------- *)
(** ** [Runner.load_model_checkpoint] (lines 312-337) *)

(** [len(examples_train) * epochs // (grad_accum * batch_size)] *)
Definition total_update_steps_of (self : Runner) : Result Z :=
  match attr (data self) with
  | Raise e => Raise e
  | Ok d =>
      py_floordiv (Z.of_nat (len_train d) * num_epochs (config self))
                  (gradient_accumulation_steps (config self) * batch_size (config self))
  end.

Definition load_model_checkpoint (self : Runner) (wrapper : Wrapper)
    (suffix : string) (continue_training : bool) : M (Wrapper * Z) :=
  let path_ckpt := join (log_dir (config self)) ("model_" +:+ suffix +:+ ".bin") in
  do present <- path_exists path_ckpt;
  do m <- (if negb present then from_pretrained suffix
           else from_pretrained (log_dir (config self)));
  let wrapper := set_model wrapper m in
  if continue_training then
    do checkpoint <- torch_load path_ckpt;
    do o <- lift (get_optimizer (config self) wrapper);
    run set_optimizer o;
    do total_update_steps <- lift (total_update_steps_of self);
    do os <- lift (get_scheduler (config self) o total_update_steps);
    run set_optimizer (fst os);
    run set_scheduler (snd os);
    do o' <- lift (optimizer_load_state_dict (fst os) (optimizer_state_dict checkpoint));
    run set_optimizer o';
    run set_scheduler (scheduler_load_state_dict (snd os) (scheduler_state_dict checkpoint));
    ret (wrapper, current_epoch checkpoint)
  else
    ret (wrapper, -1).

(* ------------------------------------------------------------------- *)
(** ** [Runner.initialize_model] (lines 84-89) *)

Definition initialize_model (self : Runner) (saved_suffix : option string)
    (continue_training : bool) : M (Wrapper * Z) :=
  do cls <- lift (attr (wrapper_class_fn self));
  let wrapper := new_wrapper cls (config self) (device self) saved_suffix in
  let start_epoch := 0 in
  match saved_suffix with
  | Some (String c s) => load_model_checkpoint self wrapper (String c s) continue_training
  | _ => ret (wrapper, start_epoch)
  end.

(* ------------------------------------------------------------------- *)
(** ** [Runner.train] (lines 92-243) *)

(** The local variables of [train] that the loop reads and writes. *)
Record Locals : Type := {
  wrapper : Wrapper;
  loss_during_accum : list float;
  loss_during_report : float;
  loss_history : list float;
  max_f1 : Q;
  max_f1_test : Q;
  best_ckpt_step_count : Z
}.

Definition set_weights (w : Wrapper) (ws : Weights) : Wrapper :=
  {| w_class := w_class w;
     model := {| plm_named := plm_named (model w);
                 task_named := task_named (model w);
                 weights := ws |} |}.

(** [self.optimizer.step()] *)
Definition optimizer_step (w : Wrapper) : M Wrapper :=
  do o <- get_optimizer_attr;
  let r := adamw_update (state o) (weights (model w)) in
  run set_optimizer {| param_groups := param_groups o; state := fst r |};
  run emit EOptimizerStep;
  ret (set_weights w (snd r)).

(** [self.scheduler.step()] *)
Definition sched_step : M unit :=
  do o <- get_optimizer_attr;
  do s <- get_scheduler_attr;
  run set_optimizer (fst (scheduler_step o s));
  run set_scheduler (snd (scheduler_step o s));
  emit ESchedulerStep.

(** [self.scheduler._step_count] *)
Definition step_count : M Z :=
  do s <- get_scheduler_attr;
  ret (_step_count s).

(** [self.evaluate(wrapper, examples, stored_info, step)] *)
Definition call_evaluate (w : Wrapper) (split : Split) (step : Z) : M (Q * Metrics) :=
  let r := evaluate (weights (model w)) split step in
  run emit (EEvaluate split step (fst r));
  ret r.

(** Lines 159-169: clipping of both parameter sets, when configured. *)
Definition clip_block (cfg : Config) : M unit :=
  match max_grad_norm cfg with
  | Some x =>
      if f_truthy x then
        run emit EClipGradNorm;
        emit EClipGradNorm
      else ret tt
  | None => ret tt
  end.

(** Lines 194-212. *)
Definition evaluate_block (self : Runner) (epo : Z) (l : Locals) : M Locals :=
  do step <- step_count;
  do r <- call_evaluate (wrapper l) Dev step;
  let f1 := fst r in
  if gt f1 (max_f1 l) then
    do o <- get_optimizer_attr;
    do s <- get_scheduler_attr;
    do step <- step_count;
    run save_model_checkpoint self (wrapper l) o s step epo;
    do best <- step_count;
    ret {| wrapper := wrapper l;
           loss_during_accum := loss_during_accum l;
           loss_during_report := loss_during_report l;
           loss_history := loss_history l;
           max_f1 := max2 (max_f1 l) f1;
           max_f1_test := 0%Q;
           best_ckpt_step_count := best |}
  else
    ret l.

(** Lines 181-191; the clock readings only feed the log line. *)
Definition report_block (cfg : Config) (l : Locals) : M Locals :=
  do step <- step_count;
  let avg_loss := f_div_int (loss_during_report l) (report_frequency cfg) in
  run emit (EReport step avg_loss);
  ret {| wrapper := wrapper l;
         loss_during_accum := loss_during_accum l;
         loss_during_report := f_zero;
         loss_history := loss_history l;
         max_f1 := max_f1 l;
         max_f1_test := max_f1_test l;
         best_ckpt_step_count := best_ckpt_step_count l |}.

(** Lines 158-212, entered with the accumulation buffer full. *)
Definition update_block (self : Runner) (epo : Z) (l : Locals) : M Locals :=
  let cfg := config self in
  run clip_block cfg;
  do w <- optimizer_step (wrapper l);
  run sched_step;
  do _ <- get_optimizer_attr;        (* zero_grad *)
  let effective_loss := np_sum (loss_during_accum l) in
  let l :=
    {| wrapper := w;
       loss_during_accum := [];
       loss_during_report := f_add (loss_during_report l) effective_loss;
       loss_history := loss_history l ++ [effective_loss];
       max_f1 := max_f1 l;
       max_f1_test := max_f1_test l;
       best_ckpt_step_count := best_ckpt_step_count l |} in
  do step <- step_count;
  do r <- lift (py_mod step (report_frequency cfg));
  do l <- (if Z.eqb r 0 then report_block cfg l else ret l);
  do step <- step_count;
  do r <- lift (py_mod step (eval_frequency cfg));
  if Z.eqb r 0 then evaluate_block self epo l else ret l.

(** The body of the inner loop (lines 143-212) on mini-batch [i] of
    epoch [epo]. *)
Definition train_step (self : Runner) (epo : Z) (i : nat) (l : Locals) : M Locals :=
  let cfg := config self in
  let grad_accum := gradient_accumulation_steps cfg in
  let raw := forward_loss (weights (model (wrapper l))) epo i in
  run emit (EForward epo i raw);
  let loss := f_div_int raw grad_accum in
  run emit (EBackward loss);
  let l :=
    {| wrapper := wrapper l;
       loss_during_accum := loss_during_accum l ++ [loss];
       loss_during_report := loss_during_report l;
       loss_history := loss_history l;
       max_f1 := max_f1 l;
       max_f1_test := max_f1_test l;
       best_ckpt_step_count := best_ckpt_step_count l |} in
  do r <- lift (py_mod (Z.of_nat (length (loss_during_accum l))) grad_accum);
  if Z.eqb r 0 then update_block self epo l else ret l.

Fixpoint for_each {X : Type} (xs : list X) (body : X -> Locals -> M Locals)
    (l : Locals) : M Locals :=
  match xs with
  | [] => ret l
  | x :: xs' => do l' <- body x l; for_each xs' body l'
  end.

(** [len(trainloader)]: the last batch may be short ([drop_last] is
    off); a batch size that is not positive is refused.  No batch is
    drawn from an empty data set. *)
Definition DataLoader_len (n : nat) (bsz : Z) : Result nat :=
  if Z.leb bsz 0 then Raise ValueError
  else Ok (Z.to_nat ((Z.of_nat n + bsz - 1) / bsz)).

(** Lines 140-212. *)
Definition epoch_loop (self : Runner) (num_batches : nat) (start_epoch : Z)
    (l : Locals) : M Locals :=
  for_each (range start_epoch (num_epochs (config self)))
           (fun epo => for_each (seq 0 num_batches) (fun i => train_step self epo i))
           l.

(** Lines 125-129. *)
Definition initial_locals (w : Wrapper) : Locals :=
  {| wrapper := w;
     loss_during_accum := [];
     loss_during_report := f_zero;
     loss_history := [];
     max_f1 := 0%Q;
     max_f1_test := 0%Q;
     best_ckpt_step_count := 0 |}.

(** Lines 218-227: [json.dump({"test_metrics": metrics}, f)]. *)
Definition save_metrics2file (path filename : string) (metrics : Metrics) : M unit :=
  let metrics_path := join path filename in
  run emit (EJsonDump metrics_path);
  write_file metrics_path (FJson [("test_metrics", metrics)]).

(** Lines 230-241, from the call of [load_model_checkpoint] on. *)
Definition final_evaluation (self : Runner) (w : Wrapper) (suffix : string) : M unit :=
  do loaded <- load_model_checkpoint self w suffix false;
  let w := fst loaded in
  do r <- call_evaluate w Test (-1);
  run save_metrics2file (log_dir (config self)) "metrics.json" (snd r);
  do r <- call_evaluate w Seen (-1);
  run save_metrics2file (log_dir (config self)) "metricsSeen.json" (snd r);
  do r <- call_evaluate w Unseen (-1);
  run save_metrics2file (log_dir (config self)) "metricsUnseen.json" (snd r);
  do _ <- call_evaluate w Train (-1);
  ret tt.

(** [s + n] with [s] a str and [n] an int: Python refuses to mix them. *)
Definition str_plus_int (s : string) (n : Z) : Result string := Raise TypeError.

(** Lines 98-138: everything before the epoch loop. *)
Definition train_setup (self : Runner) (w : Wrapper) (continued : bool) : M nat :=
  let cfg := config self in
  do d <- lift (attr (data self));
  do total_update_steps <-
    lift (py_floordiv (Z.of_nat (len_train d) * num_epochs cfg)
                      (gradient_accumulation_steps cfg * batch_size cfg));
  run (if negb continued then
         do o <- lift (get_optimizer cfg w);
         run set_optimizer o;
         do os <- lift (get_scheduler cfg o total_update_steps);
         run set_optimizer (fst os);
         set_scheduler (snd os)
       else ret tt);
  do _ <- get_scheduler_attr;        (* 'Starting step: %d' *)
  do _ <- get_optimizer_attr;        (* zero_grad *)
  lift (DataLoader_len (len_train d) (batch_size cfg)).

Definition train (self : Runner) (w : Wrapper) (continued : bool) (start_epoch : Z)
    : M unit :=
  do num_batches <- train_setup self w continued;
  do l <- epoch_loop self num_batches start_epoch (initial_locals w);
  do suffix <- lift (str_plus_int (name_suffix self +:+ "_") (best_ckpt_step_count l));
  final_evaluation self (wrapper l) suffix.

(** The mini-batches of the epoch loop in the order it visits them. *)
Definition mini_batches (self : Runner) (num_batches : nat) (start_epoch : Z)
    : list (Z * nat) :=
  flat_map (fun epo => map (fun i => (epo, i)) (seq 0 num_batches))
           (range start_epoch (num_epochs (config self))).

(** The inner loop body over a sequence of mini-batches. *)
Definition for_batches (self : Runner) (bs : list (Z * nat)) (l : Locals) : M Locals :=
  for_each bs (fun b => train_step self (fst b) (snd b)) l.

(** [train] up to the end of the [n]-th pass through the loop body:
    the set-up and the first [n] mini-batches. *)
Definition train_until (self : Runner) (w : Wrapper) (continued : bool)
    (start_epoch : Z) (n : nat) : M Locals :=
  do num_batches <- train_setup self w continued;
  for_batches self (firstn n (mini_batches self num_batches start_epoch))
              (initial_locals w).

End Operations.

(* ===================================================================== *)
(** * Observations on a run *)
(* ===================================================================== *)

Section Observations.
Context `{Env}.

(** [nd] occurs somewhere inside [n]. *)
Definition occurs_in (nd n : string) : Prop :=
  exists pre post : string, n = pre +:+ nd +:+ post.

Definition matches_no_decay (n : string) : Prop :=
  exists nd : string, In nd no_decay /\ occurs_in nd n.

Definition is_optimizer_step (e : Event) : bool :=
  match e with
  | EOptimizerStep => true
  | _ => false
  end.

(** Number of [optimizer.step()] calls in a trace. *)
Definition count_optimizer_steps (t : list Event) : nat :=
  length (List.filter is_optimizer_step t).

(** The scores of the dev evaluations of a trace, in order. *)
Fixpoint dev_scores (t : list Event) : list Q :=
  match t with
  | [] => []
  | EEvaluate Dev _ f1 :: t' => f1 :: dev_scores t'
  | _ :: t' => dev_scores t'
  end.

(** For each call of the evaluator, the number of optimizer steps made
    before it. *)
Fixpoint evaluations_after (n : nat) (t : list Event) : list nat :=
  match t with
  | [] => []
  | EOptimizerStep :: t' => evaluations_after (S n) t'
  | EEvaluate _ _ _ :: t' => n :: evaluations_after n t'
  | _ :: t' => evaluations_after n t'
  end.

Definition optimizer_steps_before_evaluations (t : list Event) : list nat :=
  evaluations_after 0 t.

(** The losses [backward()] was called on, in order. *)
Fixpoint backward_losses (t : list Event) : list float :=
  match t with
  | [] => []
  | EBackward x :: t' => x :: backward_losses t'
  | _ :: t' => backward_losses t'
  end.

(** The losses the wrapper returned, in order. *)
Fixpoint forward_losses (t : list Event) : list float :=
  match t with
  | [] => []
  | EForward _ _ x :: t' => x :: forward_losses t'
  | _ :: t' => forward_losses t'
  end.

(** The optimizer holds exactly the parameters [get_optimizer] groups
    for this wrapper. *)
Definition manages (o : Optimizer) (cfg : Config) (w : Wrapper) : Prop :=
  map params (param_groups o) = map (fun g => fst (fst g)) (grouped_param cfg w).

(* --------------------------------------------------------------------- *)
(** ** Anatomy of one pass through the loop body *)

(** A configuration the loop body can run under: none of the three
    moduli is zero. *)
Definition valid_frequencies (cfg : Config) : Prop :=
  gradient_accumulation_steps cfg <> 0 /\
  report_frequency cfg <> 0 /\
  eval_frequency cfg <> 0.

(** The path [save_model_checkpoint] writes for a step. *)
Definition step_ckpt_path (self : Runner) (step : Z) : string :=
  join (log_dir (config self))
       ("model_" +:+ name_suffix self +:+ "_" +:+ str_of_int step +:+ ".bin").

Definition saved_checkpoint (o : Optimizer) (s : Scheduler) (epoch : Z) : Checkpoint :=
  {| current_epoch := epoch;
     optimizer_state_dict := optimizer_state_dict_of o;
     scheduler_state_dict := scheduler_state_dict_of s |}.

(** The loss [backward()] is called on for mini-batch [i] of epoch [epo]. *)
Definition micro_loss (self : Runner) (l : Locals) (epo : Z) (i : nat) : float :=
  f_div_int (forward_loss (weights (model (wrapper l))) epo i)
            (gradient_accumulation_steps (config self)).

Definition forward_events (self : Runner) (l : Locals) (epo : Z) (i : nat) : list Event :=
  [EForward epo i (forward_loss (weights (model (wrapper l))) epo i);
   EBackward (micro_loss self l epo i)].

Definition add_loss (l : Locals) (x : float) : Locals :=
  {| wrapper := wrapper l;
     loss_during_accum := loss_during_accum l ++ [x];
     loss_during_report := loss_during_report l;
     loss_history := loss_history l;
     max_f1 := max_f1 l;
     max_f1_test := max_f1_test l;
     best_ckpt_step_count := best_ckpt_step_count l |}.

Definition clip_events (cfg : Config) : list Event :=
  match max_grad_norm cfg with
  | Some x => if f_truthy x then [EClipGradNorm; EClipGradNorm] else []
  | None => []
  end.

Definition update_events (cfg : Config) : list Event :=
  clip_events cfg ++ [EOptimizerStep; ESchedulerStep].

Definition stepped_optimizer (o : Optimizer) (l : Locals) : Optimizer :=
  {| param_groups := param_groups o;
     state := fst (adamw_update (state o) (weights (model (wrapper l)))) |}.

Definition after_update (l : Locals) (o : Optimizer) : Locals :=
  {| wrapper := set_weights (wrapper l)
                  (snd (adamw_update (state o) (weights (model (wrapper l)))));
     loss_during_accum := [];
     loss_during_report := f_add (loss_during_report l) (np_sum (loss_during_accum l));
     loss_history := loss_history l ++ [np_sum (loss_during_accum l)];
     max_f1 := max_f1 l;
     max_f1_test := max_f1_test l;
     best_ckpt_step_count := best_ckpt_step_count l |}.

Definition clear_report (l : Locals) : Locals :=
  {| wrapper := wrapper l;
     loss_during_accum := loss_during_accum l;
     loss_during_report := f_zero;
     loss_history := loss_history l;
     max_f1 := max_f1 l;
     max_f1_test := max_f1_test l;
     best_ckpt_step_count := best_ckpt_step_count l |}.

Definition report_events (cfg : Config) (step : Z) (l : Locals) : list Event :=
  if Z.eqb (step mod report_frequency cfg) 0
  then [EReport step (f_div_int (loss_during_report l) (report_frequency cfg))]
  else [].

Definition after_report (cfg : Config) (step : Z) (l : Locals) : Locals :=
  if Z.eqb (step mod report_frequency cfg) 0 then clear_report l else l.

Definition select_best (l : Locals) (f1 : Q) (step : Z) : Locals :=
  {| wrapper := wrapper l;
     loss_during_accum := loss_during_accum l;
     loss_during_report := loss_during_report l;
     loss_history := loss_history l;
     max_f1 := max2 (max_f1 l) f1;
     max_f1_test := 0%Q;
     best_ckpt_step_count := step |}.

(** The part of an update after the optimizer and the scheduler have
    stepped: report, evaluation, checkpoint. *)
Inductive UpdateOutcome (self : Runner) (epo : Z) (l1 l2 : Locals) (step : Z)
  : list Event -> Result Locals -> Prop :=
| update_zero_report :
    report_frequency (config self) = 0 ->
    UpdateOutcome self epo l1 l2 step [] (Raise ZeroDivisionError)
| update_zero_eval :
    report_frequency (config self) <> 0 ->
    eval_frequency (config self) = 0 ->
    UpdateOutcome self epo l1 l2 step
      (report_events (config self) step l1) (Raise ZeroDivisionError)
| update_no_eval :
    report_frequency (config self) <> 0 ->
    eval_frequency (config self) <> 0 ->
    step mod eval_frequency (config self) <> 0 ->
    UpdateOutcome self epo l1 l2 step
      (report_events (config self) step l1) (Ok l2)
| update_eval_keep (f1 : Q) :
    report_frequency (config self) <> 0 ->
    eval_frequency (config self) <> 0 ->
    step mod eval_frequency (config self) = 0 ->
    f1 = fst (evaluate (weights (model (wrapper l2))) Dev step) ->
    gt f1 (max_f1 l2) = false ->
    UpdateOutcome self epo l1 l2 step
      (report_events (config self) step l1 ++ [EEvaluate Dev step f1]) (Ok l2)
| update_eval_save (f1 : Q) :
    report_frequency (config self) <> 0 ->
    eval_frequency (config self) <> 0 ->
    step mod eval_frequency (config self) = 0 ->
    f1 = fst (evaluate (weights (model (wrapper l2))) Dev step) ->
    gt f1 (max_f1 l2) = true ->
    UpdateOutcome self epo l1 l2 step
      (report_events (config self) step l1
         ++ [EEvaluate Dev step f1; ETorchSave (step_ckpt_path self step);
             ESavePretrained (log_dir (config self))])
      (Ok (select_best l2 f1 step)).

(** What one pass through the loop body does when [self.optimizer] is
    [o] and [self.scheduler] is [s]: the calls it makes, the optimizer
    and scheduler it leaves, and the locals it ends with or the
    exception it raises. *)
Inductive StepOutcome (self : Runner) (epo : Z) (i : nat) (l : Locals)
    (o : Optimizer) (s : Scheduler)
  : list Event -> Optimizer -> Scheduler -> Result Locals -> Prop :=
| step_zero_accum :
    gradient_accumulation_steps (config self) = 0 ->
    StepOutcome self epo i l o s
      (forward_events self l epo i) o s (Raise ZeroDivisionError)
| step_accumulate :
    gradient_accumulation_steps (config self) <> 0 ->
    Z.of_nat (length (loss_during_accum l ++ [micro_loss self l epo i]))
      mod gradient_accumulation_steps (config self) <> 0 ->
    StepOutcome self epo i l o s
      (forward_events self l epo i) o s (Ok (add_loss l (micro_loss self l epo i)))
| step_update (la : Locals) (o2 : Optimizer) (s2 : Scheduler) (l2 : Locals)
    (q : list Event) (r : Result Locals) :
    gradient_accumulation_steps (config self) <> 0 ->
    Z.of_nat (length (loss_during_accum l ++ [micro_loss self l epo i]))
      mod gradient_accumulation_steps (config self) = 0 ->
    la = add_loss l (micro_loss self l epo i) ->
    o2 = fst (scheduler_step (stepped_optimizer o la) s) ->
    s2 = snd (scheduler_step (stepped_optimizer o la) s) ->
    l2 = after_report (config self) (_step_count s2) (after_update la o) ->
    UpdateOutcome self epo (after_update la o) l2 (_step_count s2) q r ->
    StepOutcome self epo i l o s
      (forward_events self l epo i ++ update_events (config self) ++ q) o2 s2 r.

(** A run of the loop body over a sequence of mini-batches: the steps
    follow one another until the sequence ends or one of them raises. *)
Inductive RunOutcome (self : Runner)
  : list (Z * nat) -> Locals -> Optimizer -> Scheduler ->
    list Event -> Optimizer -> Scheduler -> Result Locals -> Prop :=
| run_done l o s : RunOutcome self [] l o s [] o s (Ok l)
| run_raise b bs l o s q o1 s1 e :
    StepOutcome self (fst b) (snd b) l o s q o1 s1 (Raise e) ->
    RunOutcome self (b :: bs) l o s q o1 s1 (Raise e)
| run_step b bs l o s q1 o1 s1 l1 q2 o2 s2 r :
    StepOutcome self (fst b) (snd b) l o s q1 o1 s1 (Ok l1) ->
    RunOutcome self bs l1 o1 s1 q2 o2 s2 r ->
    RunOutcome self (b :: bs) l o s (q1 ++ q2) o2 s2 r.

(** Neither a dev evaluation nor a checkpoint write. *)
Definition is_quiet (e : Event) : bool :=
  match e with
  | EEvaluate Dev _ _ => false
  | ETorchSave _ => false
  | _ => true
  end.

(** A trace read from the start with [best] the best dev score so far:
    a dev evaluation is followed at once by the write of its step's
    checkpoint when its score beats [best], by no write otherwise, and
    there is no other write. *)
Fixpoint well_selected (path : Z -> string) (best : Q) (t : list Event) : Prop :=
  match t with
  | [] => True
  | EEvaluate Dev step f1 :: t' =>
      match t' with
      | ETorchSave p :: t'' =>
          gt f1 best = true /\ p = path step /\ well_selected path (max2 best f1) t''
      | _ => gt f1 best = false /\ well_selected path best t'
      end
  | ETorchSave _ :: _ => False
  | _ :: t' => well_selected path best t'
  end.

Definition starts_quiet (t : list Event) : Prop :=
  match t with
  | [] => True
  | e :: _ => is_quiet e = true
  end.

Definition add_event (w : World) (e : Event) : World :=
  {| self_optimizer := self_optimizer w; self_scheduler := self_scheduler w;
     files := files w; pretrained := pretrained w; trace := trace w ++ [e] |}.

(** Where [load_model_checkpoint] takes the model from: the log
    directory when the checkpoint file exists, else the suffix itself. *)
Definition weights_source (self : Runner) (suffix : string) (w : World) : string :=
  match files w !! ckpt_path (config self) suffix with
  | Some _ => log_dir (config self)
  | None => suffix
  end.



End Observations.

(* ===================================================================== *)
(** * Further observations: schedules, learning rates, the disk *)
(* ===================================================================== *)

Section Schedules.
Context `{Env}.

(** For each report line, the number of optimizer steps made before it. *)
Fixpoint reports_after (n : nat) (t : list Event) : list nat :=
  match t with
  | [] => []
  | EOptimizerStep :: t' => reports_after (S n) t'
  | EReport _ _ :: t' => n :: reports_after n t'
  | _ :: t' => reports_after n t'
  end.

Definition optimizer_steps_before_reports (t : list Event) : list nat :=
  reports_after 0 t.

(** The updates among the first [n] after which a counter that stood at
    [s0] before the first of them is a multiple of [freq]. *)
Definition due (s0 freq : Z) (n : nat) : list nat :=
  List.filter (fun j => Z.eqb ((s0 + Z.of_nat j) mod freq) 0) (seq 1 n).

(** Number of [clip_grad_norm_] calls in a trace. *)
Definition count_clips (t : list Event) : nat :=
  length (List.filter (fun e => match e with EClipGradNorm => true | _ => false end) t).

(** [if self.config['max_grad_norm']:] *)
Definition clipping (cfg : Config) : bool :=
  match max_grad_norm cfg with
  | Some x => f_truthy x
  | None => false
  end.

(** The two curves [get_scheduler] builds for [total] update steps. *)
Definition lr_lambda_plm (cfg : Config) (total : Z) : Z -> float :=
  get_scheduler_lambda (plm_scheduler cfg) (int_of_scaled total (warmup_ratio cfg)) total.

Definition lr_lambda_task (cfg : Config) (total : Z) : Z -> float :=
  get_scheduler_lambda (task_scheduler cfg) 0 total.

(** The learning rates of the three groups at scheduler epoch [e]. *)
Definition scheduled_lrs (cfg : Config) (total e : Z) : list float :=
  [f_mul (plm_learning_rate cfg) (lr_lambda_plm cfg total e);
   f_mul (plm_learning_rate cfg) (lr_lambda_plm cfg total e);
   f_mul (task_learning_rate cfg) (lr_lambda_task cfg total e)].

(** Optimizer and scheduler as [get_optimizer] and [get_scheduler] set
    them up for [total] update steps, some scheduler steps later. *)
Definition on_schedule (cfg : Config) (total : Z) (o : Optimizer) (s : Scheduler) : Prop :=
  lr_lambdas s = [lr_lambda_plm cfg total; lr_lambda_plm cfg total; lr_lambda_task cfg total] /\
  base_lrs s = [plm_learning_rate cfg; plm_learning_rate cfg; task_learning_rate cfg] /\
  _step_count s = last_epoch s + 1 /\
  map lr (param_groups o) = scheduled_lrs cfg total (last_epoch s) /\
  map weight_decay (param_groups o) = [adam_weight_decay cfg; f_zero; f_zero].



(** Every [optimizer.step()] of the trace is followed at once by a
    [scheduler.step()], and there is no other [scheduler.step()];
    [pending] says that the next call has to be that [scheduler.step()]. *)
Fixpoint steps_paired (pending : bool) (t : list Event) : bool :=
  match t with
  | [] => negb pending
  | EOptimizerStep :: t' => if pending then false else steps_paired true t'
  | ESchedulerStep :: t' => if pending then steps_paired false t' else false
  | _ :: t' => if pending then false else steps_paired false t'
  end.

(** A path [save_model_checkpoint] can write for this run. *)
Definition is_checkpoint_path (self : Runner) (path : string) : Prop :=
  exists step : Z, path = step_ckpt_path self step.

(** The number of mini-batches per epoch for [n] examples. *)
Definition batches_per_epoch (n : nat) (bsz : Z) : nat :=
  Z.to_nat ((Z.of_nat n + bsz - 1) / bsz).

End Schedules.

(* ===================================================================== *)
(** * The evaluation script ([evaluate_ner.py]) *)
(* ===================================================================== *)

Module evaluate_ner.
Section Script.
Context `{Env}.

(** [evaluate(config_file, gpu_id, saved_suffix)], lines 13-18, on the
    runner lines 7-11 construct: the [NERRunner] of [run_ner] is a
    [Runner] whose [evaluate] is the NER evaluator. *)
Definition evaluate (runner : Runner) (saved_suffix : option string) : M unit :=
  do loaded <- initialize_model runner saved_suffix false;
  do _ <- lift (attr (data runner));     (* get_tensor_examples, get_stored_info *)
  do _ <- call_evaluate (fst loaded) Test 0;
  ret tt.

End Script.
End evaluate_ner.

(* ===================================================================== *)
(** * A concrete setting

    Rational arithmetic for the floats, counters for the opaque values
    of torch, and a small NER run to evaluate the definitions on. *)
(* ===================================================================== *)

Module Scenario.

#[local] Instance q_float : PyFloat := {|
  float := Q;
  f_zero := 0%Q;
  f_add := Qplus;
  f_mul := Qmult;
  f_div_int := fun x n => Qdiv x (inject_Z n);
  f_truthy := fun x => negb (Qeq_bool x 0);
  np_sum := fun xs => fold_left Qplus xs 0%Q;
  int_of_scaled := fun n x =>
    Z.quot (Qnum (inject_Z n * x)) (Zpos (Qden (inject_Z n * x)))
|}.

#[local] Instance counters : Tensors := {|
  Param := string;
  Weights := nat;             (* number of updates applied *)
  OptState := nat;            (* number of steps taken *)
  Metrics := Split * Z
|}.

Definition toy_model : Model :=
  {| plm_named := [("encoder.layer.0.bias", "b0"); ("encoder.layer.0.weight", "w0");
                   ("encoder.final_layer_norm.weight", "n0")];
     task_named := [("classifier.weight", "c0")];
     weights := 0%nat |}.

#[local] Instance toy_env : Env := {|
  fresh_opt_state := 0%nat;
  adamw_update := fun st ws => (S st, S ws);
  new_wrapper := fun cls _ _ _ => {| w_class := cls; model := toy_model |};
  forward_loss := fun ws epo i => inject_Z (Z.of_nat (ws + i + 1));
  evaluate := fun ws split step => (inject_Z (Z.of_nat ws) / 10, (split, step))%Q;
  get_scheduler_lambda := fun _ _ _ _ => 1%Q;
  len_train := fun _ => 4%nat
|}.

(** One epoch over four examples in batches of two, no accumulation,
    an evaluation every second step. *)
Definition cfg : Config :=
  {| task := "NER"; use_amp := false; log_dir := "logs/ner";
     batch_size := 2; num_epochs := 1; gradient_accumulation_steps := 1;
     max_grad_norm := Some 1%Q; optimizer_name := "AdamW";
     plm_learning_rate := (1 # 10)%Q; task_learning_rate := (3 # 10)%Q;
     adam_weight_decay := (1 # 100)%Q; adam_eps := (1 # 1000)%Q;
     plm_scheduler := "linear_with_warmup"; task_scheduler := "linear_with_warmup";
     warmup_ratio := (1 # 20)%Q; report_frequency := 100; eval_frequency := 2 |}.

(** The same data in batches of one, accumulated in pairs. *)
Definition cfg_accum : Config :=
  {| task := "ner"; use_amp := false; log_dir := "logs/ner";
     batch_size := 1; num_epochs := 1; gradient_accumulation_steps := 2;
     max_grad_norm := None; optimizer_name := "adamw";
     plm_learning_rate := (1 # 10)%Q; task_learning_rate := (3 # 10)%Q;
     adam_weight_decay := (1 # 100)%Q; adam_eps := (1 # 1000)%Q;
     plm_scheduler := "linear_with_warmup"; task_scheduler := "linear_with_warmup";
     warmup_ratio := (1 # 20)%Q; report_frequency := 1; eval_frequency := 1 |}.

(** A task the runner does not know. *)
Definition cfg_unknown : Config :=
  {| task := "pos"; use_amp := false; log_dir := "logs/pos";
     batch_size := 2; num_epochs := 1; gradient_accumulation_steps := 1;
     max_grad_norm := None; optimizer_name := "adamw";
     plm_learning_rate := (1 # 10)%Q; task_learning_rate := (3 # 10)%Q;
     adam_weight_decay := (1 # 100)%Q; adam_eps := (1 # 1000)%Q;
     plm_scheduler := "linear_with_warmup"; task_scheduler := "linear_with_warmup";
     warmup_ratio := (1 # 20)%Q; report_frequency := 100; eval_frequency := 2 |}.

Definition runner_of (c : Config) : Runner :=
  {| name := "ner"; name_suffix := "Aug14_19-53-06"; gpu_id := Some 0; seed := None;
     config := c; device := Some 0; r_use_amp := use_amp c;
     data := Some (NERDataProcessor c); collate_fn := Some ner_collate_fn;
     wrapper_class_fn := Some NERWrapper |}.

Definition runner : Runner := runner_of cfg.
Definition runner_accum : Runner := runner_of cfg_accum.

Definition wrapper : Wrapper := {| w_class := NERWrapper; model := toy_model |}.

(** Nothing on disk, nothing loaded, no call made yet. *)
Definition world0 : World :=
  {| self_optimizer := None; self_scheduler := None;
     files := ∅; pretrained := ∅; trace := [] |}.

(** A published model is reachable under its identifier; the log
    directory is empty. *)
Definition world_hub : World :=
  {| self_optimizer := None; self_scheduler := None;
     files := ∅; pretrained := {[ "t5-base" := toy_model ]}; trace := [] |}.

(** The result of a run as a value, [initial_locals] standing in for an
    exception. *)
Definition locals_of (r : Result Locals) : Locals :=
  match r with
  | Ok l => l
  | Raise _ => initial_locals wrapper
  end.

(** The world [train] enters its loop in. *)
Definition setup_world (r : Runner) : World := fst (train_setup r wrapper false world0).


(** The world a fresh run of the first configuration leaves. *)
Definition trained : World := fst (train runner wrapper false 0 world0).

Definition optimizer_of (w : World) : Optimizer :=
  match self_optimizer w with
  | Some o => o
  | None => AdamW [] f_zero f_zero true
  end.

Definition scheduler_of (w : World) : Scheduler :=
  match self_scheduler w with
  | Some s => s
  | None => {| lr_lambdas := []; base_lrs := []; last_epoch := 0;
               _step_count := 0; _last_lr := [] |}
  end.


(** Accumulation in pairs with the report frequency left at zero. *)
Definition cfg_no_report : Config :=
  {| task := "ner"; use_amp := false; log_dir := "logs/ner";
     batch_size := 1; num_epochs := 1; gradient_accumulation_steps := 2;
     max_grad_norm := Some 1%Q; optimizer_name := "adamw";
     plm_learning_rate := (1 # 10)%Q; task_learning_rate := (3 # 10)%Q;
     adam_weight_decay := (1 # 100)%Q; adam_eps := (1 # 1000)%Q;
     plm_scheduler := "linear_with_warmup"; task_scheduler := "linear_with_warmup";
     warmup_ratio := (1 # 20)%Q; report_frequency := 0; eval_frequency := 1 |}.

Definition runner_no_report : Runner := runner_of cfg_no_report.

(** The first two passes of the first configuration. *)
Definition two_passes : World * Result Locals := train_until runner wrapper false 0 2 world0.

End Scenario.

(* ===================================================================== *)
(** * Properties *)
(* ===================================================================== *)

(** Unfold the primitive effects and expose the fields of the world. *)
Ltac run_m :=
  unfold save_model_checkpoint,
    torch_save, save_pretrained, write_file, call_evaluate, step_count, sched_step,
    optimizer_step, get_optimizer_attr, get_scheduler_attr, set_optimizer,
    set_scheduler, bind, emit, lift, ret;
  cbn [fst snd trace self_optimizer self_scheduler files pretrained].

(** Case analysis on which events a block emits. *)
Ltac case_events :=
  unfold update_events, clip_events, report_events, forward_events;
  repeat match goal with
         | |- context [match max_grad_norm ?c with _ => _ end] =>
             destruct (max_grad_norm c) as [?x|]
         | |- context [if f_truthy ?x then _ else _] => destruct (f_truthy x)
         | |- context [if Z.eqb ?a ?b then _ else _] => destruct (Z.eqb a b)
         end.

Section StringFacts.

Lemma append_cons (c : ascii) (a p : string) :
  String c a +:+ p = String c (a +:+ p).
Proof. reflexivity. Qed.

Lemma prefix_occurs (a b : string) :
  String.prefix a b = true <-> exists post : string, b = a +:+ post.
Proof.
  revert b. induction a as [|c a IH]; intros b; simpl.
  - split; [intros _; exists b; reflexivity | intros _; destruct b; reflexivity].
  - destruct b as [|d b]; simpl.
    + split; [discriminate | intros [post Hp]; discriminate].
    + destruct (Ascii.ascii_dec c d) as [->|Hne].
      * rewrite IH.
        split; intros [post Hp]; exists post;
          rewrite ?append_cons in *; congruence.
      * split; [discriminate|].
        intros [post Hp]. rewrite append_cons in Hp. congruence.
Qed.

Lemma str_in_occurs (nd n : string) :
  str_in nd n = true <-> exists pre post : string, n = pre +:+ nd +:+ post.
Proof.
  induction n as [|c n IH].
  - cbn [str_in]. destruct (String.prefix nd "") eqn:Hp.
    + apply prefix_occurs in Hp as [post Hp].
      split; [intros _; exists "", post; exact Hp | reflexivity].
    + split; [discriminate|].
      intros [pre [post Hn]]. destruct pre.
      * assert (String.prefix nd "" = true) by (apply prefix_occurs; eauto).
        congruence.
      * rewrite append_cons in Hn. discriminate.
  - cbn [str_in]. destruct (String.prefix nd (String c n)) eqn:Hp.
    + apply prefix_occurs in Hp as [post Hp].
      split; [intros _; exists "", post; exact Hp | reflexivity].
    + rewrite IH. split.
      * intros [pre [post Hn]]. exists (String c pre), post.
        rewrite append_cons. congruence.
      * intros [pre [post Hn]]. destruct pre as [|d pre].
        -- assert (String.prefix nd (String c n) = true)
             by (apply prefix_occurs; eauto).
           congruence.
        -- rewrite append_cons in Hn. exists pre, post. congruence.
Qed.

Lemma any_in_occurs (pats : list string) (n : string) :
  any_in pats n = true <->
  exists nd : string, In nd pats /\ exists pre post : string, n = pre +:+ nd +:+ post.
Proof.
  unfold any_in. rewrite existsb_exists.
  split; intros [nd [Hin Hocc]]; exists nd; split; auto; apply str_in_occurs; auto.
Qed.

End StringFacts.

Section OptimizerGroups.
Context `{Env}.

Lemma filter_split_perm {A : Type} (f : A -> bool) (l : list A) :
  Permutation (List.filter (fun x => negb (f x)) l ++ List.filter f l) l.
Proof.
  induction l as [|x l IH]; simpl; [constructor|].
  destruct (f x); simpl.
  - symmetry. apply Permutation_cons_app. symmetry. exact IH.
  - constructor. exact IH.
Qed.

Lemma get_optimizer_adamw (cfg : Config) (w : Wrapper) :
  lower (optimizer_name cfg) = "adamw" ->
  get_optimizer cfg w
  = Ok (AdamW (grouped_param cfg w) (plm_learning_rate cfg) (adam_eps cfg) true).
Proof.
  intros Hadam. unfold get_optimizer. rewrite Hadam. reflexivity.
Qed.

Lemma bias_is_no_decay : matches_no_decay "encoder.layer.0.bias".
Proof.
  exists "bias". split; [simpl; auto|].
  exists "encoder.layer.0.", "". reflexivity.
Qed.

Lemma weight_is_decayed : ~ matches_no_decay "encoder.layer.0.weight".
Proof.
  intros [nd [Hin Hocc]].
  assert (any_in no_decay "encoder.layer.0.weight" = true) as Hany
    by (apply any_in_occurs; exists nd; auto).
  vm_compute in Hany. discriminate.
Qed.

(** C8. When the configured optimizer is AdamW, [get_optimizer] returns
    an optimizer with exactly three parameter groups, in this order:
    the encoder parameters whose name contains none of the no-decay
    substrings (encoder learning rate, configured weight decay), the
    encoder parameters whose name contains one (encoder learning rate,
    weight decay 0.0) and all task-head parameters (task learning rate,
    weight decay 0.0).  The first two groups split the encoder
    parameters: together they are a rearrangement of them, a parameter
    goes to the no-decay group exactly when its name contains a
    no-decay substring, ["encoder.layer.0.bias"] does and
    ["encoder.layer.0.weight"] does not. *)
Theorem get_optimizer_three_groups (cfg : Config) (w : Wrapper) :
  lower (optimizer_name cfg) = "adamw" ->
  exists g_decay g_no_decay g_task : ParamGroup,
    get_optimizer cfg w
      = Ok {| param_groups := [g_decay; g_no_decay; g_task];
              state := fresh_opt_state |} /\
    (forall n p, In (n, p) (plm_named (model w)) ->
       (matches_no_decay n -> In p (params g_no_decay)) /\
       (~ matches_no_decay n -> In p (params g_decay))) /\
    (forall p, In p (params g_no_decay) ->
       exists n, In (n, p) (plm_named (model w)) /\ matches_no_decay n) /\
    (forall p, In p (params g_decay) ->
       exists n, In (n, p) (plm_named (model w)) /\ ~ matches_no_decay n) /\
    Permutation (params g_decay ++ params g_no_decay)
                (map snd (plm_named (model w))) /\
    params g_task = map snd (task_named (model w)) /\
    lr g_decay = plm_learning_rate cfg /\
    weight_decay g_decay = adam_weight_decay cfg /\
    lr g_no_decay = plm_learning_rate cfg /\
    weight_decay g_no_decay = f_zero /\
    lr g_task = task_learning_rate cfg /\
    weight_decay g_task = f_zero /\
    matches_no_decay "encoder.layer.0.bias" /\
    ~ matches_no_decay "encoder.layer.0.weight".
Proof.
  intros Hadam. unfold get_optimizer. rewrite Hadam.
  change (String.eqb "adamw" "adamw") with true. cbv iota.
  unfold AdamW, grouped_param. cbn [map fst snd].
  eexists _, _, _. split; [reflexivity|]. cbn [params lr weight_decay].
  assert (Hm : forall n, any_in no_decay n = true <-> matches_no_decay n).
  { intros n. unfold matches_no_decay, occurs_in. apply any_in_occurs. }
  split; [|split; [|split; [|split]]].
  - intros n p Hin. split; intros Hn.
    + apply in_map_iff. exists (n, p). split; [reflexivity|].
      apply filter_In. split; [exact Hin|]. apply Hm. exact Hn.
    + apply in_map_iff. exists (n, p). split; [reflexivity|].
      apply filter_In. split; [exact Hin|]. cbn [fst].
      destruct (any_in no_decay n) eqn:E; [|reflexivity].
      exfalso. apply Hn, Hm, E.
  - intros p Hp. apply in_map_iff in Hp as [[n q] [Hq Hin]].
    apply filter_In in Hin as [Hin Hf]. cbn [fst snd] in *. subst q.
    exists n. split; [exact Hin|]. apply Hm, Hf.
  - intros p Hp. apply in_map_iff in Hp as [[n q] [Hq Hin]].
    apply filter_In in Hin as [Hin Hf]. cbn [fst snd] in *. subst q.
    exists n. split; [exact Hin|]. intros Hn. apply Hm in Hn.
    rewrite Hn in Hf. discriminate.
  - rewrite <- map_app. apply Permutation_map.
    apply (filter_split_perm (fun np => any_in no_decay (fst np))).
  - repeat split; auto using bias_is_no_decay, weight_is_decayed.
Qed.

End OptimizerGroups.

Section LoopFacts.
Context `{Env}.

Lemma count_optimizer_steps_app (t1 t2 : list Event) :
  count_optimizer_steps (t1 ++ t2)
  = (count_optimizer_steps t1 + count_optimizer_steps t2)%nat.
Proof.
  unfold count_optimizer_steps. rewrite List.filter_app, length_app. reflexivity.
Qed.

Lemma backward_losses_app (t1 t2 : list Event) :
  backward_losses (t1 ++ t2) = backward_losses t1 ++ backward_losses t2.
Proof.
  induction t1 as [|e t1 IH]; [reflexivity|].
  destruct e; simpl; rewrite ?IH; reflexivity.
Qed.

Lemma forward_losses_app (t1 t2 : list Event) :
  forward_losses (t1 ++ t2) = forward_losses t1 ++ forward_losses t2.
Proof.
  induction t1 as [|e t1 IH]; [reflexivity|].
  destruct e; simpl; rewrite ?IH; reflexivity.
Qed.

Lemma for_each_app {X : Type} (xs ys : list X) (body : X -> Locals -> M Locals)
    (l : Locals) (w : World) :
  for_each (xs ++ ys) body l w
  = bind (for_each xs body l) (for_each ys body) w.
Proof.
  revert l w. induction xs as [|x xs IH]; intros l w.
  - reflexivity.
  - simpl. unfold bind. destruct (body x l w) as [w1 [l1|e]]; [|reflexivity].
    rewrite IH. reflexivity.
Qed.

Lemma clip_block_eq cfg o s f p t :
  clip_block cfg {| self_optimizer := o; self_scheduler := s; files := f; pretrained := p; trace := t |}
  = ({| self_optimizer := o; self_scheduler := s; files := f; pretrained := p; trace := t ++ clip_events cfg |}, Ok tt).
Proof.
  unfold clip_block, clip_events.
  destruct (max_grad_norm cfg) as [x|]; [destruct (f_truthy x)|]; run_m;
    rewrite <- ?app_assoc, ?app_nil_r; reflexivity.
Qed.

Lemma evaluate_block_eq self epo l o s f p t :
  let step := _step_count s in
  let f1 := fst (evaluate (weights (model (wrapper l))) Dev step) in
  evaluate_block self epo l
    {| self_optimizer := Some o; self_scheduler := Some s; files := f; pretrained := p; trace := t |}
  = if gt f1 (max_f1 l) then
      ({| self_optimizer := Some o; self_scheduler := Some s;
          files := <[step_ckpt_path self step := FCheckpoint (saved_checkpoint o s epo)]> f;
          pretrained := <[log_dir (config self) := model (wrapper l)]> p;
          trace := t ++ [EEvaluate Dev step f1; ETorchSave (step_ckpt_path self step);
                         ESavePretrained (log_dir (config self))] |},
       Ok (select_best l f1 step))
    else
      ({| self_optimizer := Some o; self_scheduler := Some s; files := f; pretrained := p;
          trace := t ++ [EEvaluate Dev step f1] |}, Ok l).
Proof.
  intros step f1. unfold evaluate_block. run_m. fold step. fold f1.
  destruct (gt f1 (max_f1 l)); run_m; rewrite <- ?app_assoc; reflexivity.
Qed.

Lemma update_block_outcome self epo l o s f p t :
  let cfg := config self in
  let o2 := fst (scheduler_step (stepped_optimizer o l) s) in
  let s2 := snd (scheduler_step (stepped_optimizer o l) s) in
  let l1 := after_update l o in
  let l2 := after_report cfg (_step_count s2) l1 in
  exists f' p' q r,
    update_block self epo l
      {| self_optimizer := Some o; self_scheduler := Some s; files := f; pretrained := p; trace := t |}
    = ({| self_optimizer := Some o2; self_scheduler := Some s2; files := f'; pretrained := p';
          trace := t ++ update_events cfg ++ q |}, r) /\
    UpdateOutcome self epo l1 l2 (_step_count s2) q r.
Proof.
  intros cfg o2 s2 l1 l2.
  unfold update_block. fold cfg.
  unfold bind at 1. rewrite clip_block_eq.
  unfold report_block, optimizer_step, sched_step, step_count, get_optimizer_attr,
    get_scheduler_attr, set_optimizer, set_scheduler, bind, emit, lift, ret, py_mod.
  cbn [fst snd trace self_optimizer self_scheduler files pretrained].
  fold (stepped_optimizer o l). fold o2 s2.
  assert (Ht : forall q, ((t ++ clip_events cfg) ++ [EOptimizerStep]) ++ [ESchedulerStep] ++ q
                         = t ++ update_events cfg ++ q).
  { intros q. unfold update_events. rewrite <- !app_assoc. reflexivity. }
  destruct (Z.eqb_spec (report_frequency cfg) 0) as [Hr|Hr].
  { exists f, p, [], (Raise ZeroDivisionError). split; [|constructor; exact Hr].
    rewrite <- Ht, app_nil_r. reflexivity. }
  destruct (Z.eqb_spec (eval_frequency cfg) 0) as [He|He].
  { exists f, p, (report_events cfg (_step_count s2) l1), (Raise ZeroDivisionError).
    split; [|constructor; assumption].
    rewrite <- Ht. unfold report_events.
    destruct (Z.eqb (_step_count s2 mod report_frequency cfg) 0);
      cbn [fst snd trace self_optimizer self_scheduler files pretrained];
      rewrite <- ?app_assoc, ?app_nil_r; reflexivity. }
  assert (Hout : forall w2 r,
            (if Z.eqb (_step_count s2 mod eval_frequency cfg) 0
             then evaluate_block self epo l2
                    {| self_optimizer := Some o2; self_scheduler := Some s2;
                       files := f; pretrained := p;
                       trace := t ++ update_events cfg
                                  ++ report_events cfg (_step_count s2) l1 |}
             else ({| self_optimizer := Some o2; self_scheduler := Some s2;
                      files := f; pretrained := p;
                      trace := t ++ update_events cfg
                                 ++ report_events cfg (_step_count s2) l1 |}, Ok l2))
            = (w2, r) ->
            exists f' p' q,
              w2 = {| self_optimizer := Some o2; self_scheduler := Some s2;
                      files := f'; pretrained := p';
                      trace := t ++ update_events cfg ++ q |} /\
              UpdateOutcome self epo l1 l2 (_step_count s2) q r).
  { intros w2 r.
    destruct (Z.eqb_spec (_step_count s2 mod eval_frequency cfg) 0) as [Hm|Hm].
    - rewrite evaluate_block_eq.
      destruct (gt (fst (evaluate (weights (model (wrapper l2))) Dev (_step_count s2)))
                   (max_f1 l2)) eqn:Hgt;
        intros [= <- <-]; eexists _, _, _;
        (split; [rewrite <- !app_assoc; reflexivity|]).
      + eapply update_eval_save; eauto.
      + eapply update_eval_keep; eauto.
    - intros [= <- <-]. eexists _, _, _. split; [reflexivity|].
      constructor; assumption. }
  match goal with |- exists f' p' q r, ?lhs = _ /\ _ =>
    destruct lhs as [w2 r] eqn:E end.
  destruct (Hout w2 r) as (f' & p' & q & -> & Hq).
  { rewrite <- E. unfold report_events, l2, after_report.
    cbn [fst snd trace self_optimizer self_scheduler files pretrained].
    destruct (Z.eqb (_step_count s2 mod report_frequency cfg) 0);
      cbn [fst snd trace self_optimizer self_scheduler files pretrained];
      unfold update_events; rewrite <- ?app_assoc, ?app_nil_r;
      destruct (Z.eqb (_step_count s2 mod eval_frequency cfg) 0); reflexivity. }
  exists f', p', q, r. split; [reflexivity | exact Hq].
Qed.


Lemma train_step_outcome self epo i l o s f p t :
  exists o' s' f' p' q r,
    train_step self epo i l
      {| self_optimizer := Some o; self_scheduler := Some s; files := f; pretrained := p; trace := t |}
    = ({| self_optimizer := Some o'; self_scheduler := Some s'; files := f'; pretrained := p';
          trace := t ++ q |}, r) /\
    StepOutcome self epo i l o s q o' s' r.
Proof.
  unfold train_step.
  unfold bind at 1 2 3, emit, lift, py_mod.
  cbn [fst snd trace self_optimizer self_scheduler files pretrained loss_during_accum].
  fold (micro_loss self l epo i).
  assert (Ht : (t ++ [EForward epo i (forward_loss (weights (model (wrapper l))) epo i)])
                 ++ [EBackward (micro_loss self l epo i)]
               = t ++ forward_events self l epo i).
  { unfold forward_events. rewrite <- app_assoc. reflexivity. }
  rewrite Ht.
  destruct (Z.eqb_spec (gradient_accumulation_steps (config self)) 0) as [Hk|Hk].
  { eexists _, _, _, _, _, _. split; [reflexivity|]. apply step_zero_accum. exact Hk. }
  destruct (Z.eqb_spec
              (Z.of_nat (length (loss_during_accum l ++ [micro_loss self l epo i]))
                 mod gradient_accumulation_steps (config self)) 0) as [Hm|Hm].
  - fold (add_loss l (micro_loss self l epo i)).
    destruct (update_block_outcome self epo (add_loss l (micro_loss self l epo i)) o s f p
                (t ++ forward_events self l epo i)) as (f' & p' & q & r & E & Hq).
    rewrite E. eexists _, _, _, _, _, _. split.
    + rewrite <- app_assoc. reflexivity.
    + eapply step_update; eauto.
  - eexists _, _, _, _, _, _. split; [reflexivity|]. apply step_accumulate; assumption.
Qed.

Lemma for_batches_outcome self bs l o s f p t :
  exists o' s' f' p' q r,
    for_batches self bs l
      {| self_optimizer := Some o; self_scheduler := Some s; files := f; pretrained := p; trace := t |}
    = ({| self_optimizer := Some o'; self_scheduler := Some s'; files := f'; pretrained := p';
          trace := t ++ q |}, r) /\
    RunOutcome self bs l o s q o' s' r.
Proof.
  revert l o s f p t. induction bs as [|b bs IH]; intros l o s f p t.
  - exists o, s, f, p, [], (Ok l). split; [|constructor].
    rewrite app_nil_r. reflexivity.
  - unfold for_batches. cbn [for_each]. unfold bind.
    destruct (train_step_outcome self (fst b) (snd b) l o s f p t)
      as (o1 & s1 & f1 & p1 & q1 & r1 & E1 & H1').
    rewrite E1. destruct r1 as [l1|e].
    + destruct (IH l1 o1 s1 f1 p1 (t ++ q1)) as (o2 & s2 & f2 & p2 & q2 & r & E2 & H2').
      unfold for_batches in E2. rewrite E2.
      eexists _, _, _, _, _, _. split; [rewrite <- app_assoc; reflexivity|].
      eapply run_step; eauto.
    + eexists _, _, _, _, _, _. split; [reflexivity|]. apply run_raise. exact H1'.
Qed.

Lemma for_each_map {X Y : Type} (g : X -> Y) (xs : list X)
    (body : Y -> Locals -> M Locals) (l : Locals) (w : World) :
  for_each (map g xs) body l w = for_each xs (fun x => body (g x)) l w.
Proof.
  revert l w. induction xs as [|x xs IH]; intros l w; [reflexivity|].
  cbn [map for_each]. unfold bind. destruct (body (g x) l w) as [w1 [l1|e]]; auto.
Qed.

Lemma for_each_flat_map {X Y : Type} (g : X -> list Y) (xs : list X)
    (body : Y -> Locals -> M Locals) (l : Locals) (w : World) :
  for_each (flat_map g xs) body l w
  = for_each xs (fun x => for_each (g x) body) l w.
Proof.
  revert l w. induction xs as [|x xs IH]; intros l w; [reflexivity|].
  cbn [flat_map for_each]. rewrite for_each_app. unfold bind.
  destruct (for_each (g x) body l w) as [w1 [l1|e]]; auto.
Qed.

Lemma for_each_ext {X : Type} (xs : list X) (body1 body2 : X -> Locals -> M Locals) :
  (forall x l w, body1 x l w = body2 x l w) ->
  forall l w, for_each xs body1 l w = for_each xs body2 l w.
Proof.
  intros Hb. induction xs as [|x xs IH]; intros l w; [reflexivity|].
  cbn [for_each]. unfold bind. rewrite Hb.
  destruct (body2 x l w) as [w1 [l1|e]]; auto.
Qed.

(** The nested loops visit the mini-batches in the order [mini_batches]
    lists them. *)
Lemma epoch_loop_flat (self : Runner) (num_batches : nat) (start_epoch : Z)
    (l : Locals) (w : World) :
  epoch_loop self num_batches start_epoch l w
  = for_batches self (mini_batches self num_batches start_epoch) l w.
Proof.
  unfold epoch_loop, for_batches, mini_batches.
  rewrite for_each_flat_map. apply for_each_ext.
  intros epo l' w'. rewrite for_each_map. reflexivity.
Qed.

(** What a pass that ends normally has done to the counters. *)
Lemma step_ok_cases self epo i l o s q o' s' l' :
  StepOutcome self epo i l o s q o' s' (Ok l') ->
  let k := gradient_accumulation_steps (config self) in
  let acc := loss_during_accum l ++ [micro_loss self l epo i] in
  k <> 0 /\
  backward_losses q = [micro_loss self l epo i] /\
  forward_losses q = [forward_loss (weights (model (wrapper l))) epo i] /\
  ((Z.of_nat (length acc) mod k <> 0 /\
    loss_during_accum l' = acc /\
    loss_history l' = loss_history l /\
    _step_count s' = _step_count s /\
    count_optimizer_steps q = 0%nat)
   \/
   (Z.of_nat (length acc) mod k = 0 /\
    loss_during_accum l' = [] /\
    loss_history l' = loss_history l ++ [np_sum acc] /\
    _step_count s' = _step_count s + 1 /\
    count_optimizer_steps q = 1%nat)).
Proof.
  intros Hs k acc. inversion Hs; subst.
  - repeat split; auto. left. repeat split; auto.
  - match goal with Hu : UpdateOutcome _ _ _ _ _ _ _ |- _ => inversion Hu; subst end.
    all: split; [assumption|].
    all: rewrite !backward_losses_app, !forward_losses_app, !count_optimizer_steps_app.
    all: (split; [case_events; reflexivity|]).
    all: (split; [case_events; reflexivity|]).
    all: right; split; [assumption|].
    all: cbn [select_best loss_during_accum loss_history]; unfold after_report.
    all: repeat split; case_events; reflexivity.
Qed.


Lemma LambdaLR_fresh o lambdas o' s' :
  LambdaLR o lambdas = Ok (o', s') -> _step_count s' = 1 /\ last_epoch s' = 0.
Proof.
  unfold LambdaLR. destruct (negb _); [discriminate|].
  intros [= <- <-]. split; reflexivity.
Qed.

Lemma get_scheduler_fresh cfg o total o' s' :
  get_scheduler cfg o total = Ok (o', s') -> _step_count s' = 1.
Proof. unfold get_scheduler. intros Hs. apply LambdaLR_fresh in Hs. tauto. Qed.

Lemma get_scheduler_ok cfg o total :
  length (param_groups o) = 3%nat ->
  exists o' s', get_scheduler cfg o total = Ok (o', s').
Proof.
  intros Hl. unfold get_scheduler, LambdaLR. rewrite Hl. cbn [length Nat.eqb negb].
  eexists _, _. reflexivity.
Qed.



Lemma train_setup_cases self wr continued w0 w1 r :
  train_setup self wr continued w0 = (w1, r) ->
  match r with
  | Ok nb =>
      exists o s d,
        w1 = {| self_optimizer := Some o; self_scheduler := Some s;
                files := files w0; pretrained := pretrained w0; trace := trace w0 |} /\
        data self = Some d /\
        DataLoader_len (len_train d) (batch_size (config self)) = Ok nb /\
        (continued = false -> _step_count s = 1) /\
        (continued = true -> self_scheduler w0 = Some s /\ self_optimizer w0 = Some o)
  | Raise _ => trace w1 = trace w0
  end.
Proof.
  destruct w0 as [wo ws wf wp wt].
  unfold train_setup, bind, lift, attr, py_floordiv.
  destruct (data self) as [d|]; [|intros [= <- <-]; reflexivity].
  destruct (Z.eqb _ 0); [intros [= <- <-]; reflexivity|].
  destruct continued; cbn [negb].
  - unfold ret, get_scheduler_attr, get_optimizer_attr.
    cbn [self_scheduler self_optimizer].
    destruct ws as [s|]; [|intros [= <- <-]; reflexivity].
    destruct wo as [o|]; [|intros [= <- <-]; reflexivity].
    destruct (DataLoader_len _ _) as [nb|e] eqn:Hd; intros [= <- <-]; [|reflexivity].
    exists o, s, d. repeat split; auto; discriminate.
  - destruct (get_optimizer (config self) wr) as [o|e] eqn:Ho;
      [|intros [= <- <-]; reflexivity].
    unfold set_optimizer, set_scheduler, get_scheduler_attr, get_optimizer_attr.
    cbn [fst snd trace self_optimizer self_scheduler files pretrained].
    destruct (get_scheduler (config self) o _) as [[o' s']|e] eqn:Hs;
      cbn [fst snd trace self_optimizer self_scheduler files pretrained];
      [|intros [= <- <-]; reflexivity].
    destruct (DataLoader_len _ _) as [nb|e] eqn:Hd; intros [= <- <-]; [|reflexivity].
    exists o', s', d. repeat split; auto; try discriminate.
    intros _. eapply get_scheduler_fresh; eauto.
Qed.


Lemma step_valid_ok self epo i l o s q o' s' r :
  valid_frequencies (config self) ->
  StepOutcome self epo i l o s q o' s' r -> exists l', r = Ok l'.
Proof.
  intros (Hk & Hr & He) Hs. inversion Hs; subst; try contradiction; eauto.
  match goal with Hu : UpdateOutcome _ _ _ _ _ _ _ |- _ =>
    inversion Hu; subst; try contradiction; eauto end.
Qed.

Lemma run_valid_ok self bs l o s q o' s' r :
  valid_frequencies (config self) ->
  RunOutcome self bs l o s q o' s' r -> exists l', r = Ok l'.
Proof.
  intros Hv Hr. induction Hr; eauto.
  destruct (step_valid_ok _ _ _ _ _ _ _ _ _ _ Hv H2) as [l' [=]].
Qed.

Lemma full_window (kn n : nat) :
  (0 < kn)%nat -> (n < kn)%nat ->
  (Z.of_nat (S n) mod Z.of_nat kn = 0 <-> S n = kn).
Proof.
  intros Hk Hn. split.
  - intros Hm. apply Z.mod_divide in Hm; [|lia]. destruct Hm as [c Hc].
    assert (c = 1) by nia. lia.
  - intros ->. apply Z.mod_same. lia.
Qed.

(** The micro-step losses of a run, cut into windows of [kn]. *)
Lemma run_windows self (kn : nat) bs l o s q o' s' l' :
  gradient_accumulation_steps (config self) = Z.of_nat kn ->
  (0 < kn)%nat ->
  (length (loss_during_accum l) < kn)%nat ->
  RunOutcome self bs l o s q o' s' (Ok l') ->
  exists ws : list (list float),
    loss_during_accum l ++ backward_losses q = concat ws ++ loss_during_accum l' /\
    Forall (fun w => length w = kn) ws /\
    (length (loss_during_accum l') < kn)%nat /\
    loss_history l' = loss_history l ++ map np_sum ws /\
    _step_count s' = _step_count s + Z.of_nat (length ws) /\
    count_optimizer_steps q = length ws /\
    length (backward_losses q) = length bs /\
    backward_losses q
      = map (fun raw => f_div_int raw (Z.of_nat kn)) (forward_losses q).
Proof.
  intros Hk Hpos Hacc Hr. remember (Ok l') as r eqn:Er.
  revert l' Er Hacc. induction Hr as [l o s|b bs l o s q o1 s1 e Hs
                          |b bs l o s q1 o1 s1 l1 q2 o2 s2 r Hs Hr IH];
    intros l' Er Hacc.
  - injection Er as <-. exists []. cbn. rewrite !app_nil_r.
    repeat split; auto. lia.
  - discriminate.
  - subst r. apply step_ok_cases in Hs. cbv zeta in Hs.
    destruct Hs as (_ & Hb & Hf & Hcase).
    rewrite Hk in Hcase. rewrite length_app in Hcase. cbn [length] in Hcase.
    replace (length (loss_during_accum l) + 1)%nat
      with (S (length (loss_during_accum l))) in Hcase by lia.
    rewrite backward_losses_app, forward_losses_app, count_optimizer_steps_app,
      Hb, Hf.
    destruct Hcase as [(Hm & Ha & Hh & Hc & Hn)|(Hm & Ha & Hh & Hc & Hn)].
    + assert (S (length (loss_during_accum l)) <> kn) as Hne
        by (intros E; apply Hm, full_window; auto).
      destruct (IH l' eq_refl) as (ws & Hw1 & Hw2 & Hw3 & Hw4 & Hw5 & Hw6 & Hw7 & Hw8).
      { rewrite Ha, length_app. cbn. lia. }
      exists ws. rewrite Ha in Hw1. rewrite <- app_assoc in Hw1.
      rewrite Hh in Hw4. rewrite Hc in Hw5. rewrite Hn.
      repeat split; auto.
      * cbn [length]. rewrite length_app, Hw7. reflexivity.
      * cbn [map app]. rewrite Hw8. unfold micro_loss. rewrite Hk. reflexivity.
    + assert (S (length (loss_during_accum l)) = kn) as Heq
        by (apply full_window; auto).
      destruct (IH l' eq_refl) as (ws & Hw1 & Hw2 & Hw3 & Hw4 & Hw5 & Hw6 & Hw7 & Hw8).
      { rewrite Ha. cbn. lia. }
      exists ((loss_during_accum l ++ [micro_loss self l (fst b) (snd b)]) :: ws).
      rewrite Ha in Hw1. cbn [app] in Hw1.
      repeat split; auto.
      * rewrite concat_cons, <- !app_assoc. cbn [app]. rewrite Hw1. reflexivity.
      * constructor; [|exact Hw2]. rewrite length_app. cbn. lia.
      * rewrite Hw4, Hh. cbn [map]. rewrite <- app_assoc. reflexivity.
      * rewrite Hw5, Hc. cbn [length]. lia.
      * rewrite Hn, Hw6. reflexivity.
      * cbn [length]. rewrite length_app, Hw7. reflexivity.
      * cbn [map app]. rewrite Hw8. unfold micro_loss. rewrite Hk. reflexivity.
Qed.

Lemma run_history_count self bs l o s q o' s' l' :
  RunOutcome self bs l o s q o' s' (Ok l') ->
  length (loss_history l')
  = (length (loss_history l) + count_optimizer_steps q)%nat.
Proof.
  intros Hr. remember (Ok l') as r eqn:Er. revert l' Er.
  induction Hr as [l o s|b bs l o s q o1 s1 e Hs
                  |b bs l o s q1 o1 s1 l1 q2 o2 s2 r Hs Hr IH]; intros l' Er.
  - injection Er as <-. cbn. lia.
  - discriminate.
  - rewrite (IH l' Er), count_optimizer_steps_app.
    apply step_ok_cases in Hs. cbv zeta in Hs.
    destruct Hs as (_ & _ & _ & [(_ & _ & Hh & _ & Hn)|(_ & _ & Hh & _ & Hn)]);
      rewrite Hh, Hn, ?length_app; cbn; lia.
Qed.

(** [train_until] is the set-up followed by a run of the loop body. *)
Lemma train_until_run self wr continued start_epoch n w0 w1 nb :
  train_setup self wr continued w0 = (w1, Ok nb) ->
  exists o s o' s' f' p' q r,
    w1 = {| self_optimizer := Some o; self_scheduler := Some s;
            files := files w0; pretrained := pretrained w0; trace := trace w0 |} /\
    (continued = false -> _step_count s = 1) /\
    train_until self wr continued start_epoch n w0
    = ({| self_optimizer := Some o'; self_scheduler := Some s';
          files := f'; pretrained := p'; trace := trace w0 ++ q |}, r) /\
    RunOutcome self (firstn n (mini_batches self nb start_epoch))
               (initial_locals wr) o s q o' s' r.
Proof.
  intros Hs. pose proof (train_setup_cases _ _ _ _ _ _ Hs) as Hc. cbn in Hc.
  destruct Hc as (o & s & d & -> & _ & _ & Hfresh & _).
  destruct (for_batches_outcome self (firstn n (mini_batches self nb start_epoch))
              (initial_locals wr) o s (files w0) (pretrained w0) (trace w0))
    as (o' & s' & f' & p' & q & r & E & Hr).
  exists o, s, o', s', f', p', q, r. repeat split; auto.
  unfold train_until, bind. rewrite Hs. exact E.
Qed.

Lemma train_until_raise self wr continued start_epoch n w0 w1 e :
  train_setup self wr continued w0 = (w1, Raise e) ->
  train_until self wr continued start_epoch n w0 = (w1, Raise e).
Proof. intros Hs. unfold train_until, bind. rewrite Hs. reflexivity. Qed.

End LoopFacts.

Section TrainingLoop.
Context `{Env}.

(** C10. At the end of every pass through the loop body that
    [Runner.train] completes, the length of [loss_history] equals the
    number of [optimizer.step()] calls made since [train] was entered. *)
Theorem loss_history_counts_optimizer_steps (self : Runner) (wr : Wrapper)
    (continued : bool) (start_epoch : Z) (n : nat) (w0 w' : World) (l' : Locals) :
  train_until self wr continued start_epoch n w0 = (w', Ok l') ->
  exists q : list Event,
    trace w' = trace w0 ++ q /\
    length (loss_history l') = count_optimizer_steps q.
Proof.
  intros Hrun.
  destruct (train_setup self wr continued w0) as [w1 [nb|e]] eqn:Hs.
  - destruct (train_until_run self wr continued start_epoch n w0 w1 nb Hs)
      as (o & s & o' & s' & f' & p' & q & r & _ & _ & E & Hr).
    rewrite E in Hrun. injection Hrun as <- ->.
    exists q. split; [reflexivity|].
    apply run_history_count in Hr. exact Hr.
  - rewrite (train_until_raise _ _ _ _ _ _ _ _ Hs) in Hrun. discriminate.
Qed.

(** C4 (as the code has it). With [gradient_accumulation_steps = 1] and
    non-zero report and evaluation frequencies, once the set-up of
    [train] has succeeded the first [n] mini-batches are processed
    without error, the optimizer steps exactly once per mini-batch ([n]
    steps, one loss recorded for each), and the scheduler's step count
    equals its value at the start of the loop plus [n]; that value is 1
    for the scheduler a fresh run builds, and the restored count for a
    continued run. *)
Theorem one_optimizer_step_per_batch (self : Runner) (wr : Wrapper)
    (continued : bool) (start_epoch : Z) (n : nat) (w0 w1 : World) (nb : nat) :
  gradient_accumulation_steps (config self) = 1 ->
  report_frequency (config self) <> 0 ->
  eval_frequency (config self) <> 0 ->
  train_setup self wr continued w0 = (w1, Ok nb) ->
  (n <= length (mini_batches self nb start_epoch))%nat ->
  exists (s1 : Scheduler) (w' : World) (l' : Locals) (s' : Scheduler) (q : list Event),
    self_scheduler w1 = Some s1 /\
    (continued = false -> _step_count s1 = 1) /\
    train_until self wr continued start_epoch n w0 = (w', Ok l') /\
    trace w' = trace w0 ++ q /\
    count_optimizer_steps q = n /\
    length (loss_history l') = n /\
    self_scheduler w' = Some s' /\
    _step_count s' = _step_count s1 + Z.of_nat n.
Proof.
  intros Hk Hrf Hef Hs Hn.
  destruct (train_until_run self wr continued start_epoch n w0 w1 nb Hs)
    as (o & s & o' & s' & f' & p' & q & r & -> & Hfresh & E & Hr).
  assert (valid_frequencies (config self)) as Hv
    by (repeat split; auto; rewrite Hk; lia).
  destruct (run_valid_ok _ _ _ _ _ _ _ _ _ Hv Hr) as [l' ->].
  change 1 with (Z.of_nat 1) in Hk.
  destruct (fun H1 H2 => run_windows self 1 _ _ _ _ _ _ _ _ Hk H1 H2 Hr)
    as (ws & Hsplit & Hlen & Hrest & Hh & Hc & Hcount & Hbl & _);
    [lia | cbn; lia |].
  assert (length ws = n) as Hws.
  { assert (length (backward_losses q) = n) as Hq
      by (rewrite Hbl, length_firstn; lia).
    destruct (loss_during_accum l') as [|x xs]; [|cbn in Hrest; lia].
    rewrite app_nil_r in Hsplit. cbn [initial_locals loss_during_accum app] in Hsplit.
    rewrite Hsplit in Hq.
    assert (length (concat ws) = length ws) as Hone.
    { clear -Hlen. induction Hlen as [|v vs Hv _ IH]; [reflexivity|].
      rewrite concat_cons, length_app, Hv, IH. reflexivity. }
    lia. }
  exists s. eexists. exists l', s', q.
  split; [reflexivity|]. split; [exact Hfresh|]. split; [exact E|].
  cbn [self_scheduler trace]. repeat split; auto.
  - lia.
  - rewrite Hh. cbn [initial_locals loss_history app]. rewrite length_map. exact Hws.
  - rewrite Hc, Hws. reflexivity.
Qed.

(** C3. With [gradient_accumulation_steps = k > 1] and non-zero report
    and evaluation frequencies, once the set-up of [train] has succeeded
    the first [n] mini-batches are processed without error; each
    micro-step loss is the wrapper's loss divided by [k]; cut into
    consecutive windows of [k] (the incomplete rest still sits in
    [loss_during_accum]), every window produced exactly one scheduler
    step and one entry of [loss_history], which is the [np.sum] of the
    [k] micro-step losses of that window: after [n] mini-batches there
    are [n / k] of them. *)
Theorem accumulation_windows (self : Runner) (wr : Wrapper)
    (continued : bool) (start_epoch : Z) (n : nat) (w0 w1 : World) (nb : nat)
    (k : nat) :
  gradient_accumulation_steps (config self) = Z.of_nat k ->
  (1 < k)%nat ->
  report_frequency (config self) <> 0 ->
  eval_frequency (config self) <> 0 ->
  train_setup self wr continued w0 = (w1, Ok nb) ->
  (n <= length (mini_batches self nb start_epoch))%nat ->
  exists (s1 : Scheduler) (w' : World) (l' : Locals) (s' : Scheduler)
         (q : list Event) (ws : list (list float)),
    self_scheduler w1 = Some s1 /\
    train_until self wr continued start_epoch n w0 = (w', Ok l') /\
    trace w' = trace w0 ++ q /\
    length (forward_losses q) = n /\
    backward_losses q = map (fun raw => f_div_int raw (Z.of_nat k)) (forward_losses q) /\
    backward_losses q = concat ws ++ loss_during_accum l' /\
    Forall (fun w => length w = k) ws /\
    (length (loss_during_accum l') < k)%nat /\
    length ws = (n / k)%nat /\
    loss_history l' = map np_sum ws /\
    count_optimizer_steps q = length ws /\
    self_scheduler w' = Some s' /\
    _step_count s' = _step_count s1 + Z.of_nat (n / k).
Proof.
  intros Hk Hk1 Hrf Hef Hs Hn.
  destruct (train_until_run self wr continued start_epoch n w0 w1 nb Hs)
    as (o & s & o' & s' & f' & p' & q & r & -> & Hfresh & E & Hr).
  assert (valid_frequencies (config self)) as Hv
    by (repeat split; auto; rewrite Hk; lia).
  destruct (run_valid_ok _ _ _ _ _ _ _ _ _ Hv Hr) as [l' ->].
  destruct (fun H1 H2 => run_windows self k _ _ _ _ _ _ _ _ Hk H1 H2 Hr)
    as (ws & Hsplit & Hlen & Hrest & Hh & Hc & Hcount & Hbl & Hdiv);
    [lia | cbn; lia |].
  cbn [initial_locals loss_during_accum loss_history app] in Hsplit, Hh.
  assert (length (backward_losses q) = n) as Hq
    by (rewrite Hbl, length_firstn; lia).
  assert (length (concat ws) = (k * length ws)%nat) as Hcat.
  { clear -Hlen. induction Hlen as [|v vs Hv _ IH]; [cbn; lia|].
    rewrite concat_cons, length_app, Hv, IH. cbn [length]. lia. }
  assert (length ws = (n / k)%nat) as Hws.
  { rewrite Hsplit, length_app, Hcat in Hq.
    apply (Nat.div_unique n k _ (length (loss_during_accum l'))); lia. }
  exists s. eexists. exists l', s', q, ws.
  split; [reflexivity|]. split; [exact E|].
  cbn [self_scheduler trace]. repeat split; auto.
  - rewrite <- Hq, Hdiv, length_map. reflexivity.
  - rewrite Hc, Hws. reflexivity.
Qed.

End TrainingLoop.

Section ModelSelection.
Context `{Env}.

Lemma gt_lt (x y : Q) : gt x y = true <-> (y < x)%Q.
Proof.
  unfold gt. rewrite negb_true_iff, <- not_true_iff_false, Qle_bool_iff.
  split; [apply Qnot_le_lt | apply Qlt_not_le].
Qed.

Lemma gt_le (x y : Q) : gt x y = false <-> (x <= y)%Q.
Proof.
  unfold gt. rewrite negb_false_iff, Qle_bool_iff. reflexivity.
Qed.

Lemma max2_gt (b f : Q) : gt f b = true -> max2 b f = f.
Proof. unfold max2. intros ->. reflexivity. Qed.

Lemma well_selected_quiet path b (a t : list Event) :
  forallb is_quiet a = true ->
  (well_selected path b (a ++ t) <-> well_selected path b t).
Proof.
  induction a as [|e a IH]; intros Ha; [reflexivity|].
  cbn [forallb] in Ha. apply andb_true_iff in Ha as [He Ha].
  rewrite <- (IH Ha). cbn [app].
  destruct e as [| | | | | | sp ? ? | | | | |];
    try discriminate; try reflexivity.
  destruct sp; try discriminate; reflexivity.
Qed.

Lemma well_selected_keep path b step f1 (t : list Event) :
  starts_quiet t ->
  (well_selected path b (EEvaluate Dev step f1 :: t)
   <-> gt f1 b = false /\ well_selected path b t).
Proof.
  intros Hq. cbn [well_selected].
  destruct t as [|e t]; [reflexivity|].
  destruct e; try reflexivity. discriminate.
Qed.

Lemma quiet_update_events cfg : forallb is_quiet (update_events cfg) = true.
Proof. case_events; reflexivity. Qed.

Lemma quiet_report_events cfg step l :
  forallb is_quiet (report_events cfg step l) = true.
Proof. case_events; reflexivity. Qed.

Lemma after_report_max_f1 cfg step l : max_f1 (after_report cfg step l) = max_f1 l.
Proof. unfold after_report. destruct (Z.eqb _ _); reflexivity. Qed.

Lemma step_selected self epo i l o s q o' s' r (rest : list Event) :
  StepOutcome self epo i l o s q o' s' r ->
  starts_quiet rest ->
  match r with
  | Ok l' => well_selected (step_ckpt_path self) (max_f1 l') rest
  | Raise _ => rest = []
  end ->
  well_selected (step_ckpt_path self) (max_f1 l) (q ++ rest) /\ starts_quiet (q ++ rest).
Proof.
  intros Hs Hrest Hr. split; [|inversion Hs; reflexivity].
  inversion Hs; subst.
  - cbn in Hr. subst rest. reflexivity.
  - exact Hr.
  - rewrite <- !app_assoc. cbn [forward_events app].
    apply well_selected_quiet; [apply quiet_update_events|].
    match goal with Hup : UpdateOutcome _ _ _ _ _ _ _ |- _ => inversion Hup; subst end.
    all: cbn in Hr; try subst rest.
    all: repeat match goal with
                | Hx : context [max_f1 (after_report _ _ _)] |- _ =>
                    rewrite after_report_max_f1 in Hx
                end.
    + reflexivity.
    + apply well_selected_quiet; [apply quiet_report_events | exact I].
    + apply well_selected_quiet; [apply quiet_report_events | exact Hr].
    + rewrite <- app_assoc. apply well_selected_quiet; [apply quiet_report_events|].
      cbn [app]. apply well_selected_keep; [exact Hrest|].
      split; assumption.
    + rewrite <- app_assoc. apply well_selected_quiet; [apply quiet_report_events|].
      cbn [app well_selected]. split; [assumption|].
      split; [reflexivity|]. exact Hr.
Qed.

Lemma run_selected self bs l o s q o' s' r :
  RunOutcome self bs l o s q o' s' r ->
  well_selected (step_ckpt_path self) (max_f1 l) q /\ starts_quiet q.
Proof.
  induction 1 as [l o s|b bs l o s q o1 s1 e Hs
                 |b bs l o s q1 o1 s1 l1 q2 o2 s2 r Hs Hr IH].
  - split; exact I.
  - rewrite <- (app_nil_r q). eapply step_selected; eauto; [exact I | reflexivity].
  - destruct IH as [IH1 IH2]. eapply step_selected; eauto.
Qed.


Lemma keep_iff (b f f1 : Q) (P : Prop) :
  (f <= b)%Q -> ((b < f1)%Q /\ P <-> (b < f1)%Q /\ (f < f1)%Q /\ P).
Proof.
  intros Hle. split; [intros [Hb HP] | intros (Hb & _ & HP)]; repeat split; auto.
  eapply Qle_lt_trans; eauto.
Qed.

Lemma save_iff (b f f1 : Q) (P : Prop) :
  (b < f)%Q -> ((f < f1)%Q /\ P <-> (b < f1)%Q /\ (f < f1)%Q /\ P).
Proof.
  intros Hlt. split; [intros [Hf HP] | intros (_ & Hf & HP)]; repeat split; auto.
  eapply Qlt_trans; eauto.
Qed.

Lemma well_selected_eval_cons path b st f (e2 : Event) (t : list Event) :
  (forall p, e2 <> ETorchSave p) ->
  well_selected path b (EEvaluate Dev st f :: e2 :: t) ->
  gt f b = false /\ well_selected path b (e2 :: t).
Proof.
  intros Hne Hw. destruct e2; try exact Hw. destruct (Hne _ eq_refl).
Qed.

Lemma well_selected_eval path (n : nat) :
  forall (pre : list Event), (length pre <= n)%nat ->
  forall (b : Q) (step : Z) (f1 : Q) (post : list Event),
    well_selected path b (pre ++ EEvaluate Dev step f1 :: post) ->
    ((exists post', post = ETorchSave (path step) :: post')
     <-> (b < f1)%Q /\ Forall (fun x => (x < f1)%Q) (dev_scores pre)).
Proof.
  induction n as [|n IH]; intros pre Hlen b step f1 post Hw.
  - destruct pre; [|cbn in Hlen; lia]. cbn [app dev_scores] in *.
    destruct post as [|e post].
    + destruct Hw as [Hgt _]. apply gt_le in Hgt. split.
      * intros [post' [=]].
      * intros [Hlt _]. exfalso. eapply Qlt_not_le; eauto.
    + destruct e; cbn [well_selected] in Hw;
        try (destruct Hw as [Hgt _]; apply gt_le in Hgt; split;
             [intros [post' [=]] | intros [Hlt _]; exfalso; eapply Qlt_not_le; eauto]).
      destruct Hw as (Hgt & -> & _). apply gt_lt in Hgt. split; eauto.
  - destruct pre as [|e pre].
    + apply (IH [] ltac:(cbn; lia) b step f1 post Hw).
    + cbn [length] in Hlen.
      assert (Hquiet : is_quiet e = true ->
                       well_selected path b (pre ++ EEvaluate Dev step f1 :: post) /\
                       dev_scores (e :: pre) = dev_scores pre).
      { intros He. destruct e as [| | | | | | sp ? ? | | | | |];
          try discriminate; try (split; [exact Hw | reflexivity]).
        destruct sp; try discriminate; split; (exact Hw || reflexivity). }
      destruct e as [| | | | | | sp st f | | | | |];
        try (destruct (Hquiet eq_refl) as [Hw' ->];
             apply (IH pre ltac:(lia) b step f1 post Hw')).
      * destruct sp;
          try (destruct (Hquiet eq_refl) as [Hw' ->];
               apply (IH pre ltac:(lia) b step f1 post Hw')).
        clear Hquiet. cbn [dev_scores]. rewrite Forall_cons_iff.
        destruct pre as [|e2 pre].
        -- cbn [app well_selected] in Hw. destruct Hw as [Hgt Hw].
           apply gt_le in Hgt.
           rewrite (IH [] ltac:(cbn; lia) b step f1 post Hw).
           apply keep_iff. exact Hgt.
        -- cbn [length] in Hlen.
           cbn [app] in Hw.
           destruct e2;
             try (apply well_selected_eval_cons in Hw; [|intros ? [=]];
                  destruct Hw as [Hgt Hw]; apply gt_le in Hgt;
                  rewrite (IH (_ :: pre) ltac:(cbn; lia) b step f1 post Hw);
                  apply keep_iff; exact Hgt).
           cbn [well_selected] in Hw. destruct Hw as (Hgt & _ & Hw).
           rewrite (max2_gt _ _ Hgt) in Hw. apply gt_lt in Hgt.
           rewrite (IH pre ltac:(lia) f step f1 post Hw).
           cbn [dev_scores]. apply save_iff. exact Hgt.
      * destruct Hw.
Qed.

Lemma well_selected_save path (n : nat) :
  forall (pre : list Event), (length pre <= n)%nat ->
  forall (b : Q) (p : string) (post : list Event),
    well_selected path b (pre ++ ETorchSave p :: post) ->
    exists pre' step f1, pre = pre' ++ [EEvaluate Dev step f1] /\ p = path step.
Proof.
  induction n as [|n IH]; intros pre Hlen b p post Hw.
  - destruct pre; [|cbn in Hlen; lia]. destruct Hw.
  - destruct pre as [|e pre]; [destruct Hw|]. cbn [length] in Hlen.
    assert (Hrec : forall b', well_selected path b' (pre ++ ETorchSave p :: post) ->
                     exists pre' step f1,
                       e :: pre = pre' ++ [EEvaluate Dev step f1] /\ p = path step).
    { intros b' Hw'. destruct (IH pre ltac:(lia) b' p post Hw')
        as (pre' & step & f1 & -> & ->).
      exists (e :: pre'), step, f1. split; reflexivity. }
    destruct e as [| | | | | | sp st f | | | | |];
      try (apply (Hrec b); exact Hw).
    + destruct sp; try (apply (Hrec b); exact Hw).
      destruct pre as [|e2 pre].
      * cbn [app well_selected] in Hw. destruct Hw as (_ & -> & _).
        exists [], st, f. split; reflexivity.
      * cbn [app] in Hw.
        destruct e2;
          try (apply well_selected_eval_cons in Hw; [|intros ? [=]];
               destruct Hw as [_ Hw]; apply (Hrec b); exact Hw).
        cbn [well_selected] in Hw. destruct Hw as (_ & _ & Hw). cbn [length] in Hlen.
        destruct (IH pre ltac:(lia) _ p post Hw) as (pre' & step & f1 & -> & ->).
        exists (EEvaluate Dev st f :: ETorchSave path0 :: pre'), step, f1.
        split; reflexivity.
    + destruct Hw.
Qed.

(** [train] is its set-up, then the loop body over every mini-batch,
    then the post-loop phase, which stops at the concatenation of the
    run suffix with the integer step count. *)
Lemma train_run self wr continued start_epoch w0 :
  (exists w1 e,
     train_setup self wr continued w0 = (w1, Raise e) /\
     train self wr continued start_epoch w0 = (w1, Raise e) /\
     trace w1 = trace w0)
  \/
  (exists w1 nb o s o' s' f' p' q r,
     train_setup self wr continued w0 = (w1, Ok nb) /\
     w1 = {| self_optimizer := Some o; self_scheduler := Some s;
             files := files w0; pretrained := pretrained w0; trace := trace w0 |} /\
     (continued = false -> _step_count s = 1) /\
     RunOutcome self (mini_batches self nb start_epoch) (initial_locals wr)
                o s q o' s' r /\
     train self wr continued start_epoch w0
     = ({| self_optimizer := Some o'; self_scheduler := Some s';
           files := f'; pretrained := p'; trace := trace w0 ++ q |},
        match r with
        | Ok _ => Raise TypeError
        | Raise e => Raise e
        end)).
Proof.
  destruct (train_setup self wr continued w0) as [w1 [nb|e]] eqn:Hs.
  - right. pose proof (train_setup_cases _ _ _ _ _ _ Hs) as Hc. cbn in Hc.
    destruct Hc as (o & s & d & -> & _ & _ & Hfresh & _).
    destruct (for_batches_outcome self (mini_batches self nb start_epoch)
                (initial_locals wr) o s (files w0) (pretrained w0) (trace w0))
      as (o' & s' & f' & p' & q & r & E & Hr).
    eexists _, nb, o, s, o', s', f', p', q, r.
    split; [reflexivity|]. split; [reflexivity|]. split; [exact Hfresh|].
    split; [exact Hr|].
    unfold train. unfold bind at 1. rewrite Hs.
    unfold bind at 1. rewrite epoch_loop_flat, E.
    destruct r; reflexivity.
  - left. exists w1, e. split; [reflexivity|]. split.
    + unfold train, bind. rewrite Hs. reflexivity.
    + apply (train_setup_cases _ _ _ _ _ _ Hs).
Qed.

(** C1. In every run of [Runner.train], for every dev evaluation made
    in the epoch loop: the checkpoint of that step is written right
    after it if and only if its score is above zero and above the score
    of every earlier dev evaluation of the run; and no checkpoint is
    ever written except right after the evaluation of its step.  So a
    score of zero, or one that does not exceed the best so far, never
    triggers a write. *)
Theorem checkpoint_iff_new_best (self : Runner) (wr : Wrapper) (continued : bool)
    (start_epoch : Z) (w0 : World) :
  exists q : list Event,
    trace (fst (train self wr continued start_epoch w0)) = trace w0 ++ q /\
    (forall pre step f1 post,
       q = pre ++ EEvaluate Dev step f1 :: post ->
       ((exists post', post = ETorchSave (step_ckpt_path self step) :: post')
        <-> (0 < f1)%Q /\ Forall (fun x => (x < f1)%Q) (dev_scores pre))) /\
    (forall pre path post,
       q = pre ++ ETorchSave path :: post ->
       exists pre' step f1,
         pre = pre' ++ [EEvaluate Dev step f1] /\ path = step_ckpt_path self step).
Proof.
  destruct (train_run self wr continued start_epoch w0)
    as [(w1 & e & _ & -> & Ht)
       |(w1 & nb & o & s & o' & s' & f' & p' & q & r & _ & _ & _ & Hr & ->)].
  - exists []. cbn [fst]. rewrite app_nil_r. split; [exact Ht|].
    split; intros pre; intros; destruct pre; discriminate.
  - exists q. cbn [fst trace]. split; [reflexivity|].
    apply run_selected in Hr as [Hw _]. cbn [initial_locals max_f1] in Hw.
    split.
    + intros pre step f1 post ->.
      apply (well_selected_eval _ (length pre) pre (le_n _) _ _ _ _ Hw).
    + intros pre path post ->.
      apply (well_selected_save _ (length pre) pre (le_n _) _ _ _ Hw).
Qed.

Lemma evaluations_after_app (n : nat) (a b : list Event) :
  evaluations_after n (a ++ b)
  = evaluations_after n a ++ evaluations_after (n + count_optimizer_steps a) b.
Proof.
  revert n. induction a as [|e a IH]; intros n.
  - cbn. rewrite Nat.add_0_r. reflexivity.
  - destruct e; cbn [app evaluations_after]; rewrite IH;
      unfold count_optimizer_steps; cbn [List.filter is_optimizer_step length];
      rewrite ?Nat.add_succ_r; reflexivity.
Qed.

(** With [gradient_accumulation_steps = 1] every pass is an update; the
    evaluator is called in it exactly when the new step count is a
    multiple of the evaluation frequency. *)
Lemma step_evaluations self epo i l o s q o' s' l' (n : nat) :
  gradient_accumulation_steps (config self) = 1 ->
  StepOutcome self epo i l o s q o' s' (Ok l') ->
  count_optimizer_steps q = 1%nat /\
  _step_count s' = _step_count s + 1 /\
  evaluations_after n q
  = if Z.eqb ((_step_count s + 1) mod eval_frequency (config self)) 0
    then [S n] else [].
Proof.
  intros Hk Hs. inversion Hs; subst.
  - rewrite Hk, Z.mod_1_r in *. contradiction.
  - match goal with Hu : UpdateOutcome _ _ _ _ _ _ _ |- _ => inversion Hu; subst end.
    all: cbn [_step_count scheduler_step snd] in *.
    all: rewrite !count_optimizer_steps_app, !evaluations_after_app.
    all: split; [case_events; reflexivity|].
    all: split; [reflexivity|].
    all: match goal with
         | Hm : _ mod _ <> 0 |- _ => apply Z.eqb_neq in Hm; rewrite Hm
         | Hm : _ mod _ = 0 |- _ => apply Z.eqb_eq in Hm; rewrite Hm
         end.
    all: case_events; cbn; rewrite ?Nat.add_0_r, ?Nat.add_1_r; reflexivity.
Qed.

Lemma run_evaluations self bs l o s q o' s' l' (n : nat) :
  gradient_accumulation_steps (config self) = 1 ->
  RunOutcome self bs l o s q o' s' (Ok l') ->
  count_optimizer_steps q = length bs /\
  evaluations_after n q
  = map (fun j => (n + j)%nat)
        (List.filter
           (fun j => Z.eqb ((_step_count s + Z.of_nat j) mod eval_frequency (config self)) 0)
           (seq 1 (length bs))).
Proof.
  intros Hk Hr. remember (Ok l') as r eqn:Er. revert l' Er n.
  induction Hr as [l o s|b bs l o s q o1 s1 e Hs
                  |b bs l o s q1 o1 s1 l1 q2 o2 s2 r Hs Hr IH]; intros l' Er n.
  - split; reflexivity.
  - discriminate.
  - destruct (step_evaluations _ _ _ _ _ _ _ _ _ _ n Hk Hs) as (Hc & Hsc & Hev).
    destruct (IH l' Er (n + 1)%nat) as [IHc IHe].
    rewrite count_optimizer_steps_app, evaluations_after_app, Hc, Hev, IHc, IHe.
    split; [reflexivity|].
    cbn [length seq List.filter].
    rewrite <- (seq_shift (length bs) 1), Hsc.
    assert (Hshift :
      map (fun j => (n + 1 + j)%nat)
        (List.filter
           (fun j => Z.eqb ((_step_count s + 1 + Z.of_nat j) mod eval_frequency (config self)) 0)
           (seq 1 (length bs)))
      = map (fun j => (n + j)%nat)
          (List.filter
             (fun j => Z.eqb ((_step_count s + Z.of_nat j) mod eval_frequency (config self)) 0)
             (map S (seq 1 (length bs))))).
    { generalize (seq 1 (length bs)) as js. induction js as [|j js IHj]; [reflexivity|].
      cbn [map List.filter].
      replace (_step_count s + Z.of_nat (S j)) with (_step_count s + 1 + Z.of_nat j) by lia.
      destruct (Z.eqb ((_step_count s + 1 + Z.of_nat j) mod eval_frequency (config self)) 0);
        cbn [map]; rewrite IHj; [f_equal; lia | reflexivity]. }
    rewrite Hshift. change (Z.of_nat 1) with 1.
    destruct (Z.eqb _ 0); cbn [map app]; rewrite ?Nat.add_1_r; reflexivity.
Qed.

Lemma train_setup_fresh_ok self wr w0 d :
  data self = Some d ->
  gradient_accumulation_steps (config self) * batch_size (config self) <> 0 ->
  0 < batch_size (config self) ->
  lower (optimizer_name (config self)) = "adamw" ->
  exists w1,
    train_setup self wr false w0
    = (w1, Ok (Z.to_nat ((Z.of_nat (len_train d) + batch_size (config self) - 1)
                           / batch_size (config self)))).
Proof.
  intros Hd Hz Hb Hopt. destruct w0 as [wo ws wf wp wt].
  unfold train_setup, bind, lift, attr, py_floordiv. rewrite Hd.
  apply Z.eqb_neq in Hz. rewrite Hz. cbn [negb].
  rewrite (get_optimizer_adamw _ _ Hopt).
  unfold set_optimizer, set_scheduler, get_scheduler_attr, get_optimizer_attr.
  cbn [fst snd trace self_optimizer self_scheduler files pretrained].
  match goal with |- context [get_scheduler ?c ?o ?t] =>
    destruct (get_scheduler_ok c o t eq_refl) as (o' & s' & Hsch); rewrite Hsch end.
  cbn [fst snd trace self_optimizer self_scheduler files pretrained].
  unfold DataLoader_len. apply Z.leb_gt in Hb. rewrite Hb.
  eexists. reflexivity.
Qed.

(** C2 (as the code has it). Under [num_epochs = 1], [batch_size = 2],
    four training examples, [gradient_accumulation_steps = 1] and
    [eval_frequency = 2] (AdamW configured, report frequency not zero),
    a fresh [Runner.train] performs exactly 2 optimizer steps and
    exactly 1 call of the evaluator, and that call comes after the 1st
    optimizer step: the evaluation is keyed on the scheduler's step
    count, which a new scheduler starts at 1, so it reads 2 after the
    first update and 3 after the second. *)
Theorem scenario_two_steps_one_evaluation (self : Runner) (wr : Wrapper)
    (w0 : World) (d : DataProcessor) :
  num_epochs (config self) = 1 ->
  batch_size (config self) = 2 ->
  gradient_accumulation_steps (config self) = 1 ->
  eval_frequency (config self) = 2 ->
  report_frequency (config self) <> 0 ->
  lower (optimizer_name (config self)) = "adamw" ->
  data self = Some d ->
  len_train d = 4%nat ->
  exists q : list Event,
    trace (fst (train self wr false 0 w0)) = trace w0 ++ q /\
    count_optimizer_steps q = 2%nat /\
    optimizer_steps_before_evaluations q = [1%nat].
Proof.
  intros Hep Hbs Hk Hef Hrf Hopt Hd Hlen.
  destruct (train_setup_fresh_ok self wr w0 d Hd) as [w1 Hs]; auto;
    try (rewrite Hk, Hbs; lia); try (rewrite Hbs; lia).
  rewrite Hlen, Hbs in Hs. change (Z.to_nat ((Z.of_nat 4 + 2 - 1) / 2)) with 2%nat in Hs.
  destruct (train_run self wr false 0 w0)
    as [(w1' & e & Hs' & _)
       |(w1' & nb & o & s & o' & s' & f' & p' & q & r & Hs' & _ & Hfresh & Hr & ->)];
    rewrite Hs in Hs'; [discriminate|].
  injection Hs' as _ <-.
  assert (valid_frequencies (config self)) as Hv
    by (repeat split; auto; [rewrite Hk | rewrite Hef]; lia).
  destruct (run_valid_ok _ _ _ _ _ _ _ _ _ Hv Hr) as [l' ->].
  destruct (run_evaluations _ _ _ _ _ _ _ _ _ 0%nat Hk Hr) as [Hc He].
  unfold mini_batches, range in Hc, He. rewrite Hep in Hc, He.
  cbn [Z.sub Z.to_nat Pos.to_nat Pos.iter_op seq flat_map map length app Nat.add
       Z.opp Z.add Z.pos_sub] in Hc, He.
  exists q. cbn [fst trace]. split; [reflexivity|]. split; [exact Hc|].
  unfold optimizer_steps_before_evaluations. rewrite He, Hef, (Hfresh eq_refl).
  reflexivity.
Qed.

End ModelSelection.

Section Checkpoints.
Context `{Env}.

(** C5 (as the code has it). [load_model_checkpoint] looks for the
    checkpoint file [model_<suffix>.bin]: when it exists the model is
    loaded from the run's log directory, when it does not the suffix
    itself is taken as the name or path of a pretrained model.  Without
    [continue_training] the call succeeds exactly when that source holds
    a model, giving the wrapper that model and the epoch -1, and raises
    [OSError] when it holds none (in particular when the file is absent
    and the suffix names no model); it does not fail merely because the
    file is absent and the log directory is empty.  With
    [continue_training] an absent checkpoint file always ends in an
    exception. *)
Theorem load_model_checkpoint_sources (self : Runner) (wr : Wrapper)
    (suffix : string) (w0 : World) :
  let source := weights_source self suffix w0 in
  let w1 := add_event w0 (EFromPretrained source) in
  load_model_checkpoint self wr suffix false w0
  = match pretrained w0 !! source with
    | Some m => (w1, Ok (set_model wr m, -1))
    | None => (w1, Raise OSError)
    end /\
  match files w0 !! ckpt_path (config self) suffix with
  | Some _ => True
  | None => exists w2 e, load_model_checkpoint self wr suffix true w0 = (w2, Raise e)
  end.
Proof.
  cbv zeta. unfold weights_source, ckpt_path, add_event.
  unfold load_model_checkpoint, path_exists, from_pretrained, torch_load, bind, emit, ret.
  cbn [fst snd trace self_optimizer self_scheduler files pretrained].
  destruct (files w0 !! join (log_dir (config self)) ("model_" +:+ suffix +:+ ".bin"))
    as [c|] eqn:Hf.
  - rewrite bool_decide_eq_true_2 by eauto. cbn [negb].
    cbn [fst snd trace self_optimizer self_scheduler files pretrained].
    split; [|exact I].
    destruct (pretrained w0 !! log_dir (config self)); reflexivity.
  - rewrite bool_decide_eq_false_2 by (intros [? [=]]). cbn [negb].
    cbn [fst snd trace self_optimizer self_scheduler files pretrained].
    split.
    + destruct (pretrained w0 !! suffix); reflexivity.
    + destruct (pretrained w0 !! suffix);
        cbn [fst snd trace self_optimizer self_scheduler files pretrained];
        rewrite ?Hf; eexists _, _; reflexivity.
Qed.

(** C6 (as the code has it). For a configuration whose task, lower-cased,
    is none of [coref], [ner] and [ere], [Runner.__init__] raises
    nothing: it returns a runner whose [data], [collate_fn] and
    [wrapper_class_fn] were never assigned, everything else being set.
    The failure comes at the first use of those attributes:
    [initialize_model] and [train] raise [AttributeError] before doing
    anything. *)
Theorem unknown_task_runner (cfg : Config) (config_name now : string)
    (gpu sd : option Z) :
  lower (task cfg) <> "coref" ->
  lower (task cfg) <> "ner" ->
  lower (task cfg) <> "ere" ->
  exists self : Runner,
    Runner_init cfg config_name now gpu sd = Ok self /\
    config self = cfg /\ name self = config_name /\ name_suffix self = now /\
    data self = None /\ collate_fn self = None /\ wrapper_class_fn self = None /\
    (forall saved_suffix continue_training w,
        initialize_model self saved_suffix continue_training w
        = (w, Raise AttributeError)) /\
    (forall wr continued start_epoch w,
        train self wr continued start_epoch w = (w, Raise AttributeError)).
Proof.
  intros H1' H2' H3'. unfold Runner_init.
  apply String.eqb_neq in H1', H2', H3'. rewrite H1', H2', H3'.
  eexists. split; [reflexivity|]. cbn.
  repeat split; reflexivity.
Qed.




Lemma call_evaluate_eq (wr : Wrapper) (split : Split) (step : Z) (w : World) :
  call_evaluate wr split step w
  = (add_event w (EEvaluate split step
                    (fst (evaluate (weights (model wr)) split step))),
     Ok (evaluate (weights (model wr)) split step)).
Proof. reflexivity. Qed.



(** Whatever the run, [train] does not return normally: when the
    set-up and the epoch loop succeed, building the suffix of the best
    checkpoint adds an int to a str. *)
Lemma train_never_returns (self : Runner) (wr : Wrapper) (continued : bool)
    (start_epoch : Z) (w0 : World) :
  exists e, snd (train self wr continued start_epoch w0) = Raise e.
Proof.
  destruct (train_run self wr continued start_epoch w0)
    as [(w1 & e & _ & -> & _)
       |(w1 & nb & o & s & o' & s' & f' & p' & q & r & _ & _ & _ & _ & ->)].
  - exists e. reflexivity.
  - destruct r; eexists; reflexivity.
Qed.


Lemma str_append_assoc (a b c : string) : (a +:+ b) +:+ c = a +:+ (b +:+ c).
Proof.
  induction a as [|x a IH]; [reflexivity|].
  rewrite !append_cons, IH. reflexivity.
Qed.

Lemma step_ckpt_path_suffix (self : Runner) (step : Z) :
  ckpt_path (config self) (name_suffix self +:+ "_" +:+ str_of_int step)
  = step_ckpt_path self step.
Proof.
  unfold ckpt_path, step_ckpt_path. rewrite !str_append_assoc. reflexivity.
Qed.

Lemma assign_lrs_params (gs : list ParamGroup) (vs : list float) :
  map params (assign_lrs gs vs) = map params gs.
Proof.
  revert vs. induction gs as [|g gs IH]; intros [|v vs]; try reflexivity.
  cbn [assign_lrs map set_lr params]. rewrite IH. reflexivity.
Qed.

Lemma scheduler_step_params (o : Optimizer) (s : Scheduler) :
  map params (param_groups (fst (scheduler_step o s))) = map params (param_groups o).
Proof. unfold scheduler_step. cbn [fst param_groups]. apply assign_lrs_params. Qed.

Lemma get_scheduler_params cfg o total o' s' :
  get_scheduler cfg o total = Ok (o', s') ->
  map params (param_groups o') = map params (param_groups o).
Proof.
  unfold get_scheduler, LambdaLR. destruct (negb _); [discriminate|].
  intros Heq. injection Heq as Ho _. rewrite <- Ho. cbn [param_groups].
  rewrite assign_lrs_params, map_map. reflexivity.
Qed.

Lemma get_optimizer_manages cfg wr o :
  get_optimizer cfg wr = Ok o -> manages o cfg wr.
Proof.
  unfold get_optimizer. destruct (String.eqb _ _); [|discriminate].
  intros [= <-]. unfold manages, AdamW. cbn [param_groups].
  rewrite map_map. reflexivity.
Qed.

Lemma restore_groups_same (gs gs0 : list ParamGroup) :
  map params gs = map params gs0 ->
  restore_groups gs (map group_state gs0) = gs0.
Proof.
  revert gs0. induction gs as [|g gs IH]; intros [|g0 gs0] Hp; try discriminate.
  - reflexivity.
  - cbn [map] in Hp. injection Hp as Hg Hgs.
    cbn [map restore_groups]. rewrite (IH _ Hgs).
    destruct g0. unfold restore_group, group_state. cbn in *. rewrite Hg. reflexivity.
Qed.

Lemma load_state_dict_same (o_new o : Optimizer) :
  map params (param_groups o_new) = map params (param_groups o) ->
  optimizer_load_state_dict o_new (optimizer_state_dict_of o) = Ok o.
Proof.
  intros Hp. unfold optimizer_load_state_dict, optimizer_state_dict_of.
  cbn [sd_param_groups sd_state].
  assert (length (param_groups o_new) = length (param_groups o)) as Hlen
    by (rewrite <- (length_map params), Hp, length_map; reflexivity).
  rewrite length_map, Hlen, Nat.eqb_refl. cbn [negb].
  assert (forallb (fun p : ParamGroup * GroupState =>
                     Nat.eqb (length (params (fst p))) (g_nparams (snd p)))
                  (combine (param_groups o_new) (map group_state (param_groups o)))
          = true) as ->.
  { revert Hp. generalize (param_groups o) as gs0. generalize (param_groups o_new) as gs.
    induction gs as [|g gs IH]; intros [|g0 gs0] Hp; try discriminate; [reflexivity|].
    cbn [map] in Hp. injection Hp as Hg Hgs.
    cbn [map combine forallb fst snd group_state g_nparams].
    rewrite Hg, Nat.eqb_refl, (IH _ Hgs). reflexivity. }
  cbn [negb]. rewrite (restore_groups_same _ _ Hp). destruct o; reflexivity.
Qed.

(** The set-up of a fresh run leaves an optimizer that holds the
    wrapper's parameters, and the loop keeps it so: optimizer and
    scheduler steps change learning rates and state, not the groups. *)
Lemma after_report_wrapper cfg step l : wrapper (after_report cfg step l) = wrapper l.
Proof. unfold after_report. destruct (Z.eqb _ _); reflexivity. Qed.

Lemma step_manages self epo i l o s q o' s' l' :
  StepOutcome self epo i l o s q o' s' (Ok l') ->
  manages o (config self) (wrapper l) ->
  manages o' (config self) (wrapper l').
Proof.
  intros Hs Hm. inversion Hs; subst; [exact Hm|].
  assert (manages
            (fst (scheduler_step
                    (stepped_optimizer o (add_loss l (micro_loss self l epo i))) s))
            (config self) (wrapper l)) as Hm'.
  { unfold manages in *. rewrite scheduler_step_params. exact Hm. }
  match goal with Hu : UpdateOutcome _ _ _ _ _ _ _ |- _ => inversion Hu; subst end;
    unfold manages in *; cbn [select_best wrapper]; rewrite after_report_wrapper;
    exact Hm'.
Qed.

Lemma run_manages self bs l o s q o' s' l' :
  RunOutcome self bs l o s q o' s' (Ok l') ->
  manages o (config self) (wrapper l) ->
  manages o' (config self) (wrapper l').
Proof.
  intros Hr. remember (Ok l') as r eqn:Er. revert l' Er.
  induction Hr as [l o s|b bs l o s q o1 s1 e Hs
                  |b bs l o s q1 o1 s1 l1 q2 o2 s2 r Hs Hr IH]; intros l' Er Hm.
  - injection Er as <-. exact Hm.
  - discriminate.
  - apply (IH l' Er). eapply step_manages; eauto.
Qed.

(** C9. After [save_model_checkpoint] has saved optimizer [o] and
    scheduler [s] at some step and epoch, [load_model_checkpoint] on the
    suffix of that step (AdamW configured, data set up, the optimizer
    being the one that holds the saved wrapper's parameters) with
    [continue_training] succeeds, leaves [self.optimizer] equal to [o]
    and [self.scheduler] with the state dictionary of [s], and returns
    the saved epoch; without [continue_training] it leaves
    [self.optimizer] and [self.scheduler] as they were and returns -1.
    Both give the wrapper the model that was saved. *)
Theorem checkpoint_round_trip (self : Runner) (wr wr' : Wrapper) (o : Optimizer)
    (s : Scheduler) (step epoch : Z) (w0 : World) (d : DataProcessor) :
  lower (optimizer_name (config self)) = "adamw" ->
  data self = Some d ->
  gradient_accumulation_steps (config self) * batch_size (config self) <> 0 ->
  manages o (config self) wr ->
  let w1 := fst (save_model_checkpoint self wr o s step epoch w0) in
  let suffix := name_suffix self +:+ "_" +:+ str_of_int step in
  (exists w2 s2,
     load_model_checkpoint self wr' suffix true w1
     = (w2, Ok (set_model wr' (model wr), epoch)) /\
     self_optimizer w2 = Some o /\
     self_scheduler w2 = Some s2 /\
     scheduler_state_dict_of s2 = scheduler_state_dict_of s) /\
  (exists w2,
     load_model_checkpoint self wr' suffix false w1
     = (w2, Ok (set_model wr' (model wr), -1)) /\
     self_optimizer w2 = self_optimizer w0 /\
     self_scheduler w2 = self_scheduler w0).
Proof.
  intros Hopt Hd Hz Hman. cbv zeta.
  unfold save_model_checkpoint, torch_save, save_pretrained, write_file, bind, emit, ret.
  cbn [fst snd trace self_optimizer self_scheduler files pretrained].
  fold (step_ckpt_path self step). 
  unfold load_model_checkpoint.
  change (join (log_dir (config self))
            ("model_" +:+ (name_suffix self +:+ "_" +:+ str_of_int step) +:+ ".bin"))
    with (ckpt_path (config self) (name_suffix self +:+ "_" +:+ str_of_int step)).
  rewrite step_ckpt_path_suffix.
  unfold path_exists, from_pretrained, torch_load, bind, emit, ret.
  cbn [fst snd trace self_optimizer self_scheduler files pretrained].
  rewrite !lookup_insert_eq.
  rewrite bool_decide_eq_true_2 by eauto. cbn [negb].
  cbn [fst snd trace self_optimizer self_scheduler files pretrained].
  rewrite !lookup_insert_eq.
  split.
  - cbn [fst snd trace self_optimizer self_scheduler files pretrained].
    rewrite !lookup_insert_eq.
    pose proof (get_optimizer_adamw (config self) (set_model wr' (model wr)) Hopt) as Ho.
    unfold lift, set_optimizer, set_scheduler. rewrite Ho.
    cbn [fst snd trace self_optimizer self_scheduler files pretrained].
    unfold total_update_steps_of, attr, py_floordiv. rewrite Hd.
    apply Z.eqb_neq in Hz. rewrite Hz.
    match goal with |- context [get_scheduler ?c ?o ?t] =>
      destruct (get_scheduler_ok c o t eq_refl) as (o' & s' & Hsch); rewrite Hsch end.
    cbn [fst snd trace self_optimizer self_scheduler files pretrained
         optimizer_state_dict scheduler_state_dict current_epoch].
    rewrite load_state_dict_same.
    + cbn [fst snd trace self_optimizer self_scheduler files pretrained].
      eexists _, _. split; [reflexivity|]. split; [reflexivity|].
      split; [reflexivity|]. reflexivity.
    + rewrite (get_scheduler_params _ _ _ _ _ Hsch).
      rewrite (get_optimizer_manages _ _ _ Ho). symmetry. exact Hman.
  - eexists. split; [reflexivity|]. split; reflexivity.
Qed.

End Checkpoints.

(* ===================================================================== *)
(** * Further properties of the runner and of the evaluation script *)
(* ===================================================================== *)

Section ScheduleFacts.
Context `{Env}.

Lemma reports_after_app (n : nat) (a b : list Event) :
  reports_after n (a ++ b)
  = reports_after n a ++ reports_after (n + count_optimizer_steps a) b.
Proof.
  revert n. induction a as [|e a IH]; intros n.
  - cbn. rewrite Nat.add_0_r. reflexivity.
  - destruct e; cbn [app reports_after]; rewrite IH;
      unfold count_optimizer_steps; cbn [List.filter is_optimizer_step length];
      rewrite ?Nat.add_succ_r; reflexivity.
Qed.

Lemma count_clips_app (a b : list Event) :
  count_clips (a ++ b) = (count_clips a + count_clips b)%nat.
Proof. unfold count_clips. rewrite List.filter_app, length_app. reflexivity. Qed.

Lemma due_0 (s0 freq : Z) : due s0 freq 0 = [].
Proof. reflexivity. Qed.

Lemma due_S (s0 freq : Z) (n : nat) :
  due s0 freq (S n)
  = (if Z.eqb ((s0 + 1) mod freq) 0 then [1%nat] else [])
    ++ map S (due (s0 + 1) freq n).
Proof.
  unfold due. cbn [seq List.filter]. change (Z.of_nat 1) with 1.
  rewrite <- (seq_shift n 1).
  assert (Hshift :
    List.filter (fun j => Z.eqb ((s0 + Z.of_nat j) mod freq) 0) (map S (seq 1 n))
    = map S (List.filter (fun j => Z.eqb ((s0 + 1 + Z.of_nat j) mod freq) 0) (seq 1 n))).
  { generalize (seq 1 n) as js. induction js as [|j js IHj]; [reflexivity|].
    cbn [map List.filter].
    replace (s0 + Z.of_nat (S j)) with (s0 + 1 + Z.of_nat j) by lia.
    destruct (Z.eqb ((s0 + 1 + Z.of_nat j) mod freq) 0); cbn [map]; rewrite IHj; reflexivity. }
  rewrite Hshift. destruct (Z.eqb _ 0); reflexivity.
Qed.

(** One pass either accumulates (no update, nothing reported or
    evaluated) or updates once; the report and the evaluation are keyed
    on the scheduler's new step count. *)
Lemma step_schedule self epo i l o s q o' s' l' (n : nat) :
  StepOutcome self epo i l o s q o' s' (Ok l') ->
  (count_optimizer_steps q = 0%nat /\ s' = s /\ o' = o /\
   evaluations_after n q = [] /\ reports_after n q = [] /\ count_clips q = 0%nat)
  \/
  (count_optimizer_steps q = 1%nat /\
   _step_count s' = _step_count s + 1 /\
   evaluations_after n q
   = (if Z.eqb ((_step_count s + 1) mod eval_frequency (config self)) 0
      then [S n] else []) /\
   reports_after n q
   = (if Z.eqb ((_step_count s + 1) mod report_frequency (config self)) 0
      then [S n] else []) /\
   count_clips q = (if clipping (config self) then 2 else 0)%nat).
Proof.
  intros Hs. inversion Hs; subst.
  - left. repeat split; reflexivity.
  - right.
    match goal with Hu : UpdateOutcome _ _ _ _ _ _ _ |- _ => inversion Hu; subst end.
    all: cbn [_step_count scheduler_step snd] in *.
    all: rewrite !count_optimizer_steps_app, !evaluations_after_app, !reports_after_app,
           !count_clips_app.
    all: split; [case_events; reflexivity|].
    all: split; [reflexivity|].
    all: match goal with
         | Hm : _ mod eval_frequency _ <> 0 |- _ => apply Z.eqb_neq in Hm; rewrite Hm
         | Hm : _ mod eval_frequency _ = 0 |- _ => apply Z.eqb_eq in Hm; rewrite Hm
         end.
    all: unfold clipping.
    all: repeat split; case_events; cbn; rewrite ?Nat.add_0_r, ?Nat.add_1_r; reflexivity.
Qed.

Lemma run_schedule self bs l o s q o' s' l' (n : nat) :
  RunOutcome self bs l o s q o' s' (Ok l') ->
  evaluations_after n q
  = map (fun j => (n + j)%nat)
        (due (_step_count s) (eval_frequency (config self)) (count_optimizer_steps q)) /\
  reports_after n q
  = map (fun j => (n + j)%nat)
        (due (_step_count s) (report_frequency (config self)) (count_optimizer_steps q)) /\
  count_clips q
  = ((if clipping (config self) then 2 else 0) * count_optimizer_steps q)%nat /\
  _step_count s' = _step_count s + Z.of_nat (count_optimizer_steps q).
Proof.
  intros Hr. remember (Ok l') as r eqn:Er. revert l' Er n.
  induction Hr as [l o s|b bs l o s q o1 s1 e Hs
                  |b bs l o s q1 o1 s1 l1 q2 o2 s2 r Hs Hr IH]; intros l' Er n.
  - cbn. repeat split; try reflexivity; lia.
  - discriminate.
  - rewrite count_optimizer_steps_app, evaluations_after_app, reports_after_app,
      count_clips_app.
    destruct (step_schedule _ _ _ _ _ _ _ _ _ _ n Hs)
      as [(Hc & -> & -> & He & Hrp & Hcl)|(Hc & Hsc & He & Hrp & Hcl)];
      rewrite Hc, He, Hrp, Hcl.
    + destruct (IH l' Er (n + 0)%nat) as (IHe & IHr & IHc & IHs).
      rewrite IHe, IHr, IHc, IHs, Nat.add_0_r. cbn [app Nat.add].
      repeat split; reflexivity.
    + destruct (IH l' Er (n + 1)%nat) as (IHe & IHr & IHc & IHs).
      rewrite IHe, IHr, IHc, IHs, Hsc. cbn [Nat.add]. rewrite !due_S, !map_app, !map_map.
      assert (Hm : forall js, map (fun j => (n + 1 + j)%nat) js
                              = map (fun x => (n + S x)%nat) js)
        by (intros js; apply map_ext; intros; lia).
      rewrite !Hm.
      repeat split.
      * destruct (Z.eqb ((_step_count s + 1) mod eval_frequency (config self)) 0);
          cbn [map app]; rewrite ?Nat.add_1_r; reflexivity.
      * destruct (Z.eqb ((_step_count s + 1) mod report_frequency (config self)) 0);
          cbn [map app]; rewrite ?Nat.add_1_r; reflexivity.
      * destruct (clipping (config self)); lia.
      * lia.
Qed.

End ScheduleFacts.

Section ScheduleTheorems.
Context `{Env}.

Lemma step_clips self epo i l o s q o' s' r :
  StepOutcome self epo i l o s q o' s' r ->
  count_clips q
  = ((if clipping (config self) then 2 else 0) * count_optimizer_steps q)%nat.
Proof.
  intros Hs. inversion Hs; subst; try (cbn; lia).
  match goal with Hu : UpdateOutcome _ _ _ _ _ _ _ |- _ => inversion Hu; subst end.
  all: rewrite !count_optimizer_steps_app, !count_clips_app.
  all: unfold clipping; case_events; reflexivity.
Qed.

Lemma run_clips self bs l o s q o' s' r :
  RunOutcome self bs l o s q o' s' r ->
  count_clips q
  = ((if clipping (config self) then 2 else 0) * count_optimizer_steps q)%nat.
Proof.
  induction 1 as [l o s|b bs l o s q o1 s1 e Hs
                 |b bs l o s q1 o1 s1 l1 q2 o2 s2 r Hs Hr IH].
  - cbn. lia.
  - eapply step_clips; eauto.
  - rewrite count_clips_app, count_optimizer_steps_app, IH, (step_clips _ _ _ _ _ _ _ _ _ _ Hs).
    lia.
Qed.

(** X1. In every run of [train], finished or stopped by an exception,
    [clip_grad_norm_] is called exactly twice for each [optimizer.step()]
    when [max_grad_norm] is configured and truthy, and never when it is
    absent, [None] or [0.0]. *)
Theorem clipping_twice_per_update (self : Runner) (wr : Wrapper) (continued : bool)
    (start_epoch : Z) (w0 : World) :
  exists q : list Event,
    trace (fst (train self wr continued start_epoch w0)) = trace w0 ++ q /\
    count_clips q
    = ((if clipping (config self) then 2 else 0) * count_optimizer_steps q)%nat.
Proof.
  destruct (train_run self wr continued start_epoch w0)
    as [(w1 & e & _ & -> & Ht)
       |(w1 & nb & o & s & o' & s' & f' & p' & q & r & _ & _ & _ & Hr & ->)].
  - exists []. cbn [fst]. rewrite app_nil_r. split; [exact Ht|]. cbn. lia.
  - exists q. cbn [fst trace]. split; [reflexivity|]. eapply run_clips; eauto.
Qed.

Lemma map_add_0 (js : list nat) : map (fun j => (0 + j)%nat) js = js.
Proof. induction js as [|j js IH]; [reflexivity|]. cbn [map]. rewrite IH. reflexivity. Qed.

(** What [train] does once its set-up has succeeded and no modulus of
    the loop is zero: the loop runs to its end and the trace it leaves
    is that of the run. *)
Lemma train_valid_run self wr continued start_epoch w0 w1 nb :
  valid_frequencies (config self) ->
  train_setup self wr continued w0 = (w1, Ok nb) ->
  exists o s o' s' q l',
    w1 = {| self_optimizer := Some o; self_scheduler := Some s;
            files := files w0; pretrained := pretrained w0; trace := trace w0 |} /\
    (continued = false -> _step_count s = 1) /\
    RunOutcome self (mini_batches self nb start_epoch) (initial_locals wr)
               o s q o' s' (Ok l') /\
    trace (fst (train self wr continued start_epoch w0)) = trace w0 ++ q /\
    self_scheduler (fst (train self wr continued start_epoch w0)) = Some s' /\
    self_optimizer (fst (train self wr continued start_epoch w0)) = Some o' /\
    snd (train self wr continued start_epoch w0) = Raise TypeError.
Proof.
  intros Hv Hs.
  destruct (train_run self wr continued start_epoch w0)
    as [(w1' & e & Hs' & _)
       |(w1' & nb' & o & s & o' & s' & f' & p' & q & r & Hs' & Hw & Hfresh & Hr & ->)];
    rewrite Hs in Hs'; [discriminate|].
  injection Hs' as <- <-.
  destruct (run_valid_ok _ _ _ _ _ _ _ _ _ Hv Hr) as [l' ->].
  exists o, s, o', s', q, l'. repeat split; auto.
Qed.

(** X2. Once the set-up of [train] has succeeded (no modulus of the
    loop being zero), the dev evaluations of the run come exactly after
    those updates [j] (counted from 1) for which the scheduler's count
    at the start of the loop plus [j] is a multiple of [eval_frequency],
    whatever the accumulation factor.  The count starts at 1 in a fresh
    run. *)
Theorem evaluation_schedule (self : Runner) (wr : Wrapper) (continued : bool)
    (start_epoch : Z) (w0 w1 : World) (nb : nat) :
  valid_frequencies (config self) ->
  train_setup self wr continued w0 = (w1, Ok nb) ->
  exists (s1 : Scheduler) (q : list Event),
    self_scheduler w1 = Some s1 /\
    (continued = false -> _step_count s1 = 1) /\
    trace (fst (train self wr continued start_epoch w0)) = trace w0 ++ q /\
    optimizer_steps_before_evaluations q
    = due (_step_count s1) (eval_frequency (config self)) (count_optimizer_steps q).
Proof.
  intros Hv Hs.
  destruct (train_valid_run self wr continued start_epoch w0 w1 nb Hv Hs)
    as (o & s & o' & s' & q & l' & -> & Hfresh & Hr & Ht & _).
  exists s, q. repeat split; auto.
  unfold optimizer_steps_before_evaluations.
  destruct (run_schedule _ _ _ _ _ _ _ _ _ 0%nat Hr) as (He & _).
  rewrite He. apply map_add_0.
Qed.

(** X3. Under the same conditions the report lines of the run come
    exactly after those updates [j] (counted from 1) for which the
    scheduler's count at the start of the loop plus [j] is a multiple
    of [report_frequency], whatever the accumulation factor.  The count
    starts at 1 in a fresh run. *)
Theorem report_schedule (self : Runner) (wr : Wrapper) (continued : bool)
    (start_epoch : Z) (w0 w1 : World) (nb : nat) :
  valid_frequencies (config self) ->
  train_setup self wr continued w0 = (w1, Ok nb) ->
  exists (s1 : Scheduler) (q : list Event),
    self_scheduler w1 = Some s1 /\
    (continued = false -> _step_count s1 = 1) /\
    trace (fst (train self wr continued start_epoch w0)) = trace w0 ++ q /\
    optimizer_steps_before_reports q
    = due (_step_count s1) (report_frequency (config self)) (count_optimizer_steps q).
Proof.
  intros Hv Hs.
  destruct (train_valid_run self wr continued start_epoch w0 w1 nb Hv Hs)
    as (o & s & o' & s' & q & l' & -> & Hfresh & Hr & Ht & _).
  exists s, q. repeat split; auto.
  unfold optimizer_steps_before_reports.
  destruct (run_schedule _ _ _ _ _ _ _ _ _ 0%nat Hr) as (_ & Hp & _).
  rewrite Hp. apply map_add_0.
Qed.

End ScheduleTheorems.

Section LearningRates.
Context `{Env}.

Lemma assign_lrs_lr (gs : list ParamGroup) (vs : list float) :
  length vs = length gs -> map lr (assign_lrs gs vs) = vs.
Proof.
  revert vs. induction gs as [|g gs IH]; intros [|v vs] Hl; try discriminate; [reflexivity|].
  cbn [assign_lrs map set_lr lr]. rewrite IH; [reflexivity|]. cbn in Hl. lia.
Qed.

Lemma assign_lrs_weight_decay (gs : list ParamGroup) (vs : list float) :
  map weight_decay (assign_lrs gs vs) = map weight_decay gs.
Proof.
  revert vs. induction gs as [|g gs IH]; intros [|v vs]; try reflexivity.
  cbn [assign_lrs map set_lr weight_decay]. rewrite IH. reflexivity.
Qed.

(** A scheduler step moves the learning rates one epoch along the
    curves and nothing else. *)
Lemma scheduler_step_on_schedule cfg total (o : Optimizer) (s : Scheduler) (st : OptState) :
  on_schedule cfg total o s ->
  let os := scheduler_step {| param_groups := param_groups o; state := st |} s in
  on_schedule cfg total (fst os) (snd os) /\ last_epoch (snd os) = last_epoch s + 1.
Proof.
  intros (Hl & Hb & Hc & Hlr & Hwd). cbv zeta.
  assert (length (param_groups o) = 3%nat) as Hlen
    by (rewrite <- (length_map lr), Hlr; reflexivity).
  unfold scheduler_step, on_schedule.
  cbn [fst snd param_groups lr_lambdas base_lrs last_epoch _step_count].
  rewrite Hl, Hb. cbn [lambda_lrs].
  rewrite assign_lrs_lr by (rewrite Hlen; reflexivity).
  rewrite assign_lrs_weight_decay.
  repeat split; auto. lia.
Qed.

(** The optimizer and scheduler a fresh set-up builds start the curves
    at epoch 0. *)
Lemma get_scheduler_on_schedule cfg wr total o s :
  get_scheduler cfg (AdamW (grouped_param cfg wr) (plm_learning_rate cfg) (adam_eps cfg) true)
                total = Ok (o, s) ->
  on_schedule cfg total o s /\ last_epoch s = 0.
Proof.
  unfold get_scheduler, LambdaLR, AdamW, grouped_param.
  cbn [param_groups map length Nat.eqb negb fst snd].
  intros [= <- <-]. unfold on_schedule. repeat split.
Qed.

Lemma step_on_schedule self total epo i l o s q o' s' l' :
  StepOutcome self epo i l o s q o' s' (Ok l') ->
  on_schedule (config self) total o s ->
  on_schedule (config self) total o' s' /\
  last_epoch s' = last_epoch s + Z.of_nat (count_optimizer_steps q).
Proof.
  intros Hs Hon. inversion Hs; subst.
  - split; [exact Hon | cbn; lia].
  - destruct (scheduler_step_on_schedule _ _ o s
                (fst (adamw_update (state o)
                        (weights (model (wrapper (add_loss l (micro_loss self l epo i)))))))
                Hon) as [Hon' He].
    cbv zeta in Hon', He. split; [exact Hon'|].
    unfold stepped_optimizer. rewrite He.
    match goal with Hu : UpdateOutcome _ _ _ _ _ _ _ |- _ => inversion Hu; subst end.
    all: rewrite !count_optimizer_steps_app.
    all: case_events; reflexivity.
Qed.

Lemma run_on_schedule self total bs l o s q o' s' l' :
  RunOutcome self bs l o s q o' s' (Ok l') ->
  on_schedule (config self) total o s ->
  on_schedule (config self) total o' s' /\
  last_epoch s' = last_epoch s + Z.of_nat (count_optimizer_steps q).
Proof.
  intros Hr. remember (Ok l') as r eqn:Er. revert l' Er.
  induction Hr as [l o s|b bs l o s q o1 s1 e Hs
                  |b bs l o s q1 o1 s1 l1 q2 o2 s2 r Hs Hr IH]; intros l' Er Hon.
  - split; [exact Hon | cbn; lia].
  - discriminate.
  - destruct (step_on_schedule _ total _ _ _ _ _ _ _ _ _ Hs Hon) as [Hon1 He1].
    destruct (IH l' Er Hon1) as [Hon2 He2].
    split; [exact Hon2|]. rewrite He2, He1, count_optimizer_steps_app. lia.
Qed.

(** The set-up of a fresh run, when it succeeds. *)
Lemma train_setup_fresh_eq self wr w0 w1 nb :
  train_setup self wr false w0 = (w1, Ok nb) ->
  exists d o s,
    data self = Some d /\
    gradient_accumulation_steps (config self) * batch_size (config self) <> 0 /\
    lower (optimizer_name (config self)) = "adamw" /\
    0 < batch_size (config self) /\
    nb = batches_per_epoch (len_train d) (batch_size (config self)) /\
    get_scheduler (config self)
      (AdamW (grouped_param (config self) wr) (plm_learning_rate (config self))
             (adam_eps (config self)) true)
      (Z.of_nat (len_train d) * num_epochs (config self)
       / (gradient_accumulation_steps (config self) * batch_size (config self)))
    = Ok (o, s) /\
    w1 = {| self_optimizer := Some o; self_scheduler := Some s;
            files := files w0; pretrained := pretrained w0; trace := trace w0 |}.
Proof.
  destruct w0 as [wo ws wf wp wt].
  unfold train_setup, bind, lift, attr, py_floordiv.
  destruct (data self) as [d|]; [|discriminate].
  destruct (Z.eqb_spec (gradient_accumulation_steps (config self) * batch_size (config self)) 0)
    as [Hz|Hz]; [discriminate|].
  cbn [negb]. unfold get_optimizer.
  destruct (String.eqb_spec (lower (optimizer_name (config self))) "adamw") as [Ho|Ho];
    [|discriminate].
  unfold set_optimizer, set_scheduler, get_scheduler_attr, get_optimizer_attr.
  cbn [fst snd trace self_optimizer self_scheduler files pretrained].
  destruct (get_scheduler (config self) _ _) as [[o s]|e] eqn:Hsch;
    cbn [fst snd trace self_optimizer self_scheduler files pretrained]; [|discriminate].
  unfold DataLoader_len.
  destruct (Z.leb_spec (batch_size (config self)) 0) as [Hb|Hb]; [discriminate|].
  intros [= <- <-]. exists d, o, s. repeat split; auto.
Qed.

(** X4. After any number of completed passes of a fresh [train], the
    learning rates of the three groups are the configured base rates
    times the curves [get_scheduler] built, taken at the number of
    updates made so far (the two encoder groups share rate and curve,
    the task group has its own curve without warm-up); the weight
    decays stay [adam_weight_decay], 0.0 and 0.0; and the scheduler's
    step count is that number of updates plus one. *)
Theorem learning_rates_on_schedule (self : Runner) (wr : Wrapper) (start_epoch : Z)
    (n : nat) (w0 w' : World) (l' : Locals) (d : DataProcessor) :
  data self = Some d ->
  train_until self wr false start_epoch n w0 = (w', Ok l') ->
  let cfg := config self in
  let total := Z.of_nat (len_train d) * num_epochs cfg
               / (gradient_accumulation_steps cfg * batch_size cfg) in
  exists (o' : Optimizer) (s' : Scheduler) (q : list Event),
    self_optimizer w' = Some o' /\
    self_scheduler w' = Some s' /\
    trace w' = trace w0 ++ q /\
    map lr (param_groups o')
    = scheduled_lrs cfg total (Z.of_nat (count_optimizer_steps q)) /\
    map weight_decay (param_groups o') = [adam_weight_decay cfg; f_zero; f_zero] /\
    last_epoch s' = Z.of_nat (count_optimizer_steps q) /\
    _step_count s' = Z.of_nat (count_optimizer_steps q) + 1.
Proof.
  intros Hd Hrun. cbv zeta.
  destruct (train_setup self wr false w0) as [w1 [nb|e]] eqn:Hs.
  - destruct (train_setup_fresh_eq _ _ _ _ _ Hs)
      as (d' & o & s & Hd' & _ & _ & _ & _ & Hsch & Hw1).
    rewrite Hd in Hd'. injection Hd' as <-.
    destruct (train_until_run self wr false start_epoch n w0 w1 nb Hs)
      as (o0 & s0 & o' & s' & f' & p' & q & r & Hw1' & _ & E & Hr).
    rewrite Hw1 in Hw1'. injection Hw1' as <- <-.
    rewrite E in Hrun. injection Hrun as <- ->.
    destruct (get_scheduler_on_schedule _ _ _ _ _ Hsch) as [Hon Hzero].
    destruct (run_on_schedule _ _ _ _ _ _ _ _ _ _ Hr Hon) as [(Hl & Hb & Hc & Hlr & Hwd) He].
    rewrite Hzero in He. cbn [Z.add] in He.
    exists o', s', q. cbn [self_optimizer self_scheduler trace].
    repeat split; auto.
    + rewrite Hlr, He. reflexivity.
    + rewrite Hc, He. reflexivity.
  - rewrite (train_until_raise _ _ _ _ _ _ _ _ Hs) in Hrun. discriminate.
Qed.

End LearningRates.

Section DiskFacts.
Context `{Env}.

(** What an update does to the disk: nothing, or the checkpoint of the
    new step and the model in the log directory. *)
Lemma update_block_disk self epo l o s f p t w' r :
  update_block self epo l
    {| self_optimizer := Some o; self_scheduler := Some s; files := f; pretrained := p; trace := t |}
  = (w', r) ->
  let o2 := fst (scheduler_step (stepped_optimizer o l) s) in
  let s2 := snd (scheduler_step (stepped_optimizer o l) s) in
  let l2 := after_report (config self) (_step_count s2) (after_update l o) in
  let f1 := fst (evaluate (weights (model (wrapper l2))) Dev (_step_count s2)) in
  match r with
  | Raise _ => files w' = f /\ pretrained w' = p
  | Ok l' =>
      (files w' = f /\ pretrained w' = p /\ l' = l2) \/
      (files w' = <[step_ckpt_path self (_step_count s2)
                    := FCheckpoint (saved_checkpoint o2 s2 epo)]> f /\
       pretrained w' = <[log_dir (config self) := model (wrapper l2)]> p /\
       l' = select_best l2 f1 (_step_count s2) /\
       gt f1 (max_f1 l2) = true)
  end.
Proof.
  cbv zeta. unfold update_block.
  unfold bind at 1. rewrite clip_block_eq.
  unfold report_block, optimizer_step, sched_step, step_count, get_optimizer_attr,
    get_scheduler_attr, set_optimizer, set_scheduler, bind, emit, lift, ret, py_mod.
  cbn [fst snd trace self_optimizer self_scheduler files pretrained].
  fold (stepped_optimizer o l).
  destruct (Z.eqb (report_frequency (config self)) 0);
    cbn [fst snd trace self_optimizer self_scheduler files pretrained].
  { intros [= <- <-]. split; reflexivity. }
  unfold after_report.
  destruct (Z.eqb (_step_count (snd (scheduler_step (stepped_optimizer o l) s))
                     mod report_frequency (config self)) 0);
    cbn [fst snd trace self_optimizer self_scheduler files pretrained];
    (destruct (Z.eqb (eval_frequency (config self)) 0);
     cbn [fst snd trace self_optimizer self_scheduler files pretrained];
     [intros [= <- <-]; split; reflexivity|]);
    (destruct (Z.eqb (_step_count (snd (scheduler_step (stepped_optimizer o l) s))
                        mod eval_frequency (config self)) 0);
     cbn [fst snd trace self_optimizer self_scheduler files pretrained];
     [|intros [= <- <-]; left; repeat split; reflexivity]).
  all: rewrite evaluate_block_eq; cbv zeta.
  all: match goal with |- context [gt ?a ?b] => destruct (gt a b) eqn:Hgt end.
  all: intros [= <- <-]; cbn [files pretrained].
  all: try (right; repeat split; solve [reflexivity | exact Hgt]).
  all: left; repeat split; reflexivity.
Qed.

Lemma after_report_best cfg step l :
  best_ckpt_step_count (after_report cfg step l) = best_ckpt_step_count l.
Proof. unfold after_report. destruct (Z.eqb _ _); reflexivity. Qed.

Lemma train_step_disk self epo i l o s f p t w' r :
  train_step self epo i l
    {| self_optimizer := Some o; self_scheduler := Some s; files := f; pretrained := p; trace := t |}
  = (w', r) ->
  match r with
  | Raise _ => files w' = f /\ pretrained w' = p
  | Ok l' =>
      (files w' = f /\ pretrained w' = p /\
       max_f1 l' = max_f1 l /\ best_ckpt_step_count l' = best_ckpt_step_count l) \/
      (exists o' s',
         self_optimizer w' = Some o' /\ self_scheduler w' = Some s' /\
         files w' = <[step_ckpt_path self (_step_count s')
                      := FCheckpoint (saved_checkpoint o' s' epo)]> f /\
         pretrained w' = <[log_dir (config self) := model (wrapper l')]> p /\
         best_ckpt_step_count l' = _step_count s' /\
         max_f1 l' = fst (evaluate (weights (model (wrapper l'))) Dev (_step_count s')) /\
         gt (max_f1 l') (max_f1 l) = true)
  end.
Proof.
  unfold train_step.
  unfold bind at 1 2 3, emit, lift, py_mod.
  cbn [fst snd trace self_optimizer self_scheduler files pretrained loss_during_accum].
  destruct (Z.eqb (gradient_accumulation_steps (config self)) 0);
    cbn [fst snd trace self_optimizer self_scheduler files pretrained].
  { intros [= <- <-]. split; reflexivity. }
  fold (micro_loss self l epo i). fold (add_loss l (micro_loss self l epo i)).
  destruct (Z.eqb _ 0).
  - intros E. pose proof (update_block_disk _ _ _ _ _ _ _ _ _ _ E) as Hd. cbv zeta in Hd.
    destruct (update_block_outcome self epo (add_loss l (micro_loss self l epo i)) o s f p
                ((t ++ [EForward epo i (forward_loss (weights (model (wrapper l))) epo i)])
                   ++ [EBackward (micro_loss self l epo i)]))
      as (f' & p' & q & r' & E' & _).
    rewrite E in E'. injection E' as -> <-.
    cbn [files pretrained self_optimizer self_scheduler] in *.
    destruct r as [l'|e]; [|exact Hd].
    destruct Hd as [(Hf & Hp & ->)|(Hf & Hp & -> & Hgt)].
    + left. rewrite after_report_max_f1, after_report_best. repeat split; assumption.
    + right. eexists _, _. split; [reflexivity|]. split; [reflexivity|].
      rewrite after_report_max_f1 in Hgt.
      cbn [select_best wrapper best_ckpt_step_count max_f1].
      rewrite after_report_max_f1. cbn [after_update max_f1 add_loss] in *.
      rewrite (max2_gt _ _ Hgt).
      repeat split; assumption.
  - intros [= <- <-]. left. repeat split; reflexivity.
Qed.

(** The disk after a run of the loop body: only checkpoint files of
    this run and the model of the log directory can have changed, and
    the best step recorded names a checkpoint that is there. *)
Lemma for_batches_disk self bs l o s f p t w' r :
  for_batches self bs l
    {| self_optimizer := Some o; self_scheduler := Some s; files := f; pretrained := p; trace := t |}
  = (w', r) ->
  (forall path, ~ is_checkpoint_path self path -> files w' !! path = f !! path) /\
  (forall dir, dir <> log_dir (config self) -> pretrained w' !! dir = p !! dir) /\
  (forall l', r = Ok l' ->
     (files w' = f /\ pretrained w' = p /\
      max_f1 l' = max_f1 l /\ best_ckpt_step_count l' = best_ckpt_step_count l) \/
     (exists (c : Checkpoint) (m : Model),
        files w' !! step_ckpt_path self (best_ckpt_step_count l') = Some (FCheckpoint c) /\
        sd_step_count (scheduler_state_dict c) = best_ckpt_step_count l' /\
        pretrained w' !! log_dir (config self) = Some m /\
        fst (evaluate (weights m) Dev (best_ckpt_step_count l')) = max_f1 l' /\
        gt (max_f1 l') (max_f1 l) = true)).
Proof.
  revert l o s f p t w' r. induction bs as [|b bs IH]; intros l o s f p t w' r.
  - unfold for_batches. cbn [for_each]. unfold ret. intros [= <- <-].
    cbn [files pretrained]. repeat split; auto.
    intros l' [= <-]. left. repeat split; reflexivity.
  - unfold for_batches. cbn [for_each]. unfold bind.
    destruct (train_step_outcome self (fst b) (snd b) l o s f p t)
      as (o1 & s1 & f1 & p1 & q1 & r1 & E1 & _).
    pose proof (train_step_disk _ _ _ _ _ _ _ _ _ _ _ E1) as Hd.
    rewrite E1. cbn [files pretrained self_optimizer self_scheduler] in Hd.
    destruct r1 as [l1|e].
    + intros E2. fold (for_batches self bs l1) in E2.
      destruct (IH _ _ _ _ _ _ _ _ E2) as (IHf & IHp & IHb).
      assert (Hf1 : forall path, ~ is_checkpoint_path self path -> f1 !! path = f !! path).
      { intros path Hn. destruct Hd as [(-> & _)|(o' & s' & _ & _ & -> & _)]; [reflexivity|].
        apply lookup_insert_ne. intros <-. apply Hn. eexists. reflexivity. }
      assert (Hp1 : forall dir, dir <> log_dir (config self) -> p1 !! dir = p !! dir).
      { intros dir Hn. destruct Hd as [(_ & -> & _)|(o' & s' & _ & _ & _ & -> & _)];
          [reflexivity|].
        apply lookup_insert_ne. congruence. }
      split; [intros path Hn; rewrite IHf, Hf1; auto|].
      split; [intros dir Hn; rewrite IHp, Hp1; auto|].
      intros l' ->.
      destruct (IHb l' eq_refl) as [(Hf & Hp & Hm & Hb)|(c & m & Hc & Hsc & Hm & Hev & Hgt)].
      * destruct Hd as [(-> & -> & Hm1 & Hb1)
                       |(o' & s' & [= <-] & [= <-] & -> & -> & Hb1 & Hm1 & Hgt1)].
        -- left. repeat split; congruence.
        -- right. eexists _, _. rewrite Hf, Hp, Hb, Hb1, Hm.
           rewrite !lookup_insert_eq. split; [reflexivity|]. split; [reflexivity|].
           split; [reflexivity|]. split; [symmetry; exact Hm1 | exact Hgt1].
      * right. exists c, m. repeat split; auto.
        destruct Hd as [(_ & _ & Hm1 & _)|(o' & s' & _ & _ & _ & _ & _ & _ & Hgt1)].
        -- rewrite <- Hm1. exact Hgt.
        -- apply gt_lt in Hgt, Hgt1. apply gt_lt. eapply Qlt_trans; eauto.
    + intros [= <- <-]. cbn [files pretrained].
      destruct Hd as [-> ->]. repeat split; auto. intros l' [=].
Qed.

End DiskFacts.

Section DiskTheorems.
Context `{Env}.



(** X6. After any number of completed passes of [train]: either no
    checkpoint has been written (disk and log directory are as before,
    [max_f1] and [best_ckpt_step_count] are still 0), or the checkpoint
    file of step [best_ckpt_step_count] is on disk and holds a
    scheduler state with that step count, the log directory holds a
    model whose dev score at that step is [max_f1], and [max_f1] is
    positive. *)
Theorem best_checkpoint_on_disk (self : Runner) (wr : Wrapper) (continued : bool)
    (start_epoch : Z) (n : nat) (w0 w' : World) (l' : Locals) :
  train_until self wr continued start_epoch n w0 = (w', Ok l') ->
  (files w' = files w0 /\ pretrained w' = pretrained w0 /\
   max_f1 l' = 0%Q /\ best_ckpt_step_count l' = 0) \/
  (exists (c : Checkpoint) (m : Model),
     files w' !! step_ckpt_path self (best_ckpt_step_count l') = Some (FCheckpoint c) /\
     sd_step_count (scheduler_state_dict c) = best_ckpt_step_count l' /\
     pretrained w' !! log_dir (config self) = Some m /\
     fst (evaluate (weights m) Dev (best_ckpt_step_count l')) = max_f1 l' /\
     (0 < max_f1 l')%Q).
Proof.
  intros Hrun. destruct (train_setup self wr continued w0) as [w1 [nb|e]] eqn:Hs.
  - pose proof (train_setup_cases _ _ _ _ _ _ Hs) as Hc. cbn in Hc.
    destruct Hc as (o & s & d & -> & _).
    unfold train_until, bind in Hrun. rewrite Hs in Hrun.
    destruct (for_batches_disk _ _ _ _ _ _ _ _ _ _ Hrun) as (_ & _ & Hb).
    destruct (Hb l' eq_refl) as [(Hf & Hp & Hm & Hbest)|(c & m & Hc & Hsc & Hm & Hev & Hgt)].
    + left. repeat split; assumption.
    + right. exists c, m. repeat split; auto.
      apply gt_lt in Hgt. exact Hgt.
  - rewrite (train_until_raise _ _ _ _ _ _ _ _ Hs) in Hrun. discriminate.
Qed.

End DiskTheorems.

Section BestScore.
Context `{Env}.

Lemma dev_scores_app (a b : list Event) :
  dev_scores (a ++ b) = dev_scores a ++ dev_scores b.
Proof.
  induction a as [|e a IH]; [reflexivity|].
  destruct e as [| | | | | | sp ? ? | | | | |]; cbn [app dev_scores]; rewrite ?IH;
    try reflexivity.
  destruct sp; rewrite ?IH; reflexivity.
Qed.

Lemma dev_scores_quiet (a : list Event) :
  forallb is_quiet a = true -> dev_scores a = [].
Proof.
  induction a as [|e a IH]; [reflexivity|]. cbn [forallb]. intros Ha.
  apply andb_true_iff in Ha as [He Ha].
  destruct e as [| | | | | | sp ? ? | | | | |]; cbn [dev_scores]; auto.
  destruct sp; auto; discriminate.
Qed.

(** One pass leaves [max_f1] alone unless it evaluates a score above
    it, which then becomes [max_f1]. *)
Lemma step_best_score self epo i l o s q o' s' l' :
  StepOutcome self epo i l o s q o' s' (Ok l') ->
  (dev_scores q = [] /\ max_f1 l' = max_f1 l) \/
  (exists f1, dev_scores q = [f1] /\ gt f1 (max_f1 l) = false /\ max_f1 l' = max_f1 l) \/
  (exists f1, dev_scores q = [f1] /\ gt f1 (max_f1 l) = true /\ max_f1 l' = f1).
Proof.
  intros Hs. inversion Hs; subst.
  - left. split; reflexivity.
  - match goal with Hu : UpdateOutcome _ _ _ _ _ _ _ |- _ => inversion Hu; subst end.
    all: rewrite !dev_scores_app.
    all: rewrite (dev_scores_quiet (update_events _)) by apply quiet_update_events.
    all: rewrite (dev_scores_quiet (report_events _ _ _)) by apply quiet_report_events.
    all: repeat match goal with
                | Hx : context [max_f1 (after_report _ _ _)] |- _ =>
                    rewrite after_report_max_f1 in Hx
                end.
    all: cbn [forward_events dev_scores app select_best max_f1 after_update add_loss] in *.
    all: rewrite ?after_report_max_f1; cbn [after_update max_f1 add_loss].
    + left. split; reflexivity.
    + right. left. eexists. repeat split; eauto.
    + right. right. eexists. split; [reflexivity|]. split; [eassumption|].
      apply max2_gt. assumption.
Qed.

Lemma run_best_score self bs l o s q o' s' l' :
  RunOutcome self bs l o s q o' s' (Ok l') ->
  (max_f1 l' = max_f1 l \/ In (max_f1 l') (dev_scores q)) /\
  (max_f1 l <= max_f1 l')%Q /\
  Forall (fun x => (x <= max_f1 l')%Q) (dev_scores q).
Proof.
  intros Hr. remember (Ok l') as r eqn:Er. revert l' Er.
  induction Hr as [l o s|b bs l o s q o1 s1 e Hs
                  |b bs l o s q1 o1 s1 l1 q2 o2 s2 r Hs Hr IH]; intros l' Er.
  - injection Er as <-. split; [left; reflexivity|]. split; [apply Qle_refl | constructor].
  - discriminate.
  - destruct (IH l' Er) as (IHm & IHle & IHall).
    rewrite dev_scores_app.
    destruct (step_best_score _ _ _ _ _ _ _ _ _ _ Hs)
      as [(Hq & Hm)|[(f1 & Hq & Hgt & Hm)|(f1 & Hq & Hgt & Hm)]]; rewrite Hq.
    + rewrite Hm in *. cbn [app]. repeat split; assumption.
    + rewrite Hm in *. apply gt_le in Hgt. cbn [app]. split; [|split].
      * destruct IHm as [->|Hin]; [left; reflexivity | right; right; exact Hin].
      * exact IHle.
      * constructor; [|exact IHall]. eapply Qle_trans; eauto.
    + subst f1. apply gt_lt in Hgt. cbn [app]. split; [|split].
      * right. destruct IHm as [->|Hin]; [left; reflexivity | right; exact Hin].
      * eapply Qle_trans; [apply Qlt_le_weak; exact Hgt | exact IHle].
      * constructor; [exact IHle | exact IHall].
Qed.

(** X7. After any number of completed passes of [train], [max_f1] is
    the running maximum of 0 and the dev scores seen so far: it is 0 or
    one of those scores, it is not negative, and no dev score of the
    run exceeds it. *)
Theorem max_f1_is_running_maximum (self : Runner) (wr : Wrapper) (continued : bool)
    (start_epoch : Z) (n : nat) (w0 w' : World) (l' : Locals) :
  train_until self wr continued start_epoch n w0 = (w', Ok l') ->
  exists q : list Event,
    trace w' = trace w0 ++ q /\
    (max_f1 l' = 0%Q \/ In (max_f1 l') (dev_scores q)) /\
    (0 <= max_f1 l')%Q /\
    Forall (fun x => (x <= max_f1 l')%Q) (dev_scores q).
Proof.
  intros Hrun. destruct (train_setup self wr continued w0) as [w1 [nb|e]] eqn:Hs.
  - destruct (train_until_run self wr continued start_epoch n w0 w1 nb Hs)
      as (o & s & o' & s' & f' & p' & q & r & _ & _ & E & Hr).
    rewrite E in Hrun. injection Hrun as <- ->.
    exists q. split; [reflexivity|]. apply (run_best_score _ _ _ _ _ _ _ _ _ Hr).
  - rewrite (train_until_raise _ _ _ _ _ _ _ _ Hs) in Hrun. discriminate.
Qed.

End BestScore.

Section PathFacts.
Context `{Env}.

Lemma append_inv_head (a b c : string) : a +:+ b = a +:+ c -> b = c.
Proof.
  induction a as [|x a IH]; [auto|].
  rewrite !append_cons. intros [= E]. auto.
Qed.

Lemma length_append (a b : string) :
  String.length (a +:+ b) = (String.length a + String.length b)%nat.
Proof.
  induction a as [|x a IH]; [reflexivity|].
  rewrite append_cons. cbn [String.length]. rewrite IH. reflexivity.
Qed.

Lemma append_inv_tail (a b c : string) : a +:+ c = b +:+ c -> a = b.
Proof.
  revert b. induction a as [|x a IH]; intros [|y b] E.
  - reflexivity.
  - apply (f_equal String.length) in E. rewrite append_cons in E.
    cbn [String.length] in E. rewrite ?length_append in E. cbn [String.length] in E. lia.
  - apply (f_equal String.length) in E. rewrite append_cons in E.
    cbn [String.length] in E. rewrite ?length_append in E. cbn [String.length] in E. lia.
  - rewrite !append_cons in E. injection E as -> E. f_equal. auto.
Qed.

Lemma join_inv (a b c : string) : join a b = join a c -> b = c.
Proof.
  unfold join. destruct a as [|x a]; [auto|].
  destruct (ends_with_slash (String x a)); intros E.
  - apply append_inv_head in E. exact E.
  - apply append_inv_head in E. apply (append_inv_head "/") in E. exact E.
Qed.

(** Distinct steps have distinct checkpoint files. *)
Lemma step_ckpt_path_inj (self : Runner) (a b : Z) :
  step_ckpt_path self a = step_ckpt_path self b -> a = b.
Proof.
  unfold step_ckpt_path, str_of_int. intros E.
  apply join_inv in E. apply (append_inv_head "model_") in E.
  apply append_inv_head in E. apply (append_inv_head "_") in E.
  apply append_inv_tail in E. apply (inj pretty) in E. exact E.
Qed.

End PathFacts.

Section SavedCheckpoints.
Context `{Env}.

Lemma save_model_checkpoint_eq self wr o s step epoch w :
  save_model_checkpoint self wr o s step epoch w
  = ({| self_optimizer := self_optimizer w; self_scheduler := self_scheduler w;
        files := <[step_ckpt_path self step := FCheckpoint (saved_checkpoint o s epoch)]>
                   (files w);
        pretrained := <[log_dir (config self) := model wr]> (pretrained w);
        trace := trace w ++ [ETorchSave (step_ckpt_path self step);
                             ESavePretrained (log_dir (config self))] |}, Ok tt).
Proof.
  unfold save_model_checkpoint, torch_save, save_pretrained, write_file, bind, emit, ret.
  cbn [fst snd trace self_optimizer self_scheduler files pretrained].
  rewrite <- app_assoc. reflexivity.
Qed.

(** Resuming from a checkpoint file that is on disk: the model comes
    from the log directory as it is now, optimizer and scheduler state
    and the epoch from the file. *)
Lemma load_checkpoint_continue self wr' suffix w c m d o :
  files w !! ckpt_path (config self) suffix = Some (FCheckpoint c) ->
  pretrained w !! log_dir (config self) = Some m ->
  lower (optimizer_name (config self)) = "adamw" ->
  data self = Some d ->
  gradient_accumulation_steps (config self) * batch_size (config self) <> 0 ->
  optimizer_state_dict c = optimizer_state_dict_of o ->
  manages o (config self) (set_model wr' m) ->
  exists w2 s2,
    load_model_checkpoint self wr' suffix true w
    = (w2, Ok (set_model wr' m, current_epoch c)) /\
    self_optimizer w2 = Some o /\
    self_scheduler w2 = Some s2 /\
    scheduler_state_dict_of s2 = scheduler_state_dict c /\
    files w2 = files w /\ pretrained w2 = pretrained w /\
    trace w2 = trace w ++ [EFromPretrained (log_dir (config self));
                           ETorchLoad (ckpt_path (config self) suffix)].
Proof.
  intros Hf Hp Hopt Hd Hz Hsd Hman.
  unfold load_model_checkpoint.
  change (join (log_dir (config self)) ("model_" +:+ suffix +:+ ".bin"))
    with (ckpt_path (config self) suffix).
  unfold path_exists, from_pretrained, torch_load, bind, emit, ret.
  cbn [fst snd trace self_optimizer self_scheduler files pretrained].
  rewrite Hf. rewrite bool_decide_eq_true_2 by eauto. cbn [negb].
  cbn [fst snd trace self_optimizer self_scheduler files pretrained].
  rewrite Hp.
  cbn [fst snd trace self_optimizer self_scheduler files pretrained].
  rewrite Hf.
  pose proof (get_optimizer_adamw (config self) (set_model wr' m) Hopt) as Ho.
  unfold lift, set_optimizer, set_scheduler. rewrite Ho.
  cbn [fst snd trace self_optimizer self_scheduler files pretrained].
  unfold total_update_steps_of, attr, py_floordiv. rewrite Hd.
  apply Z.eqb_neq in Hz. rewrite Hz.
  match goal with |- context [get_scheduler ?c ?o ?t] =>
    destruct (get_scheduler_ok c o t eq_refl) as (o' & s' & Hsch); rewrite Hsch end.
  cbn [fst snd trace self_optimizer self_scheduler files pretrained].
  rewrite Hsd, load_state_dict_same.
  - cbn [fst snd trace self_optimizer self_scheduler files pretrained].
    eexists _, _. split; [reflexivity|].
    cbn [self_optimizer self_scheduler files pretrained trace].
    rewrite <- app_assoc. repeat split; try reflexivity.
    destruct (scheduler_state_dict c). reflexivity.
  - rewrite (get_scheduler_params _ _ _ _ _ Hsch).
    rewrite (get_optimizer_manages _ _ _ Ho). symmetry. exact Hman.
Qed.

(** X8. Checkpoint files accumulate, the log directory is overwritten:
    after two saves of one run at different steps, resuming from the
    suffix of the first step restores the optimizer, the scheduler
    state and the epoch saved at the first step, and gives the wrapper
    the model saved at the second. *)
Theorem earlier_checkpoint_loads_latest_model (self : Runner) (wr1 wr2 wr' : Wrapper)
    (o1 o2 : Optimizer) (s1 s2 : Scheduler) (step1 step2 epoch1 epoch2 : Z)
    (w0 : World) (d : DataProcessor) :
  lower (optimizer_name (config self)) = "adamw" ->
  data self = Some d ->
  gradient_accumulation_steps (config self) * batch_size (config self) <> 0 ->
  manages o1 (config self) wr2 ->
  step1 <> step2 ->
  let w1 := fst (save_model_checkpoint self wr1 o1 s1 step1 epoch1 w0) in
  let w2 := fst (save_model_checkpoint self wr2 o2 s2 step2 epoch2 w1) in
  let suffix := name_suffix self +:+ "_" +:+ str_of_int step1 in
  exists w3 s3,
    load_model_checkpoint self wr' suffix true w2
    = (w3, Ok (set_model wr' (model wr2), epoch1)) /\
    self_optimizer w3 = Some o1 /\
    self_scheduler w3 = Some s3 /\
    scheduler_state_dict_of s3 = scheduler_state_dict_of s1.
Proof.
  intros Hopt Hd Hz Hman Hne. cbv zeta. rewrite !save_model_checkpoint_eq. cbn [fst].
  destruct (load_checkpoint_continue self wr'
              (name_suffix self +:+ "_" +:+ str_of_int step1)
              {| self_optimizer := self_optimizer w0; self_scheduler := self_scheduler w0;
                 files := <[step_ckpt_path self step2
                            := FCheckpoint (saved_checkpoint o2 s2 epoch2)]>
                            (<[step_ckpt_path self step1
                               := FCheckpoint (saved_checkpoint o1 s1 epoch1)]> (files w0));
                 pretrained := <[log_dir (config self) := model wr2]>
                                 (<[log_dir (config self) := model wr1]> (pretrained w0));
                 trace := (trace w0 ++ [ETorchSave (step_ckpt_path self step1);
                                        ESavePretrained (log_dir (config self))])
                          ++ [ETorchSave (step_ckpt_path self step2);
                              ESavePretrained (log_dir (config self))] |}
              (saved_checkpoint o1 s1 epoch1) (model wr2) d o1)
    as (w3 & s3 & E & Ho & Hs & Hsd & _); auto.
  - cbn [files]. rewrite step_ckpt_path_suffix.
    rewrite lookup_insert_ne by (intros E; apply step_ckpt_path_inj in E; congruence).
    apply lookup_insert_eq.
  - cbn [pretrained]. apply lookup_insert_eq.
  - exists w3, s3. repeat split; assumption.
Qed.

Lemma train_setup_continued self wr w d o s :
  data self = Some d ->
  gradient_accumulation_steps (config self) * batch_size (config self) <> 0 ->
  0 < batch_size (config self) ->
  self_optimizer w = Some o ->
  self_scheduler w = Some s ->
  train_setup self wr true w
  = (w, Ok (batches_per_epoch (len_train d) (batch_size (config self)))).
Proof.
  intros Hd Hz Hb Ho Hs. unfold train_setup, bind, lift, attr, py_floordiv.
  rewrite Hd. apply Z.eqb_neq in Hz. rewrite Hz. cbn [negb].
  unfold ret, get_scheduler_attr, get_optimizer_attr. rewrite Hs, Ho.
  unfold DataLoader_len. apply Z.leb_gt in Hb. rewrite Hb. reflexivity.
Qed.

Lemma mini_batches_head self (nb : nat) (epoch : Z) :
  epoch < num_epochs (config self) ->
  (0 < nb)%nat ->
  hd_error (mini_batches self nb epoch) = Some (epoch, 0%nat).
Proof.
  intros He Hn. unfold mini_batches, range.
  destruct (Z.to_nat (num_epochs (config self) - epoch)) as [|m] eqn:Em; [lia|].
  destruct nb as [|nb']; [lia|].
  cbn [seq map flat_map app hd_error]. rewrite Z.add_0_r. reflexivity.
Qed.

(** X9. Saving a checkpoint, loading it with [continue_training] and
    calling [train] with [continued] and the epoch returned: the set-up
    of [train] succeeds without building a new optimizer or scheduler,
    the loop starts with the saved optimizer and with the scheduler's
    step count and epoch as saved, and the first mini-batch it
    processes is batch 0 of the saved epoch, which is thus run again
    from its start. *)
Theorem resume_from_checkpoint (self : Runner) (wr wr' : Wrapper) (o : Optimizer)
    (s : Scheduler) (step epoch : Z) (w0 : World) (d : DataProcessor) :
  lower (optimizer_name (config self)) = "adamw" ->
  data self = Some d ->
  gradient_accumulation_steps (config self) * batch_size (config self) <> 0 ->
  0 < batch_size (config self) ->
  manages o (config self) wr ->
  let w1 := fst (save_model_checkpoint self wr o s step epoch w0) in
  let suffix := name_suffix self +:+ "_" +:+ str_of_int step in
  let nb := batches_per_epoch (len_train d) (batch_size (config self)) in
  exists w2 wr2 s2,
    load_model_checkpoint self wr' suffix true w1 = (w2, Ok (wr2, epoch)) /\
    model wr2 = model wr /\
    train_setup self wr2 true w2 = (w2, Ok nb) /\
    self_optimizer w2 = Some o /\
    self_scheduler w2 = Some s2 /\
    _step_count s2 = _step_count s /\
    last_epoch s2 = last_epoch s /\
    (epoch < num_epochs (config self) -> (0 < nb)%nat ->
     hd_error (mini_batches self nb epoch) = Some (epoch, 0%nat)).
Proof.
  intros Hopt Hd Hz Hb Hman. cbv zeta. rewrite save_model_checkpoint_eq. cbn [fst].
  destruct (load_checkpoint_continue self wr'
              (name_suffix self +:+ "_" +:+ str_of_int step)
              {| self_optimizer := self_optimizer w0; self_scheduler := self_scheduler w0;
                 files := <[step_ckpt_path self step
                            := FCheckpoint (saved_checkpoint o s epoch)]> (files w0);
                 pretrained := <[log_dir (config self) := model wr]> (pretrained w0);
                 trace := trace w0 ++ [ETorchSave (step_ckpt_path self step);
                                       ESavePretrained (log_dir (config self))] |}
              (saved_checkpoint o s epoch) (model wr) d o)
    as (w2 & s2 & E & Ho & Hs & Hsd & _); auto.
  - cbn [files]. rewrite step_ckpt_path_suffix. apply lookup_insert_eq.
  - cbn [pretrained]. apply lookup_insert_eq.
  - exists w2, (set_model wr' (model wr)), s2.
    split; [exact E|]. split; [reflexivity|].
    split; [apply (train_setup_continued _ _ _ d o s2); assumption|].
    split; [exact Ho|]. split; [exact Hs|].
    cbn [saved_checkpoint scheduler_state_dict] in Hsd.
    split; [exact (f_equal sd_step_count Hsd)|].
    split; [exact (f_equal sd_last_epoch Hsd)|].
    apply mini_batches_head.
Qed.

End SavedCheckpoints.

Section SetUp.
Context `{Env}.



End SetUp.

Section UpdateCount.
Context `{Env}.

Lemma length_epoch_batches (nb : nat) (epochs : list Z) :
  length (flat_map (fun epo : Z => map (fun i : nat => (epo, i)) (seq 0 nb)) epochs)
  = (length epochs * nb)%nat.
Proof.
  induction epochs as [|e es IH]; [reflexivity|].
  cbn [flat_map length]. rewrite length_app, length_map, length_seq, IH. lia.
Qed.

(** The loop visits every mini-batch of every epoch from [start_epoch]
    to the last. *)
Lemma length_mini_batches self (nb : nat) (start_epoch : Z) :
  length (mini_batches self nb start_epoch)
  = (Z.to_nat (num_epochs (config self) - start_epoch) * nb)%nat.
Proof.
  unfold mini_batches, range.
  rewrite length_epoch_batches, length_map, length_seq. reflexivity.
Qed.

Lemma length_concat_windows {A : Type} (kn : nat) (ws : list (list A)) :
  Forall (fun w => length w = kn) ws -> length (concat ws) = (kn * length ws)%nat.
Proof.
  induction 1 as [|v vs Hv _ IH]; [cbn; lia|].
  rewrite concat_cons, length_app, Hv, IH. cbn [length]. lia.
Qed.

(** The number of whole batches that cover [n] examples. *)
Lemma batches_per_epoch_ceil (n : nat) (bsz : Z) :
  0 < bsz ->
  Z.of_nat n <= Z.of_nat (batches_per_epoch n bsz) * bsz /\
  ((bsz | Z.of_nat n) -> Z.of_nat (batches_per_epoch n bsz) * bsz = Z.of_nat n).
Proof.
  intros Hb. unfold batches_per_epoch.
  assert (0 <= (Z.of_nat n + bsz - 1) / bsz) as Hnn by (apply Z.div_pos; lia).
  rewrite Z2Nat.id by exact Hnn.
  pose proof (Z.div_mod (Z.of_nat n + bsz - 1) bsz ltac:(lia)) as Hdm.
  pose proof (Z.mod_pos_bound (Z.of_nat n + bsz - 1) bsz Hb) as Hr.
  split; [nia|].
  intros [c Hc].
  assert ((Z.of_nat n + bsz - 1) / bsz = c) as ->; [|lia].
  symmetry. apply (Z.div_unique_pos _ _ c (bsz - 1)); lia.
Qed.

(** X12. A fresh [train] whose set-up succeeds, with accumulation
    factor [k > 0] and non-zero report and evaluation frequencies,
    processes every mini-batch of the epochs from [start_epoch] on and
    makes [batches * epochs_run / k] optimizer steps (whole division),
    where [batches] is the number of mini-batches per epoch, the last
    one possibly short.  Started at epoch 0 this is never less than the
    [total_update_steps] the scheduler was built for, and equal to it
    when the batch size divides the number of training examples. *)
Theorem update_steps_of_a_run (self : Runner) (wr : Wrapper) (start_epoch : Z)
    (w0 w1 : World) (nb kn : nat) (d : DataProcessor) :
  gradient_accumulation_steps (config self) = Z.of_nat kn ->
  (0 < kn)%nat ->
  report_frequency (config self) <> 0 ->
  eval_frequency (config self) <> 0 ->
  data self = Some d ->
  train_setup self wr false w0 = (w1, Ok nb) ->
  let cfg := config self in
  let total := Z.of_nat (len_train d) * num_epochs cfg
               / (gradient_accumulation_steps cfg * batch_size cfg) in
  exists q : list Event,
    trace (fst (train self wr false start_epoch w0)) = trace w0 ++ q /\
    nb = batches_per_epoch (len_train d) (batch_size cfg) /\
    length (forward_losses q) = (Z.to_nat (num_epochs cfg - start_epoch) * nb)%nat /\
    count_optimizer_steps q
    = (Z.to_nat (num_epochs cfg - start_epoch) * nb / kn)%nat /\
    (start_epoch = 0 -> total <= Z.of_nat (count_optimizer_steps q)) /\
    (start_epoch = 0 -> 0 <= num_epochs cfg ->
     (batch_size cfg | Z.of_nat (len_train d)) ->
     Z.of_nat (count_optimizer_steps q) = total).
Proof.
  intros Hk Hkn Hrf Hef Hd Hs. cbv zeta.
  assert (valid_frequencies (config self)) as Hv
    by (repeat split; auto; rewrite Hk; lia).
  destruct (train_setup_fresh_eq _ _ _ _ _ Hs)
    as (d' & o0 & s0 & Hd' & _ & _ & Hb & Hnb & _).
  rewrite Hd in Hd'. injection Hd' as <-.
  destruct (train_valid_run self wr false start_epoch w0 w1 nb Hv Hs)
    as (o & s & o' & s' & q & l' & _ & _ & Hr & Ht & _).
  destruct (fun H1 H2 => run_windows self kn _ _ _ _ _ _ _ _ Hk H1 H2 Hr)
    as (ws & Hsplit & Hlen & Hrest & _ & _ & Hcount & Hbl & Hdiv);
    [lia | cbn; lia |].
  cbn [initial_locals loss_during_accum app] in Hsplit.
  rewrite length_mini_batches in Hbl.
  assert (count_optimizer_steps q
          = (Z.to_nat (num_epochs (config self) - start_epoch) * nb / kn)%nat) as Hc.
  { rewrite Hcount. rewrite Hsplit, length_app, (length_concat_windows kn ws Hlen) in Hbl.
    apply (Nat.div_unique _ kn _ (length (loss_during_accum l'))); lia. }
  exists q. split; [exact Ht|]. split; [exact Hnb|].
  split; [rewrite <- Hbl, Hdiv, length_map; reflexivity|].
  split; [exact Hc|].
  destruct (batches_per_epoch_ceil (len_train d) (batch_size (config self)) Hb)
    as [Hceil Hexact].
  rewrite <- Hnb in Hceil, Hexact.
  assert (0 < Z.of_nat kn) as Hkz by lia.
  split.
  - intros ->. rewrite Hc, Z.sub_0_r, Hk.
    rewrite Nat2Z.inj_div, Nat2Z.inj_mul.
    destruct (Z.le_gt_cases 0 (num_epochs (config self))) as [He|He].
    + rewrite Z2Nat.id by exact He.
      apply Z.div_le_lower_bound; [exact Hkz|].
      pose proof (Z.mul_div_le (Z.of_nat (len_train d) * num_epochs (config self))
                    (Z.of_nat kn * batch_size (config self)) ltac:(nia)) as Hle.
      nia.
    + rewrite Z2Nat.nonpos by lia. cbn [Z.of_nat Z.mul]. rewrite Z.div_0_l by lia.
      apply Z.div_le_upper_bound; nia.
  - intros -> He Hdvd. rewrite Hc, Z.sub_0_r, Hk.
    rewrite Nat2Z.inj_div, Nat2Z.inj_mul, Z2Nat.id by exact He.
    rewrite <- (Hexact Hdvd).
    replace (Z.of_nat nb * batch_size (config self) * num_epochs (config self))
      with (num_epochs (config self) * Z.of_nat nb * batch_size (config self)) by lia.
    rewrite Z.div_mul_cancel_r by lia. reflexivity.
Qed.

End UpdateCount.

Section EvaluationScript.
Context `{Env}.

(** X13. [evaluate_ner.evaluate] on a runner with wrapper class and
    data.  With a non-empty suffix it loads the model [m] from the
    source [load_model_checkpoint] chooses (the log directory when the
    checkpoint file of the suffix exists, else the suffix itself) and
    calls the evaluator exactly once, on the test split at step 0 with
    the weights of [m]; when the source holds no model it raises
    [OSError] before any evaluation.  With no suffix or an empty one
    it evaluates the wrapper as the wrapper class constructed it.  In
    every case the files, the saved models, [self.optimizer] and
    [self.scheduler] are left as they were: no checkpoint is read, no
    metrics file is written. *)
Theorem evaluate_ner_single_test_pass (runner : Runner) (cls : WrapperClass)
    (d : DataProcessor) (w0 : World) :
  wrapper_class_fn runner = Some cls ->
  data runner = Some d ->
  let built sfx := new_wrapper cls (config runner) (device runner) sfx in
  let f1 (ws : Weights) := fst (evaluate ws Test 0) in
  (forall c sfx,
     let suffix := String c sfx in
     let source := weights_source runner suffix w0 in
     evaluate_ner.evaluate runner (Some suffix) w0
     = match pretrained w0 !! source with
       | Some m =>
           ({| self_optimizer := self_optimizer w0; self_scheduler := self_scheduler w0;
               files := files w0; pretrained := pretrained w0;
               trace := trace w0 ++ [EFromPretrained source;
                                     EEvaluate Test 0 (f1 (weights m))] |}, Ok tt)
       | None => (add_event w0 (EFromPretrained source), Raise OSError)
       end) /\
  (forall sfx, sfx = None \/ sfx = Some "" ->
     evaluate_ner.evaluate runner sfx w0
     = (add_event w0 (EEvaluate Test 0 (f1 (weights (model (built sfx))))), Ok tt)).
Proof.
  intros Hcls Hd. cbv zeta. split.
  - intros c sfx.
    unfold evaluate_ner.evaluate, initialize_model. rewrite Hcls, Hd.
    unfold bind at 1. unfold bind at 2. unfold lift at 1, attr at 1.
    unfold weights_source, ckpt_path.
    unfold load_model_checkpoint, path_exists, from_pretrained, bind, emit, ret, lift, attr.
    cbn [fst snd trace self_optimizer self_scheduler files pretrained].
    destruct (files w0 !! join (log_dir (config runner)) ("model_" +:+ String c sfx +:+ ".bin"))
      as [fc|] eqn:Hf.
    + rewrite bool_decide_eq_true_2 by eauto. cbn [negb].
      cbn [fst snd trace self_optimizer self_scheduler files pretrained].
      destruct (pretrained w0 !! log_dir (config runner)); [|reflexivity].
      rewrite call_evaluate_eq. unfold add_event.
      cbn [fst snd trace self_optimizer self_scheduler files pretrained set_model model].
      rewrite <- app_assoc. reflexivity.
    + rewrite bool_decide_eq_false_2 by (intros [? [=]]). cbn [negb].
      cbn [fst snd trace self_optimizer self_scheduler files pretrained].
      destruct (pretrained w0 !! String c sfx); [|reflexivity].
      rewrite call_evaluate_eq. unfold add_event.
      cbn [fst snd trace self_optimizer self_scheduler files pretrained set_model model].
      rewrite <- app_assoc. reflexivity.
  - intros sfx [-> | ->];
      unfold evaluate_ner.evaluate, initialize_model; rewrite Hcls, Hd;
      unfold bind, lift, attr, ret; rewrite call_evaluate_eq; reflexivity.
Qed.

(** X14. For a configuration whose task is [coref], [ner] or [ere] in
    any letter case, [Runner.__init__] sets the data processor and the
    wrapper class of that task, and [initialize_model] without a saved
    suffix (or with an empty one) returns a wrapper of that class built
    for the configuration and the runner's device, with start epoch 0,
    loading nothing and leaving the runner's surroundings untouched. *)
Theorem recognised_task_initializes (cfg : Config) (config_name now : string)
    (gpu sd : option Z) (cls : WrapperClass) (d : DataProcessor) :
  (lower (task cfg) = "coref" /\ cls = CorefWrapper /\ d = CorefDataProcessor cfg) \/
  (lower (task cfg) = "ner" /\ cls = NERWrapper /\ d = NERDataProcessor cfg) \/
  (lower (task cfg) = "ere" /\ cls = EREWrapper /\ d = EREDataProcessor cfg) ->
  exists self : Runner,
    Runner_init cfg config_name now gpu sd = Ok self /\
    config self = cfg /\ device self = gpu /\
    wrapper_class_fn self = Some cls /\ data self = Some d /\
    (forall sfx continue_training w,
        sfx = None \/ sfx = Some "" ->
        initialize_model self sfx continue_training w
        = (w, Ok (new_wrapper cls cfg gpu sfx, 0))).
Proof.
  intros Htask. unfold Runner_init.
  destruct Htask as [(Ht & -> & ->)|[(Ht & -> & ->)|(Ht & -> & ->)]]; rewrite Ht;
    cbn [String.eqb Ascii.eqb Bool.eqb];
    (eexists; split; [reflexivity|]);
    cbn [config device wrapper_class_fn data];
    repeat split; intros sfx ct w [-> | ->]; reflexivity.
Qed.

End EvaluationScript.

Section UpdateOrder.
Context `{Env}.

Lemma steps_paired_app (pending : bool) (a b : list Event) :
  steps_paired pending a = true ->
  steps_paired pending (a ++ b) = steps_paired false b.
Proof.
  revert pending. induction a as [|e a IH]; intros pending Ha.
  - destruct pending; [discriminate | reflexivity].
  - destruct pending, e; cbn [steps_paired app] in *; try discriminate; auto.
Qed.

Lemma steps_paired_next (pending : bool) (pre post : list Event) :
  steps_paired pending (pre ++ EOptimizerStep :: post) = true ->
  exists post', post = ESchedulerStep :: post'.
Proof.
  revert pending. induction pre as [|e pre IH]; intros pending Hp.
  - destruct pending; cbn [app steps_paired] in Hp; [discriminate|].
    destruct post as [|e post]; [discriminate|].
    destruct e; try discriminate. eauto.
  - destruct pending, e; cbn [steps_paired app] in Hp; try discriminate; eauto.
Qed.

Lemma steps_paired_before (pending : bool) (pre post : list Event) :
  steps_paired pending (pre ++ ESchedulerStep :: post) = true ->
  pending = true /\ pre = [] \/ exists pre', pre = pre' ++ [EOptimizerStep].
Proof.
  revert pending. induction pre as [|e pre IH]; intros pending Hp.
  - destruct pending; cbn [app steps_paired] in Hp; [auto | discriminate].
  - right.
    assert (Hrec : forall p', steps_paired p' (pre ++ ESchedulerStep :: post) = true ->
                     p' = true /\ e = EOptimizerStep /\ pre = [] \/
                     exists pre', e :: pre = pre' ++ [EOptimizerStep]).
    { intros p' Hp'. destruct (IH p' Hp') as [[-> ->]|[pre' ->]].
      - destruct e; cbn [steps_paired app] in Hp; destruct pending; try discriminate;
          try (right; exists []; reflexivity);
          cbn [steps_paired app] in Hp'; auto.
        all: try (left; repeat split; reflexivity).
        all: right; exists []; reflexivity.
      - right. exists (e :: pre'). reflexivity. }
    destruct pending, e; cbn [steps_paired app] in Hp; try discriminate.
    all: match goal with
         | Hp : steps_paired ?p _ = true |- _ =>
             destruct (Hrec p Hp) as [(Hp1 & He & Hpre)|Hex];
               [try discriminate; subst; exists []; reflexivity | exact Hex]
         end.
Qed.

Lemma step_paired self epo i l o s q o' s' r :
  StepOutcome self epo i l o s q o' s' r -> steps_paired false q = true.
Proof.
  intros Hs. inversion Hs; subst; try reflexivity.
  match goal with Hu : UpdateOutcome _ _ _ _ _ _ _ |- _ => inversion Hu; subst end.
  all: case_events; reflexivity.
Qed.

Lemma run_paired self bs l o s q o' s' r :
  RunOutcome self bs l o s q o' s' r -> steps_paired false q = true.
Proof.
  induction 1 as [l o s|b bs l o s q o1 s1 e Hs
                 |b bs l o s q1 o1 s1 l1 q2 o2 s2 r Hs Hr IH].
  - reflexivity.
  - eapply step_paired; eauto.
  - rewrite (steps_paired_app false q1 q2); [exact IH | eapply step_paired; eauto].
Qed.

(** X15. In every run of [train], finished or stopped by an exception,
    each [optimizer.step()] is followed at once by [scheduler.step()],
    and [scheduler.step()] is called nowhere else. *)
Theorem optimizer_step_then_scheduler_step (self : Runner) (wr : Wrapper)
    (continued : bool) (start_epoch : Z) (w0 : World) :
  exists q : list Event,
    trace (fst (train self wr continued start_epoch w0)) = trace w0 ++ q /\
    (forall pre post, q = pre ++ EOptimizerStep :: post ->
       exists post', post = ESchedulerStep :: post') /\
    (forall pre post, q = pre ++ ESchedulerStep :: post ->
       exists pre', pre = pre' ++ [EOptimizerStep]).
Proof.
  destruct (train_run self wr continued start_epoch w0)
    as [(w1 & e & _ & -> & Ht)
       |(w1 & nb & o & s & o' & s' & f' & p' & q & r & _ & _ & _ & Hr & ->)].
  - exists []. cbn [fst]. rewrite app_nil_r. split; [exact Ht|].
    split; intros pre post Hq; destruct pre; discriminate.
  - exists q. cbn [fst trace]. split; [reflexivity|].
    apply run_paired in Hr. split; intros pre post ->.
    + eapply steps_paired_next; eauto.
    + destruct (steps_paired_before _ _ _ Hr) as [[[=] _]|Hex]. exact Hex.
Qed.

End UpdateOrder.

Section Weights.
Context `{Env}.






End Weights.

Section ZeroFrequency.
Context `{Env}.

Lemma step_zero_frequency_ok self epo i l o s q o' s' l' :
  report_frequency (config self) = 0 \/ eval_frequency (config self) = 0 ->
  StepOutcome self epo i l o s q o' s' (Ok l') ->
  q = forward_events self l epo i /\
  l' = add_loss l (micro_loss self l epo i) /\
  o' = o /\ s' = s /\
  Z.of_nat (length (loss_during_accum l ++ [micro_loss self l epo i]))
    mod gradient_accumulation_steps (config self) <> 0.
Proof.
  intros Hz Hs. inversion Hs; subst; [repeat split; auto|].
  match goal with Hu : UpdateOutcome _ _ _ _ _ _ _ |- _ => inversion Hu; subst end;
    destruct Hz; contradiction.
Qed.

(** With a zero report or evaluation frequency the loop stops at the
    end of its first accumulation window. *)
Lemma run_zero_frequency self (kn : nat) bs l o s q o' s' r :
  gradient_accumulation_steps (config self) = Z.of_nat kn ->
  (length (loss_during_accum l) < kn)%nat ->
  report_frequency (config self) = 0 \/ eval_frequency (config self) = 0 ->
  (kn <= length (loss_during_accum l) + length bs)%nat ->
  RunOutcome self bs l o s q o' s' r ->
  r = Raise ZeroDivisionError /\
  count_optimizer_steps q = 1%nat /\
  (length (loss_during_accum l) + length (forward_losses q))%nat = kn /\
  forallb is_quiet q = true.
Proof.
  intros Hk Hacc Hz Hlen Hr.
  induction Hr as [l o s|b bs l o s q o1 s1 e Hs
                  |b bs l o s q1 o1 s1 l1 q2 o2 s2 r Hs Hr IH].
  - cbn in Hlen. lia.
  - inversion Hs; subst.
    + lia.
    + match goal with Hm : _ mod _ = 0 |- _ =>
        rewrite Hk, length_app in Hm; cbn [length] in Hm;
        replace (length (loss_during_accum l) + 1)%nat
          with (S (length (loss_during_accum l))) in Hm by lia;
        apply full_window in Hm; [|lia|lia] end.
      match goal with Hu : UpdateOutcome _ _ _ _ _ _ _ |- _ => inversion Hu; subst end.
      all: rewrite !count_optimizer_steps_app, !forward_losses_app, !forallb_app.
      all: split; [reflexivity|].
      all: split; [case_events; reflexivity|].
      all: split; [case_events; cbn [forward_losses length app]; lia|].
      all: rewrite quiet_update_events, ?quiet_report_events; reflexivity.
  - destruct (step_zero_frequency_ok _ _ _ _ _ _ _ _ _ _ Hz Hs) as (-> & -> & -> & -> & Hm).
    rewrite Hk, length_app in Hm. cbn [length] in Hm.
    replace (length (loss_during_accum l) + 1)%nat
      with (S (length (loss_during_accum l))) in Hm by lia.
    assert (S (length (loss_during_accum l)) <> kn) as Hne
      by (intros E; apply Hm, full_window; auto; lia).
    cbn [add_loss loss_during_accum] in IH. rewrite length_app in IH. cbn [length] in *.
    destruct IH as (IHr & IHc & IHf & IHq); [lia | lia |].
    rewrite count_optimizer_steps_app, forward_losses_app, length_app, forallb_app, IHc, IHq.
    cbn [forward_events forward_losses length count_optimizer_steps List.filter
         is_optimizer_step forallb is_quiet andb Nat.add].
    repeat split; auto; lia.
Qed.

(** X17. With [report_frequency] or [eval_frequency] equal to 0, a
    [train] whose set-up succeeded and that has at least one full
    accumulation window of mini-batches ahead stops with
    [ZeroDivisionError] at the end of the first window: after exactly
    [gradient_accumulation_steps] forward passes and one optimizer
    step, without a dev evaluation or a checkpoint. *)
Theorem zero_frequency_stops_first_update (self : Runner) (wr : Wrapper)
    (continued : bool) (start_epoch : Z) (w0 w1 : World) (nb kn : nat) :
  gradient_accumulation_steps (config self) = Z.of_nat kn ->
  (0 < kn)%nat ->
  report_frequency (config self) = 0 \/ eval_frequency (config self) = 0 ->
  train_setup self wr continued w0 = (w1, Ok nb) ->
  (kn <= length (mini_batches self nb start_epoch))%nat ->
  exists q : list Event,
    trace (fst (train self wr continued start_epoch w0)) = trace w0 ++ q /\
    snd (train self wr continued start_epoch w0) = Raise ZeroDivisionError /\
    length (forward_losses q) = kn /\
    count_optimizer_steps q = 1%nat /\
    forallb is_quiet q = true.
Proof.
  intros Hk Hkn Hz Hs Hlen.
  destruct (train_run self wr continued start_epoch w0)
    as [(w1' & e & Hs' & _)
       |(w1' & nb' & o & s & o' & s' & f' & p' & q & r & Hs' & Hw & _ & Hr & Ht)];
    rewrite Hs in Hs'; [discriminate|].
  injection Hs' as <- <-.
  destruct (fun H1 H2 => run_zero_frequency self kn _ _ _ _ _ _ _ _ Hk H1 Hz H2 Hr)
    as (-> & Hc & Hf & Hq); [cbn; lia | cbn; lia |].
  cbn [initial_locals loss_during_accum length Nat.add] in Hf.
  exists q. rewrite Ht. cbn [fst snd trace]. repeat split; auto.
Qed.

End ZeroFrequency.

(* ===================================================================== *)
(** * The properties on the concrete setting *)
(* ===================================================================== *)

Module Examples.
Import Scenario.
#[local] Existing Instance q_float.
#[local] Existing Instance counters.
#[local] Existing Instance toy_env.

Lemma checkpoint_iff_new_best_witness :
  exists q : list Event,
    trace (fst (train runner wrapper false 0 world0)) = trace world0 ++ q /\
    (forall pre step f1 post,
       q = pre ++ EEvaluate Dev step f1 :: post ->
       ((exists post', post = ETorchSave (step_ckpt_path runner step) :: post')
        <-> (0 < f1)%Q /\ Forall (fun x => (x < f1)%Q) (dev_scores pre))) /\
    (forall pre path post,
       q = pre ++ ETorchSave path :: post ->
       exists pre' step f1,
         pre = pre' ++ [EEvaluate Dev step f1] /\ path = step_ckpt_path runner step).
Proof. exact (checkpoint_iff_new_best runner wrapper false 0 world0). Defined.

Lemma scenario_two_steps_one_evaluation_witness :
  (num_epochs (config runner) = 1 /\
   batch_size (config runner) = 2 /\
   gradient_accumulation_steps (config runner) = 1 /\
   eval_frequency (config runner) = 2 /\
   report_frequency (config runner) <> 0 /\
   lower (optimizer_name (config runner)) = "adamw" /\
   data runner = Some (NERDataProcessor cfg) /\
   len_train (NERDataProcessor cfg) = 4%nat) /\
  exists q : list Event,
    trace (fst (train runner wrapper false 0 world0)) = trace world0 ++ q /\
    count_optimizer_steps q = 2%nat /\
    optimizer_steps_before_evaluations q = [1%nat].
Proof.
  assert (report_frequency (config runner) <> 0) as Hrf by (vm_compute; discriminate).
  split; [repeat split; try reflexivity; exact Hrf|].
  apply (scenario_two_steps_one_evaluation runner wrapper world0 (NERDataProcessor cfg));
    try reflexivity. exact Hrf.
Defined.

(** C2, as stated, fails on the scenario: the one evaluation of the run
    does not come after the 2nd optimizer step. *)
Lemma scenario_evaluation_not_after_second_step :
  ~ (count_optimizer_steps (trace (fst (train runner wrapper false 0 world0))) = 2%nat /\
     optimizer_steps_before_evaluations (trace (fst (train runner wrapper false 0 world0)))
     = [2%nat]).
Proof. vm_compute. intros [_ Hev]. discriminate Hev. Qed.


Lemma accumulation_windows_witness :
  (gradient_accumulation_steps (config runner_accum) = Z.of_nat 2 /\
   (1 < 2)%nat /\
   report_frequency (config runner_accum) <> 0 /\
   eval_frequency (config runner_accum) <> 0 /\
   train_setup runner_accum wrapper false world0 = (setup_world runner_accum, Ok 4%nat) /\
   (4 <= length (mini_batches runner_accum 4 0))%nat) /\
  exists (s1 : Scheduler) (w' : World) (l' : Locals) (s' : Scheduler)
         (q : list Event) (ws : list (list float)),
    self_scheduler (setup_world runner_accum) = Some s1 /\
    train_until runner_accum wrapper false 0 4 world0 = (w', Ok l') /\
    trace w' = trace world0 ++ q /\
    length (forward_losses q) = 4%nat /\
    backward_losses q = map (fun raw => f_div_int raw (Z.of_nat 2)) (forward_losses q) /\
    backward_losses q = concat ws ++ loss_during_accum l' /\
    Forall (fun w => length w = 2%nat) ws /\
    (length (loss_during_accum l') < 2)%nat /\
    length ws = (4 / 2)%nat /\
    loss_history l' = map np_sum ws /\
    count_optimizer_steps q = length ws /\
    self_scheduler w' = Some s' /\
    _step_count s' = _step_count s1 + Z.of_nat (4 / 2).
Proof.
  assert (report_frequency (config runner_accum) <> 0) as Hrf by (vm_compute; discriminate).
  assert (eval_frequency (config runner_accum) <> 0) as Hef by (vm_compute; discriminate).
  assert (train_setup runner_accum wrapper false world0
          = (setup_world runner_accum, Ok 4%nat)) as Hs by (vm_compute; reflexivity).
  assert (4 <= length (mini_batches runner_accum 4 0))%nat as Hn by (vm_compute; lia).
  split; [repeat split; try reflexivity; try assumption; lia|].
  apply (accumulation_windows runner_accum wrapper false 0 4 world0
           (setup_world runner_accum) 4 2 eq_refl ltac:(lia) Hrf Hef Hs Hn).
Defined.

Lemma one_optimizer_step_per_batch_witness :
  (gradient_accumulation_steps (config runner) = 1 /\
   report_frequency (config runner) <> 0 /\
   eval_frequency (config runner) <> 0 /\
   train_setup runner wrapper false world0 = (setup_world runner, Ok 2%nat) /\
   (2 <= length (mini_batches runner 2 0))%nat) /\
  exists (s1 : Scheduler) (w' : World) (l' : Locals) (s' : Scheduler) (q : list Event),
    self_scheduler (setup_world runner) = Some s1 /\
    (false = false -> _step_count s1 = 1) /\
    train_until runner wrapper false 0 2 world0 = (w', Ok l') /\
    trace w' = trace world0 ++ q /\
    count_optimizer_steps q = 2%nat /\
    length (loss_history l') = 2%nat /\
    self_scheduler w' = Some s' /\
    _step_count s' = _step_count s1 + Z.of_nat 2.
Proof.
  assert (report_frequency (config runner) <> 0) as Hrf by (vm_compute; discriminate).
  assert (eval_frequency (config runner) <> 0) as Hef by (vm_compute; discriminate).
  assert (train_setup runner wrapper false world0
          = (setup_world runner, Ok 2%nat)) as Hs by (vm_compute; reflexivity).
  assert (2 <= length (mini_batches runner 2 0))%nat as Hn by (vm_compute; lia).
  split; [repeat split; try reflexivity; assumption|].
  apply (one_optimizer_step_per_batch runner wrapper false 0 2 world0
           (setup_world runner) 2 eq_refl Hrf Hef Hs Hn).
Defined.

(** C4, as stated, fails on the scenario: after the 2 mini-batches of
    the run the scheduler's step count is 3, not 2. *)
Lemma scenario_step_count_not_batches :
  option_map _step_count
    (self_scheduler (fst (train_until runner wrapper false 0 2 world0)))
  <> Some (Z.of_nat 2).
Proof. vm_compute. discriminate. Qed.

Lemma loss_history_counts_optimizer_steps_witness :
  train_until runner wrapper false 0 2 world0
  = (fst (train_until runner wrapper false 0 2 world0),
     Ok (locals_of (snd (train_until runner wrapper false 0 2 world0)))) /\
  exists q : list Event,
    trace (fst (train_until runner wrapper false 0 2 world0)) = trace world0 ++ q /\
    length (loss_history (locals_of (snd (train_until runner wrapper false 0 2 world0))))
    = count_optimizer_steps q.
Proof.
  assert (train_until runner wrapper false 0 2 world0
          = (fst (train_until runner wrapper false 0 2 world0),
             Ok (locals_of (snd (train_until runner wrapper false 0 2 world0))))) as Hrun
    by (vm_compute; reflexivity).
  split; [exact Hrun|].
  apply (loss_history_counts_optimizer_steps runner wrapper false 0 2 world0 _ _ Hrun).
Defined.

Lemma get_optimizer_three_groups_witness :
  lower (optimizer_name cfg) = "adamw" /\
  exists g_decay g_no_decay g_task : ParamGroup,
    get_optimizer cfg wrapper
      = Ok {| param_groups := [g_decay; g_no_decay; g_task];
              state := fresh_opt_state |} /\
    (forall n p, In (n, p) (plm_named (model wrapper)) ->
       (matches_no_decay n -> In p (params g_no_decay)) /\
       (~ matches_no_decay n -> In p (params g_decay))) /\
    (forall p, In p (params g_no_decay) ->
       exists n, In (n, p) (plm_named (model wrapper)) /\ matches_no_decay n) /\
    (forall p, In p (params g_decay) ->
       exists n, In (n, p) (plm_named (model wrapper)) /\ ~ matches_no_decay n) /\
    Permutation (params g_decay ++ params g_no_decay)
                (map snd (plm_named (model wrapper))) /\
    params g_task = map snd (task_named (model wrapper)) /\
    lr g_decay = plm_learning_rate cfg /\
    weight_decay g_decay = adam_weight_decay cfg /\
    lr g_no_decay = plm_learning_rate cfg /\
    weight_decay g_no_decay = f_zero /\
    lr g_task = task_learning_rate cfg /\
    weight_decay g_task = f_zero /\
    matches_no_decay "encoder.layer.0.bias" /\
    ~ matches_no_decay "encoder.layer.0.weight".
Proof.
  split; [reflexivity|].
  apply (get_optimizer_three_groups cfg wrapper eq_refl).
Defined.

Lemma load_model_checkpoint_sources_witness :
  let source := weights_source runner "t5-base" world_hub in
  let w1 := add_event world_hub (EFromPretrained source) in
  load_model_checkpoint runner wrapper "t5-base" false world_hub
  = match pretrained world_hub !! source with
    | Some m => (w1, Ok (set_model wrapper m, -1))
    | None => (w1, Raise OSError)
    end /\
  match files world_hub !! ckpt_path (config runner) "t5-base" with
  | Some _ => True
  | None => exists w2 e,
      load_model_checkpoint runner wrapper "t5-base" true world_hub = (w2, Raise e)
  end.
Proof. exact (load_model_checkpoint_sources runner wrapper "t5-base" world_hub). Defined.

(** C5, as stated, fails here: no checkpoint file for the suffix, no
    model in the log directory, and yet the load succeeds, because the
    suffix names a published model. *)
Lemma load_succeeds_without_checkpoint :
  files world_hub !! ckpt_path (config runner) "t5-base" = None /\
  pretrained world_hub !! log_dir (config runner) = None /\
  snd (load_model_checkpoint runner wrapper "t5-base" false world_hub)
  = Ok (set_model wrapper toy_model, -1).
Proof. vm_compute. repeat split; reflexivity. Qed.

Lemma unknown_task_runner_witness :
  (lower (task cfg_unknown) <> "coref" /\
   lower (task cfg_unknown) <> "ner" /\
   lower (task cfg_unknown) <> "ere") /\
  exists self : Runner,
    Runner_init cfg_unknown "pos" "Aug14_19-53-06" (Some 0) None = Ok self /\
    config self = cfg_unknown /\ name self = "pos" /\
    name_suffix self = "Aug14_19-53-06" /\
    data self = None /\ collate_fn self = None /\ wrapper_class_fn self = None /\
    (forall saved_suffix continue_training w,
        initialize_model self saved_suffix continue_training w
        = (w, Raise AttributeError)) /\
    (forall wr continued start_epoch w,
        train self wr continued start_epoch w = (w, Raise AttributeError)).
Proof.
  assert (lower (task cfg_unknown) <> "coref") as H1 by (vm_compute; discriminate).
  assert (lower (task cfg_unknown) <> "ner") as H2 by (vm_compute; discriminate).
  assert (lower (task cfg_unknown) <> "ere") as H3 by (vm_compute; discriminate).
  split; [repeat split; assumption|].
  apply (unknown_task_runner cfg_unknown "pos" "Aug14_19-53-06" (Some 0) None H1 H2 H3).
Defined.

(** C6, as stated, fails here: the task is not recognised and the
    constructor returns a runner, one without [data]. *)
Lemma unknown_task_is_not_refused :
  (lower (task cfg_unknown) <> "coref" /\
   lower (task cfg_unknown) <> "ner" /\
   lower (task cfg_unknown) <> "ere") /\
  exists self : Runner,
    Runner_init cfg_unknown "pos" "Aug14_19-53-06" (Some 0) None = Ok self /\
    data self = None.
Proof.
  split; [repeat split; vm_compute; discriminate|].
  eexists. split; reflexivity.
Qed.



(** The post-loop slip on the scenario: the run ends in [TypeError]
    with both checkpoints of the loop on disk and no metrics file. *)
Lemma scenario_train_raises_type_error :
  snd (train runner wrapper false 0 world0) = Raise TypeError.
Proof. vm_compute. reflexivity. Qed.

Lemma checkpoint_round_trip_witness :
  (lower (optimizer_name (config runner)) = "adamw" /\
   data runner = Some (NERDataProcessor cfg) /\
   gradient_accumulation_steps (config runner) * batch_size (config runner) <> 0 /\
   manages (optimizer_of trained) (config runner) wrapper) /\
  let w1 := fst (save_model_checkpoint runner wrapper (optimizer_of trained)
                   (scheduler_of trained) 3 0 world0) in
  let suffix := name_suffix runner +:+ "_" +:+ str_of_int 3 in
  (exists w2 s2,
     load_model_checkpoint runner wrapper suffix true w1
     = (w2, Ok (set_model wrapper (model wrapper), 0)) /\
     self_optimizer w2 = Some (optimizer_of trained) /\
     self_scheduler w2 = Some s2 /\
     scheduler_state_dict_of s2 = scheduler_state_dict_of (scheduler_of trained)) /\
  (exists w2,
     load_model_checkpoint runner wrapper suffix false w1
     = (w2, Ok (set_model wrapper (model wrapper), -1)) /\
     self_optimizer w2 = self_optimizer world0 /\
     self_scheduler w2 = self_scheduler world0).
Proof.
  assert (gradient_accumulation_steps (config runner) * batch_size (config runner) <> 0)
    as Hz by (vm_compute; discriminate).
  assert (manages (optimizer_of trained) (config runner) wrapper) as Hm
    by (vm_compute; reflexivity).
  split; [repeat split; try reflexivity; assumption|].
  apply (checkpoint_round_trip runner wrapper wrapper (optimizer_of trained)
           (scheduler_of trained) 3 0 world0 (NERDataProcessor cfg)
           eq_refl eq_refl Hz Hm).
Defined.

(* --------------------------------------------------------------------- *)
(** ** Further properties on the concrete setting *)

Lemma two_passes_ok :
  train_until runner wrapper false 0 2 world0
  = (fst two_passes, Ok (locals_of (snd two_passes))).
Proof. vm_compute. reflexivity. Qed.

Lemma clipping_twice_per_update_witness :
  exists q : list Event,
    trace (fst (train runner wrapper false 0 world0)) = trace world0 ++ q /\
    count_clips q
    = ((if clipping (config runner) then 2 else 0) * count_optimizer_steps q)%nat.
Proof. exact (clipping_twice_per_update runner wrapper false 0 world0). Defined.

Lemma evaluation_schedule_witness :
  (valid_frequencies (config runner) /\
   train_setup runner wrapper false world0 = (setup_world runner, Ok 2%nat)) /\
  exists (s1 : Scheduler) (q : list Event),
    self_scheduler (setup_world runner) = Some s1 /\
    (false = false -> _step_count s1 = 1) /\
    trace (fst (train runner wrapper false 0 world0)) = trace world0 ++ q /\
    optimizer_steps_before_evaluations q
    = due (_step_count s1) (eval_frequency (config runner)) (count_optimizer_steps q).
Proof.
  assert (valid_frequencies (config runner)) as Hv
    by (repeat split; vm_compute; discriminate).
  assert (train_setup runner wrapper false world0
          = (setup_world runner, Ok 2%nat)) as Hs by (vm_compute; reflexivity).
  split; [split; assumption|].
  apply (evaluation_schedule runner wrapper false 0 world0 (setup_world runner) 2 Hv Hs).
Defined.

Lemma report_schedule_witness :
  (valid_frequencies (config runner_accum) /\
   train_setup runner_accum wrapper false world0 = (setup_world runner_accum, Ok 4%nat)) /\
  exists (s1 : Scheduler) (q : list Event),
    self_scheduler (setup_world runner_accum) = Some s1 /\
    (false = false -> _step_count s1 = 1) /\
    trace (fst (train runner_accum wrapper false 0 world0)) = trace world0 ++ q /\
    optimizer_steps_before_reports q
    = due (_step_count s1) (report_frequency (config runner_accum))
          (count_optimizer_steps q).
Proof.
  assert (valid_frequencies (config runner_accum)) as Hv
    by (repeat split; vm_compute; discriminate).
  assert (train_setup runner_accum wrapper false world0
          = (setup_world runner_accum, Ok 4%nat)) as Hs by (vm_compute; reflexivity).
  split; [split; assumption|].
  apply (report_schedule runner_accum wrapper false 0 world0 (setup_world runner_accum) 4
           Hv Hs).
Defined.

Lemma learning_rates_on_schedule_witness :
  (data runner = Some (NERDataProcessor cfg) /\
   train_until runner wrapper false 0 2 world0
   = (fst two_passes, Ok (locals_of (snd two_passes)))) /\
  let c := config runner in
  let total := Z.of_nat (len_train (NERDataProcessor cfg)) * num_epochs c
               / (gradient_accumulation_steps c * batch_size c) in
  exists (o' : Optimizer) (s' : Scheduler) (q : list Event),
    self_optimizer (fst two_passes) = Some o' /\
    self_scheduler (fst two_passes) = Some s' /\
    trace (fst two_passes) = trace world0 ++ q /\
    map lr (param_groups o')
    = scheduled_lrs c total (Z.of_nat (count_optimizer_steps q)) /\
    map weight_decay (param_groups o') = [adam_weight_decay c; f_zero; f_zero] /\
    last_epoch s' = Z.of_nat (count_optimizer_steps q) /\
    _step_count s' = Z.of_nat (count_optimizer_steps q) + 1.
Proof.
  split; [split; [reflexivity | exact two_passes_ok]|].
  apply (learning_rates_on_schedule runner wrapper 0 2 world0 _ _ (NERDataProcessor cfg)
           eq_refl two_passes_ok).
Defined.


Lemma best_checkpoint_on_disk_witness :
  train_until runner wrapper false 0 2 world0
  = (fst two_passes, Ok (locals_of (snd two_passes))) /\
  ((files (fst two_passes) = files world0 /\
    pretrained (fst two_passes) = pretrained world0 /\
    max_f1 (locals_of (snd two_passes)) = 0%Q /\
    best_ckpt_step_count (locals_of (snd two_passes)) = 0) \/
   (exists (c : Checkpoint) (m : Model),
      files (fst two_passes)
        !! step_ckpt_path runner (best_ckpt_step_count (locals_of (snd two_passes)))
      = Some (FCheckpoint c) /\
      sd_step_count (scheduler_state_dict c)
      = best_ckpt_step_count (locals_of (snd two_passes)) /\
      pretrained (fst two_passes) !! log_dir (config runner) = Some m /\
      fst (evaluate (weights m) Dev (best_ckpt_step_count (locals_of (snd two_passes))))
      = max_f1 (locals_of (snd two_passes)) /\
      (0 < max_f1 (locals_of (snd two_passes)))%Q)).
Proof.
  split; [exact two_passes_ok|].
  apply (best_checkpoint_on_disk runner wrapper false 0 2 world0 _ _ two_passes_ok).
Defined.

Lemma max_f1_is_running_maximum_witness :
  train_until runner wrapper false 0 2 world0
  = (fst two_passes, Ok (locals_of (snd two_passes))) /\
  exists q : list Event,
    trace (fst two_passes) = trace world0 ++ q /\
    (max_f1 (locals_of (snd two_passes)) = 0%Q \/
     In (max_f1 (locals_of (snd two_passes))) (dev_scores q)) /\
    (0 <= max_f1 (locals_of (snd two_passes)))%Q /\
    Forall (fun x => (x <= max_f1 (locals_of (snd two_passes)))%Q) (dev_scores q).
Proof.
  split; [exact two_passes_ok|].
  apply (max_f1_is_running_maximum runner wrapper false 0 2 world0 _ _ two_passes_ok).
Defined.

Lemma earlier_checkpoint_loads_latest_model_witness :
  (lower (optimizer_name (config runner)) = "adamw" /\
   data runner = Some (NERDataProcessor cfg) /\
   gradient_accumulation_steps (config runner) * batch_size (config runner) <> 0 /\
   manages (optimizer_of trained) (config runner) (set_weights wrapper 2%nat) /\
   2 <> 3) /\
  let w1 := fst (save_model_checkpoint runner (set_weights wrapper 1%nat)
                   (optimizer_of trained) (scheduler_of trained) 2 0 world0) in
  let w2 := fst (save_model_checkpoint runner (set_weights wrapper 2%nat)
                   (optimizer_of trained) (scheduler_of trained) 3 0 w1) in
  let suffix := name_suffix runner +:+ "_" +:+ str_of_int 2 in
  exists w3 s3,
    load_model_checkpoint runner wrapper suffix true w2
    = (w3, Ok (set_model wrapper (model (set_weights wrapper 2%nat)), 0)) /\
    self_optimizer w3 = Some (optimizer_of trained) /\
    self_scheduler w3 = Some s3 /\
    scheduler_state_dict_of s3 = scheduler_state_dict_of (scheduler_of trained).
Proof.
  assert (gradient_accumulation_steps (config runner) * batch_size (config runner) <> 0)
    as Hz by (vm_compute; discriminate).
  assert (manages (optimizer_of trained) (config runner) (set_weights wrapper 2%nat)) as Hm
    by (vm_compute; reflexivity).
  assert (2 <> 3) as Hne by lia.
  split; [repeat split; try reflexivity; assumption|].
  apply (earlier_checkpoint_loads_latest_model runner (set_weights wrapper 1%nat)
           (set_weights wrapper 2%nat) wrapper (optimizer_of trained) (optimizer_of trained)
           (scheduler_of trained) (scheduler_of trained) 2 3 0 0 world0
           (NERDataProcessor cfg) eq_refl eq_refl Hz Hm Hne).
Defined.

Lemma resume_from_checkpoint_witness :
  (lower (optimizer_name (config runner)) = "adamw" /\
   data runner = Some (NERDataProcessor cfg) /\
   gradient_accumulation_steps (config runner) * batch_size (config runner) <> 0 /\
   0 < batch_size (config runner) /\
   manages (optimizer_of trained) (config runner) wrapper) /\
  let w1 := fst (save_model_checkpoint runner wrapper (optimizer_of trained)
                   (scheduler_of trained) 3 0 world0) in
  let suffix := name_suffix runner +:+ "_" +:+ str_of_int 3 in
  let nb := batches_per_epoch (len_train (NERDataProcessor cfg))
                              (batch_size (config runner)) in
  exists w2 wr2 s2,
    load_model_checkpoint runner wrapper suffix true w1 = (w2, Ok (wr2, 0)) /\
    model wr2 = model wrapper /\
    train_setup runner wr2 true w2 = (w2, Ok nb) /\
    self_optimizer w2 = Some (optimizer_of trained) /\
    self_scheduler w2 = Some s2 /\
    _step_count s2 = _step_count (scheduler_of trained) /\
    last_epoch s2 = last_epoch (scheduler_of trained) /\
    (0 < num_epochs (config runner) -> (0 < nb)%nat ->
     hd_error (mini_batches runner nb 0) = Some (0, 0%nat)).
Proof.
  assert (gradient_accumulation_steps (config runner) * batch_size (config runner) <> 0)
    as Hz by (vm_compute; discriminate).
  assert (0 < batch_size (config runner)) as Hb by (vm_compute; reflexivity).
  assert (manages (optimizer_of trained) (config runner) wrapper) as Hm
    by (vm_compute; reflexivity).
  split; [repeat split; try reflexivity; assumption|].
  apply (resume_from_checkpoint runner wrapper wrapper (optimizer_of trained)
           (scheduler_of trained) 3 0 world0 (NERDataProcessor cfg)
           eq_refl eq_refl Hz Hb Hm).
Defined.



Lemma update_steps_of_a_run_witness :
  (gradient_accumulation_steps (config runner_accum) = Z.of_nat 2 /\
   (0 < 2)%nat /\
   report_frequency (config runner_accum) <> 0 /\
   eval_frequency (config runner_accum) <> 0 /\
   data runner_accum = Some (NERDataProcessor cfg_accum) /\
   train_setup runner_accum wrapper false world0 = (setup_world runner_accum, Ok 4%nat)) /\
  let c := config runner_accum in
  let total := Z.of_nat (len_train (NERDataProcessor cfg_accum)) * num_epochs c
               / (gradient_accumulation_steps c * batch_size c) in
  exists q : list Event,
    trace (fst (train runner_accum wrapper false 0 world0)) = trace world0 ++ q /\
    4%nat = batches_per_epoch (len_train (NERDataProcessor cfg_accum)) (batch_size c) /\
    length (forward_losses q) = (Z.to_nat (num_epochs c - 0) * 4)%nat /\
    count_optimizer_steps q = (Z.to_nat (num_epochs c - 0) * 4 / 2)%nat /\
    (0 = 0 -> total <= Z.of_nat (count_optimizer_steps q)) /\
    (0 = 0 -> 0 <= num_epochs c ->
     (batch_size c | Z.of_nat (len_train (NERDataProcessor cfg_accum))) ->
     Z.of_nat (count_optimizer_steps q) = total).
Proof.
  assert (report_frequency (config runner_accum) <> 0) as Hrf by (vm_compute; discriminate).
  assert (eval_frequency (config runner_accum) <> 0) as Hef by (vm_compute; discriminate).
  assert (train_setup runner_accum wrapper false world0
          = (setup_world runner_accum, Ok 4%nat)) as Hs by (vm_compute; reflexivity).
  split; [repeat split; try reflexivity; try assumption; lia|].
  apply (update_steps_of_a_run runner_accum wrapper 0 world0 (setup_world runner_accum)
           4 2 (NERDataProcessor cfg_accum) eq_refl ltac:(lia) Hrf Hef eq_refl Hs).
Defined.

Lemma evaluate_ner_single_test_pass_witness :
  (wrapper_class_fn runner = Some NERWrapper /\
   data runner = Some (NERDataProcessor cfg)) /\
  let built sfx := new_wrapper NERWrapper (config runner) (device runner) sfx in
  let f1 (ws : Weights) := fst (evaluate ws Test 0) in
  (forall c sfx,
     let suffix := String c sfx in
     let source := weights_source runner suffix world_hub in
     evaluate_ner.evaluate runner (Some suffix) world_hub
     = match pretrained world_hub !! source with
       | Some m =>
           ({| self_optimizer := self_optimizer world_hub;
               self_scheduler := self_scheduler world_hub;
               files := files world_hub; pretrained := pretrained world_hub;
               trace := trace world_hub ++ [EFromPretrained source;
                                            EEvaluate Test 0 (f1 (weights m))] |}, Ok tt)
       | None => (add_event world_hub (EFromPretrained source), Raise OSError)
       end) /\
  (forall sfx, sfx = None \/ sfx = Some "" ->
     evaluate_ner.evaluate runner sfx world_hub
     = (add_event world_hub (EEvaluate Test 0 (f1 (weights (model (built sfx))))), Ok tt)).
Proof.
  split; [split; reflexivity|].
  apply (evaluate_ner_single_test_pass runner NERWrapper (NERDataProcessor cfg) world_hub
           eq_refl eq_refl).
Defined.

Lemma recognised_task_initializes_witness :
  ((lower (task cfg) = "coref" /\ NERWrapper = CorefWrapper /\
    NERDataProcessor cfg = CorefDataProcessor cfg) \/
   (lower (task cfg) = "ner" /\ NERWrapper = NERWrapper /\
    NERDataProcessor cfg = NERDataProcessor cfg) \/
   (lower (task cfg) = "ere" /\ NERWrapper = EREWrapper /\
    NERDataProcessor cfg = EREDataProcessor cfg)) /\
  exists self : Runner,
    Runner_init cfg "ner" "Aug14_19-53-06" (Some 0) None = Ok self /\
    config self = cfg /\ device self = Some 0 /\
    wrapper_class_fn self = Some NERWrapper /\ data self = Some (NERDataProcessor cfg) /\
    (forall sfx continue_training w,
        sfx = None \/ sfx = Some "" ->
        initialize_model self sfx continue_training w
        = (w, Ok (new_wrapper NERWrapper cfg (Some 0) sfx, 0))).
Proof.
  assert ((lower (task cfg) = "coref" /\ NERWrapper = CorefWrapper /\
           NERDataProcessor cfg = CorefDataProcessor cfg) \/
          (lower (task cfg) = "ner" /\ NERWrapper = NERWrapper /\
           NERDataProcessor cfg = NERDataProcessor cfg) \/
          (lower (task cfg) = "ere" /\ NERWrapper = EREWrapper /\
           NERDataProcessor cfg = EREDataProcessor cfg)) as Ht
    by (right; left; repeat split; reflexivity).
  split; [exact Ht|].
  apply (recognised_task_initializes cfg "ner" "Aug14_19-53-06" (Some 0) None
           NERWrapper (NERDataProcessor cfg) Ht).
Defined.

Lemma optimizer_step_then_scheduler_step_witness :
  exists q : list Event,
    trace (fst (train runner wrapper false 0 world0)) = trace world0 ++ q /\
    (forall pre post, q = pre ++ EOptimizerStep :: post ->
       exists post', post = ESchedulerStep :: post') /\
    (forall pre post, q = pre ++ ESchedulerStep :: post ->
       exists pre', pre = pre' ++ [EOptimizerStep]).
Proof. exact (optimizer_step_then_scheduler_step runner wrapper false 0 world0). Defined.


Lemma zero_frequency_stops_first_update_witness :
  (gradient_accumulation_steps (config runner_no_report) = Z.of_nat 2 /\
   (0 < 2)%nat /\
   (report_frequency (config runner_no_report) = 0 \/
    eval_frequency (config runner_no_report) = 0) /\
   train_setup runner_no_report wrapper false world0
   = (setup_world runner_no_report, Ok 4%nat) /\
   (2 <= length (mini_batches runner_no_report 4 0))%nat) /\
  exists q : list Event,
    trace (fst (train runner_no_report wrapper false 0 world0)) = trace world0 ++ q /\
    snd (train runner_no_report wrapper false 0 world0) = Raise ZeroDivisionError /\
    length (forward_losses q) = 2%nat /\
    count_optimizer_steps q = 1%nat /\
    forallb is_quiet q = true.
Proof.
  assert (report_frequency (config runner_no_report) = 0 \/
          eval_frequency (config runner_no_report) = 0) as Hz by (left; reflexivity).
  assert (train_setup runner_no_report wrapper false world0
          = (setup_world runner_no_report, Ok 4%nat)) as Hs by (vm_compute; reflexivity).
  assert (2 <= length (mini_batches runner_no_report 4 0))%nat as Hn by (vm_compute; lia).
  split; [repeat split; try reflexivity; try assumption; lia|].
  apply (zero_frequency_stops_first_update runner_no_report wrapper false 0 world0
           (setup_world runner_no_report) 4 2 eq_refl ltac:(lia) Hz Hs Hn).
Defined.

End Examples.
